(** * The board stitcher of SasaSight, verified against its specification

    A shallow embedding of the class [BoardStitcher] (the stitcher.ts of
    apps/web/src/lib/mapping, as carried in
    apps/web/src/lib/camera/useCamera.ts): frame ingestion, edge-correlation
    overlap detection, composition sizing and drawing, content cropping and
    the progress / quality queries, followed by the properties the
    specification states about them.

    Conventions of the embedding:
    - a JavaScript [number] that carries a fraction (quality, correlation
      score, progress, drawing coordinates) is a binary64 float, the kernel's
      primitive [float]; its operations are the IEEE operations JavaScript
      performs;
    - a [number] that is an integer by construction (array lengths and
      indexes, pixel bytes, canvas dimensions, loop counters) is a [Z]; such
      values stay far below 2^53, where binary64 arithmetic on integers is
      exact, and they are injected into [float] with [Number.ofZ] wherever
      the code mixes them with fractions;
    - the canvas sizes, which only ever involve halves of integers, are
      exact rationals ([Q]);
    - a thrown exception (for the [async] method [stitch], a rejected
      promise) is the [Throw] case of [completion];
    - the browser (canvas creation and rasterisation) is a parameter of
      [stitch]; what it draws is kept as the stream of commands issued;
      what it refuses is thrown: [getImageData] on a rectangle with an
      empty side, [drawImage] of a canvas with an empty side. *)

From Stdlib Require Import String ZArith List Bool Lia Floats QArith Qround Lqa.
From Stdlib Require Uint63.
Import ListNotations.
Set Warnings "-inexact-float".

(** * Binary64 numbers *)

Module Number.
Open Scope Z_scope.

(** An integer as a number; exact for magnitudes below 2^53. *)
Definition ofZ (z : Z) : float :=
  if z <? 0 then (- of_uint63 (Uint63.of_Z (- z)))%float
  else of_uint63 (Uint63.of_Z z).

(** [Math.min] on two numbers: NaN if either is NaN, and -0 below +0. *)
Definition Math_min (a b : float) : float :=
  if is_nan a || is_nan b then nan
  else if (a <? b)%float then a
  else if (b <? a)%float then b
  else if get_sign a then a else b.

(** [m * 2^e] rounded to the nearest integer, ties to even. *)
Definition roundHalfEven (m : positive) (e : Z) : Z :=
  if 0 <=? e then Z.pos m * 2 ^ e
  else
    let d := 2 ^ (- e) in
    let q := Z.pos m / d in
    let r := Z.pos m mod d in
    match 2 * r ?= d with
    | Lt => q
    | Gt => q + 1
    | Eq => if Z.even q then q else q + 1
    end.

(** The conversion a [Uint8ClampedArray] applies to a stored number
    (ToUint8Clamp): NaN becomes 0, the value is clamped to [0, 255] and
    rounded to the nearest integer, ties to even. *)
Definition toUint8Clamp (x : float) : Z :=
  match Prim2SF x with
  | S754_nan => 0
  | S754_zero _ => 0
  | S754_infinity s => if s then 0 else 255
  | S754_finite true _ _ => 0
  | S754_finite false m e => Z.min 255 (Z.max 0 (roundHalfEven m e))
  end.

End Number.

(** * Exceptions *)

Inductive JsError : Type :=
| Error (message : string)
| TypeError
| DOMException (name : string).

Inductive completion (A : Type) : Type :=
| Return (a : A)
| Throw (e : JsError).
Arguments Return {A} a.
Arguments Throw {A} e.

Definition bind {A B : Type} (c : completion A) (k : A -> completion B)
  : completion B :=
  match c with
  | Return a => k a
  | Throw e => Throw e
  end.

Notation "x <- c ;; k" := (bind c (fun x => k))
  (at level 61, c at next level, right associativity).

(** * Arrays and loops *)

Open Scope Z_scope.

(** [a[i]]: [None] stands for [undefined], the value of an index out of
    range (negative ones included). *)
Definition js_get {A : Type} (a : list A) (i : Z) : option A :=
  if i <? 0 then None else nth_error a (Z.to_nat i).

(** [a[i] = v] on a typed array: a store out of range is ignored. *)
Fixpoint store_nat {A : Type} (a : list A) (i : nat) (v : A) : list A :=
  match a, i with
  | [], _ => []
  | _ :: a', O => v :: a'
  | x :: a', S i' => x :: store_nat a' i' v
  end.

Definition js_set {A : Type} (a : list A) (i : Z) (v : A) : list A :=
  if i <? 0 then a else store_nat a (Z.to_nat i) v.

Definition len {A : Type} (a : list A) : Z := Z.of_nat (length a).

(** [for (let i = a; i < b; i++) body]: [forFrom a (Z.to_nat (b - a))]. *)
Fixpoint forFrom {S : Type} (i : Z) (n : nat) (body : Z -> S -> S) (s : S) : S :=
  match n with
  | O => s
  | Datatypes.S n' => forFrom (i + 1) n' body (body i s)
  end.

Definition forRange {S : Type} (a b : Z) (body : Z -> S -> S) (s : S) : S :=
  forFrom a (Z.to_nat (b - a)) body s.

(** The same loop when its body reads [arr[i]]: the elements of [arr] from
    index [i] on are handed to the body with their index. *)
Fixpoint forEachFrom {A S : Type} (i : Z) (arr : list A)
    (body : Z -> A -> S -> S) (s : S) : S :=
  match arr with
  | [] => s
  | a :: arr' => forEachFrom (i + 1) arr' body (body i a s)
  end.

(** * The canvas, as the stitcher observes it *)

Module Canvas.

Record t : Type := mk {
  width : Z;
  height : Z;
  (** whether [getContext('2d')] yields a context *)
  has2d : bool;
  (** RGBA bytes, row-major: what [getImageData(0, 0, width, height).data] holds *)
  pixels : list Z
}.

(** [ctx.getImageData(0, 0, canvas.width, canvas.height).data]; a source
    rectangle with a zero side is an [IndexSizeError]. *)
Definition getImageData (c : t) : completion (list Z) :=
  if (width c =? 0) || (height c =? 0)
  then Throw (DOMException "IndexSizeError")
  else Return (pixels c).

(** A canvas a browser can hold: sides within the range of the reflected
    [unsigned long] attributes, four bytes per pixel. *)
Definition wf (c : t) : Prop :=
  0 < width c < 2 ^ 31 /\ 0 < height c < 2 ^ 31 /\
  len (pixels c) = 4 * (width c * height c) /\
  Forall (fun v => 0 <= v <= 255) (pixels c).

(** A canvas whose pixels can be read: it has a context and no empty side. *)
Definition readable (c : t) : Prop :=
  has2d c = true /\ 0 < width c /\ 0 < height c < 2 ^ 31.

End Canvas.

Module ImageData.
Record t : Type := mk { width : Z; height : Z; data : list Z }.
End ImageData.

(** * Data model *)

Module StitchFrame.
Record t : Type := mk {
  id : string;
  index : Z;
  canvas : Canvas.t;
  imageData : ImageData.t;
  timestamp : float;
  quality : float
}.
End StitchFrame.

Module OverlapRegion.
Record t : Type := mk {
  frame1Id : string;
  frame2Id : string;
  x : Z;
  y : Z;
  width : Z;
  height : Z;
  confidence : float
}.
End OverlapRegion.

Module Transform.
Record t : Type := mk { tx : float; ty : float; scale : float }.
End Transform.

(** [Map<string, Transform>]: insertion-ordered, [set] on a present key
    replaces its value in place. *)
Fixpoint map_set {V : Type} (m : list (string * V)) (k : string) (v : V)
  : list (string * V) :=
  match m with
  | [] => [(k, v)]
  | (k', v') :: m' =>
      if String.eqb k' k then (k, v) :: m' else (k', v') :: map_set m' k v
  end.

(** * The 2D context, as a command stream *)

Inductive FillStyle : Type :=
| Color (css : string)
| LinearGradient (x0 y0 x1 y1 : float) (stops : list (float * string)).

Inductive DrawCmd : Type :=
| SetGlobalAlpha (a : float)
| SetFillStyle (s : FillStyle)
| FillRect (x y w h : float)
| DrawImage (image : Canvas.t) (dx dy : float)
| DrawImageCrop (image : Canvas.t) (sx sy sw sh dx dy dw dh : float)
| Save
| Restore.

(** The browser: [createCanvas w h] is [document.createElement('canvas')]
    followed by the assignment of [w] and [h] to its width and height;
    [rasterize c cmds] is the pixel content of [c] after the commands. *)
Record Browser : Type := {
  createCanvas : Q -> Q -> Canvas.t;
  rasterize : Canvas.t -> list DrawCmd -> list Z
}.

Definition paint (b : Browser) (c : Canvas.t) (cmds : list DrawCmd) : Canvas.t :=
  Canvas.mk (Canvas.width c) (Canvas.height c) (Canvas.has2d c) (rasterize b c cmds).

(** [ctx.drawImage(image, dx, dy)] with a canvas as the image: the image
    is checked first, and a canvas with an empty side is an
    [InvalidStateError]; otherwise the command is issued. *)
Definition drawImage (image : Canvas.t) (dx dy : float) : completion DrawCmd :=
  if (Canvas.width image =? 0)%Z || (Canvas.height image =? 0)%Z
  then Throw (DOMException "InvalidStateError")
  else Return (DrawImage image dx dy).

(** The size a canvas takes when a number is assigned to its [width] or
    [height]: the number is converted to an [unsigned long] (truncated
    towards zero, then taken modulo 2^32), and a result above 2^31 - 1
    gives way to the attribute's default, 300 for the width and 150 for
    the height. *)
Definition reflectedSize (default : Z) (q : Q) : Z :=
  let v := (Z.quot (Qnum q) (Z.pos (Qden q))) mod 2 ^ 32 in
  if (v <=? 2147483647)%Z then v else default.

(** A browser whose new canvases have the sizes so assigned. *)
Definition reflectsSizes (b : Browser) : Prop :=
  forall w h : Q,
    Canvas.width (createCanvas b w h) = reflectedSize 300 w /\
    Canvas.height (createCanvas b w h) = reflectedSize 150 h.

(** * The stitcher *)

Inductive Side : Type := Left | Right.

(** What [console.warn] receives. *)
Inductive Console : Type :=
| SkippingLowQualityFrame (quality : float).

Module BoardStitcher.

Record t : Type := mk {
  frames : list StitchFrame.t;
  composition : option Canvas.t;
  transforms : list (string * Transform.t);
  overlaps : list OverlapRegion.t
}.

(** A freshly constructed stitcher. *)
Definition new : t := mk [] None [] [].

Definition addFrame (s : t) (frame : StitchFrame.t) : list Console * t :=
  if (StitchFrame.quality frame <? 0.3)%float
  then ([SkippingLowQualityFrame (StitchFrame.quality frame)], s)
  else ([], mk (frames s ++ [frame]) (composition s) (transforms s) (overlaps s)).

(** [(data[idx] + data[idx + 1] + data[idx + 2]) / 3]; a read out of range
    is [undefined] and makes the sum NaN. *)
Definition grayAt (data : list Z) (idx : Z) : float :=
  match js_get data idx, js_get data (idx + 1), js_get data (idx + 2) with
  | Some r, Some g, Some b => (Number.ofZ (r + g + b) / 3)%float
  | _, _, _ => nan
  end.

Definition extractVerticalEdge (canvas : Canvas.t) (side : Side) (width : Z)
  : completion (option (list Z)) :=
  if negb (Canvas.has2d canvas) then Return None
  else
    data <- Canvas.getImageData canvas ;;
    let x := match side with
             | Right => Canvas.width canvas - width
             | Left => 0
             end in
    let edge := repeat 0 (Z.to_nat (Canvas.height canvas * width)) in
    Return (Some (
      forRange 0 (Canvas.height canvas) (fun y edge =>
        forRange 0 width (fun px edge =>
          let idx := (y * Canvas.width canvas + x + px) * 4 in
          let gray := grayAt data idx in
          js_set edge (y * width + px) (Number.toUint8Clamp gray))
        edge)
      edge)).

(** [Math.abs(edge1[i] - edge2[j])]. *)
Definition absDiff (a b : option Z) : float :=
  match a, b with
  | Some u, Some v => Number.ofZ (Z.abs (u - v))
  | _, _ => nan
  end.

Definition correlateEdges (edge1 edge2 : list Z) (offset : Z) : float :=
  let '(sum, count) :=
    forRange 0 (Z.min (len edge1) (len edge2 - offset))
      (fun i '(sum, count) =>
         let diff := absDiff (js_get edge1 i) (js_get edge2 (i + offset)) in
         ((sum + (1 - diff / 255))%float, count + 1))
      (0%float, 0) in
  if count >? 0 then (sum / Number.ofZ count)%float else 0%float.

(** One round of the offset search of [detectOverlap]. *)
Definition searchStep (rightEdge leftEdge : list Z) (offset : Z)
    (best : Z * float) : Z * float :=
  let '(bestOffset, bestScore) := best in
  let score := correlateEdges rightEdge leftEdge offset in
  if (bestScore <? score)%float then (offset, score) else (bestOffset, bestScore).

(** The offset search: [(bestOffset, bestScore)]. *)
Definition bestCorrelation (rightEdge leftEdge : list Z) : Z * float :=
  forRange 0 (Z.min (len rightEdge) (len leftEdge) - 20)
    (searchStep rightEdge leftEdge) (0, 0%float).

Definition detectOverlap (frame1 frame2 : StitchFrame.t)
  : completion (option OverlapRegion.t) :=
  let canvas1 := StitchFrame.canvas frame1 in
  let canvas2 := StitchFrame.canvas frame2 in
  rightEdge <- extractVerticalEdge canvas1 Right 60 ;;
  leftEdge <- extractVerticalEdge canvas2 Left 60 ;;
  match rightEdge, leftEdge with
  | Some rightEdge, Some leftEdge =>
      let '(bestOffset, bestScore) := bestCorrelation rightEdge leftEdge in
      if (bestScore <? 0.5)%float then Return None
      else Return (Some (OverlapRegion.mk
                           (StitchFrame.id frame1)
                           (StitchFrame.id frame2)
                           (Canvas.width canvas1 - 60)
                           bestOffset
                           60
                           (Canvas.height canvas1 - Z.abs bestOffset)
                           bestScore))
  | _, _ => Return None
  end.

(** The commands [blendFrames] issues, up to the first [drawImage] that
    throws, and how it ends.  The gradient coordinates are sums of integer
    sizes and offsets; [createLinearGradient], which refuses only a
    coordinate that is not finite, is taken to accept them. *)
Definition blendFrames (frame1 frame2 : Canvas.t) (overlap : OverlapRegion.t)
    (xOffset yOffset : float) : list DrawCmd * completion unit :=
  let overlapX := (xOffset + Number.ofZ (OverlapRegion.x overlap))%float in
  let overlapY := (yOffset + Number.ofZ (OverlapRegion.y overlap))%float in
  let blendWidth := Number.ofZ (OverlapRegion.width overlap) in
  match drawImage frame1 xOffset yOffset with
  | Throw e => ([SetGlobalAlpha 1], Throw e)
  | Return first =>
      let gradient :=
        [ SetGlobalAlpha 1;
          first;
          Save;
          SetGlobalAlpha 0.5;
          SetFillStyle (LinearGradient overlapX 0 (overlapX + blendWidth) 0
                          [(0%float, "rgba(0,0,0,0.3)"%string);
                           (1%float, "rgba(0,0,0,0)"%string)]);
          FillRect overlapX overlapY blendWidth
                   (Number.ofZ (OverlapRegion.height overlap));
          SetGlobalAlpha 0.7 ]%float in
      match drawImage frame2
              (xOffset + Number.ofZ (Canvas.width frame1)
               - Number.ofZ (OverlapRegion.width overlap))%float
              (yOffset + Number.ofZ (OverlapRegion.y overlap))%float with
      | Throw e => (gradient, Throw e)
      | Return second => (gradient ++ [second; Restore], Return tt)
      end
  end.

(** One round of the detection loop of [stitch], on the overlaps collected
    so far and whether an earlier round threw. *)
Definition detectStep (fs : list StitchFrame.t) (i : Z) (frame : StitchFrame.t)
    (acc : list OverlapRegion.t * completion unit)
  : list OverlapRegion.t * completion unit :=
  let '(ovs, st) := acc in
  match st with
  | Throw e => (ovs, Throw e)
  | Return _ =>
      match js_get fs (i + 1) with
      | None => (ovs, Throw TypeError)
      | Some next =>
          match detectOverlap frame next with
          | Throw e => (ovs, Throw e)
          | Return (Some overlap) => (ovs ++ [overlap], Return tt)
          | Return None => (ovs, Return tt)
          end
      end
  end.

(** The detection loop, started on an emptied [overlaps]. *)
Definition detectOverlaps (fs : list StitchFrame.t)
  : list OverlapRegion.t * completion unit :=
  forEachFrom 0 (removelast fs) (detectStep fs) ([], Return tt).

Definition padding : Z := 20.

(** One round of the sizing loop of [stitch]. *)
Definition extentStep (ovs : list OverlapRegion.t) (i : Z) (frame : StitchFrame.t)
    (acc : Q * Z) : Q * Z :=
  let '(totalWidth, maxHeight) := acc in
  let overlap := js_get ovs (i - 1) in
  let overlapWidth := match overlap with
                      | Some o => OverlapRegion.width o
                      | None => 0
                      end in
  let frameContribution :=
    (inject_Z (Canvas.width (StitchFrame.canvas frame))
     - inject_Z overlapWidth * (1 # 2))%Q in
  ((totalWidth + frameContribution)%Q,
   Z.max maxHeight (Canvas.height (StitchFrame.canvas frame))).

(** [totalWidth] and [maxHeight] after the sizing loop. *)
Definition compositionExtent (first : StitchFrame.t) (fs : list StitchFrame.t)
    (ovs : list OverlapRegion.t) : Q * Z :=
  forEachFrom 1 (tl fs) (extentStep ovs)
    (inject_Z (Canvas.width (StitchFrame.canvas first)),
     Canvas.height (StitchFrame.canvas first)).

(** The width and height assigned to the composition canvas. *)
Definition compositionSize (first : StitchFrame.t) (fs : list StitchFrame.t)
    (ovs : list OverlapRegion.t) : Q * Q :=
  let '(totalWidth, maxHeight) := compositionExtent first fs ovs in
  ((totalWidth + inject_Z (padding * 2))%Q, inject_Z (maxHeight + padding * 2)).

Record DrawState : Type := {
  currentX : float;
  placed : list (string * Transform.t);
  commands : list DrawCmd;
  status : completion unit
}.

(** One round of the drawing loop of [stitch]. *)
Definition drawStep (fs : list StitchFrame.t) (ovs : list OverlapRegion.t)
    (i : Z) (frame : StitchFrame.t) (st : DrawState) : DrawState :=
  match status st with
  | Throw _ => st
  | Return _ =>
      let transform := Transform.mk (currentX st) (Number.ofZ padding) 1 in
      let placed' := map_set (placed st) (StitchFrame.id frame) transform in
      let w := Number.ofZ (Canvas.width (StitchFrame.canvas frame)) in
      let adjacent :=
        match drawImage (StitchFrame.canvas frame) (currentX st)
                        (Number.ofZ padding) with
        | Return image =>
            {| currentX := (currentX st + w)%float;
               placed := placed';
               commands := commands st ++ [image];
               status := Return tt |}
        | Throw e =>
            {| currentX := currentX st; placed := placed';
               commands := commands st; status := Throw e |}
        end in
      if i =? 0 then adjacent
      else
        match js_get ovs (i - 1) with
        | Some overlap =>
            match js_get fs (i - 1) with
            | None =>
                {| currentX := currentX st; placed := placed';
                   commands := commands st; status := Throw TypeError |}
            | Some prevFrame =>
                let '(blend, outcome) :=
                  blendFrames (StitchFrame.canvas prevFrame)
                    (StitchFrame.canvas frame) overlap
                    (currentX st
                     - Number.ofZ (Canvas.width (StitchFrame.canvas prevFrame)))%float
                    (Number.ofZ padding) in
                match outcome with
                | Return _ =>
                    {| currentX :=
                         (currentX st
                          + (w - Number.ofZ (OverlapRegion.width overlap) * 0.7))%float;
                       placed := placed';
                       commands := commands st ++ blend;
                       status := Return tt |}
                | Throw e =>
                    {| currentX := currentX st; placed := placed';
                       commands := commands st ++ blend; status := Throw e |}
                end
            end
        | None => adjacent
        end
  end.

(** The drawing loop of [stitch]. *)
Definition drawFrames (fs : list StitchFrame.t) (ovs : list OverlapRegion.t)
    (st : DrawState) : DrawState :=
  forEachFrom 0 fs (drawStep fs ovs) st.

Definition gt (v : option Z) (n : Z) : bool :=
  match v with
  | Some u => u >? n
  | None => false
  end.

Record Bounds : Type := { minX : Z; maxX : Z; minY : Z; maxY : Z }.

(** The scan of [cropToContent] over every pixel of the canvas. *)
Definition contentBounds (canvas : Canvas.t) (data : list Z) : Bounds :=
  forFrom 0 (Z.to_nat ((len data + 3) / 4))
    (fun pixelIndex bd =>
       let i := pixelIndex * 4 in
       let r := js_get data i in
       let g := js_get data (i + 1) in
       let b := js_get data (i + 2) in
       let a := js_get data (i + 3) in
       if negb (gt r 240 && gt g 240 && gt b 240) || gt a 200 then
         let y := pixelIndex / Canvas.width canvas in
         let x := pixelIndex mod Canvas.width canvas in
         {| minX := Z.min (minX bd) x; maxX := Z.max (maxX bd) x;
            minY := Z.min (minY bd) y; maxY := Z.max (maxY bd) y |}
       else bd)
    {| minX := Canvas.width canvas; maxX := 0;
       minY := Canvas.height canvas; maxY := 0 |}.

Definition cropToContent (b : Browser) (canvas : Canvas.t) : completion Canvas.t :=
  if negb (Canvas.has2d canvas) then Return canvas
  else
    data <- Canvas.getImageData canvas ;;
    let bd := contentBounds canvas data in
    let padding := 10 in
    let minX := Z.max 0 (minX bd - padding) in
    let minY := Z.max 0 (minY bd - padding) in
    let maxX := Z.min (Canvas.width canvas) (maxX bd + padding) in
    let maxY := Z.min (Canvas.height canvas) (maxY bd + padding) in
    let croppedCanvas :=
      createCanvas b (inject_Z (maxX - minX)) (inject_Z (maxY - minY)) in
    if Canvas.has2d croppedCanvas then
      Return (paint b croppedCanvas
                [DrawImageCrop canvas
                   (Number.ofZ minX) (Number.ofZ minY)
                   (Number.ofZ (maxX - minX)) (Number.ofZ (maxY - minY))
                   0 0
                   (Number.ofZ (maxX - minX)) (Number.ofZ (maxY - minY))])
    else Return croppedCanvas.

(** The two errors [stitch] raises itself: the specification's
    [EmptyInputError] and [RenderSurfaceError]. *)
Definition emptyInput : JsError := Error "No frames to stitch".

Definition renderSurface : JsError := Error "Failed to get canvas context".

Definition stitch (b : Browser) (s : t) : completion Canvas.t * t :=
  match frames s with
  | [] => (Throw emptyInput, s)
  | [only] => (Return (StitchFrame.canvas only), s)
  | first :: _ =>
      let '(ovs, detected) := detectOverlaps (frames s) in
      match detected with
      | Throw e => (Throw e, mk (frames s) (composition s) (transforms s) ovs)
      | Return _ =>
          let '(w, h) := compositionSize first (frames s) ovs in
          let blank := createCanvas b w h in
          if negb (Canvas.has2d blank) then
            (Throw renderSurface,
             mk (frames s) (composition s) (transforms s) ovs)
          else
            let background :=
              [SetFillStyle (Color "white");
               FillRect 0 0 (Number.ofZ (Canvas.width blank))
                            (Number.ofZ (Canvas.height blank))] in
            let drawn :=
              drawFrames (frames s) ovs
                {| currentX := Number.ofZ padding; placed := transforms s;
                   commands := background; status := Return tt |} in
            match status drawn with
            | Throw e => (Throw e, mk (frames s) (composition s) (placed drawn) ovs)
            | Return _ =>
                match cropToContent b (paint b blank (commands drawn)) with
                | Throw e =>
                    (Throw e, mk (frames s) (composition s) (placed drawn) ovs)
                | Return cropped =>
                    (Return cropped,
                     mk (frames s) (Some cropped) (placed drawn) ovs)
                end
            end
      end
  end.

Definition getComposition (s : t) : option Canvas.t := composition s.

(** The two terms of [getProgress]. *)
Definition frameProgress (s : t) : float :=
  (Number.ofZ (len (frames s)) / 20 * 60)%float.

Definition overlapProgress (s : t) : float :=
  (Number.ofZ (len (overlaps s))
   / Number.ofZ (Z.max 1 (len (frames s) - 1)) * 40)%float.

Definition getProgress (s : t) : float :=
  if len (frames s) =? 0 then 0%float
  else Number.Math_min 100 (frameProgress s + overlapProgress s)%float.

Definition getQuality (s : t) : float :=
  if len (frames s) <? 2 then 0%float
  else
    let frameScore := Number.Math_min 1 (Number.ofZ (len (frames s)) / 20)%float in
    let avgOverlapConfidence :=
      if len (overlaps s) >? 0
      then (fold_left (fun sum o => sum + OverlapRegion.confidence o) (overlaps s) 0
            / Number.ofZ (len (overlaps s)))%float
      else 0%float in
    let avgFrameQuality :=
      (fold_left (fun sum f => sum + StitchFrame.quality f) (frames s) 0
       / Number.ofZ (len (frames s)))%float in
    (frameScore * 0.4 + avgOverlapConfidence * 0.3 + avgFrameQuality * 0.3)%float.

Definition getFrameCount (s : t) : Z := len (frames s).

Definition getFrames (s : t) : list StitchFrame.t := frames s.

Definition clear (s : t) : t := mk [] None [] [].

End BoardStitcher.

(** * Sessions: sequences of calls on one stitcher *)

Inductive Call : Type :=
| CallAddFrame (frame : StitchFrame.t)
| CallStitch (b : Browser)
| CallGetProgress
| CallGetQuality
| CallClear.

Definition call (s : BoardStitcher.t) (c : Call) : BoardStitcher.t :=
  match c with
  | CallAddFrame frame => snd (BoardStitcher.addFrame s frame)
  | CallStitch b => snd (BoardStitcher.stitch b s)
  | CallGetProgress => s
  | CallGetQuality => s
  | CallClear => BoardStitcher.clear s
  end.

(** The stitcher after a session that starts on a fresh instance. *)
Definition session (calls : list Call) : BoardStitcher.t :=
  fold_left call calls BoardStitcher.new.

(** The frames a session has stored, read off its calls, latest first:
    frames enter through [addFrame] when their quality passes the gate,
    and leave through [clear] only. *)
Fixpoint storedFrames (latestFirst : list Call) : list StitchFrame.t :=
  match latestFirst with
  | [] => []
  | CallAddFrame frame :: earlier =>
      if (StitchFrame.quality frame <? 0.3)%float then storedFrames earlier
      else storedFrames earlier ++ [frame]
  | CallClear :: _ => []
  | _ :: earlier => storedFrames earlier
  end.

(** The overlaps found by the most recent [stitch] that ran on at least
    two frames, with nothing in between forgetting them but [clear]; empty
    when there has been none since construction or the last [clear]. *)
Fixpoint mostRecentDetection (latestFirst : list Call) : list OverlapRegion.t :=
  match latestFirst with
  | [] => []
  | CallClear :: _ => []
  | CallStitch _ :: earlier =>
      if 2 <=? len (storedFrames earlier)
      then fst (BoardStitcher.detectOverlaps (storedFrames earlier))
      else mostRecentDetection earlier
  | _ :: earlier => mostRecentDetection earlier
  end.

(** ** Overlap detection, in the specification's words *)

(** Byte [k] (0 red, 1 green, 2 blue, 3 alpha) of the pixel at column [x],
    row [y]. *)
Definition channel (c : Canvas.t) (x y k : Z) : Z :=
  nth (Z.to_nat (4 * (y * Canvas.width c + x) + k)) (Canvas.pixels c) 0.

(** The unweighted mean of the three colour channels, to the nearest
    integer as a byte array holds it. *)
Definition spec_gray (c : Canvas.t) (x y : Z) : Z :=
  (2 * (channel c x y 0 + channel c x y 1 + channel c x y 2) + 3) / 6.

Definition stripOrigin (c : Canvas.t) (side : Side) : Z :=
  match side with
  | Right => Canvas.width c - 60
  | Left => 0
  end.

Definition upto (n : Z) : list Z := map Z.of_nat (seq 0 (Z.to_nat n)).

(** The 60-pixel grayscale strip at an edge of the canvas, row after row. *)
Definition spec_strip (c : Canvas.t) (side : Side) : list Z :=
  map (fun k => spec_gray c (stripOrigin c side + k mod 60) (k / 60))
      (upto (60 * Canvas.height c)).

Definition spec_term (leftStrip rightStrip : list Z) (o i : Z) : float :=
  let diff := Z.abs (nth (Z.to_nat i) leftStrip 0
                     - nth (Z.to_nat (i + o)) rightStrip 0) in
  (1 - Number.ofZ diff / 255)%float.

(** The average, over the rows compared at offset [o], of
    [1 - |leftStrip[i] - rightStrip[i + o]| / 255]. *)
Definition spec_score (leftStrip rightStrip : list Z) (o : Z) : float :=
  let n := Z.min (len leftStrip) (len rightStrip - o) in
  if n >? 0
  then (fold_left PrimFloat.add (map (spec_term leftStrip rightStrip o) (upto n)) 0
        / Number.ofZ n)%float
  else 0%float.

(** ** The composite size, in the specification's words *)

Definition frameWidth (f : StitchFrame.t) : Z := Canvas.width (StitchFrame.canvas f).

Definition frameHeight (f : StitchFrame.t) : Z := Canvas.height (StitchFrame.canvas f).

(** What overlap detection finds for each consecutive pair of frames. *)
Fixpoint pairOverlaps (fs : list StitchFrame.t) : list (option OverlapRegion.t) :=
  match fs with
  | [] => []
  | f1 :: rest =>
      match rest with
      | [] => []
      | f2 :: _ =>
          match BoardStitcher.detectOverlap f1 f2 with
          | Return found => found
          | Throw _ => None
          end :: pairOverlaps rest
      end
  end.

Definition sumWidths (fs : list StitchFrame.t) : Z :=
  fold_right (fun f acc => frameWidth f + acc) 0 fs.

(** Half the overlap width for a pair with an overlap, nothing otherwise. *)
Definition halfOverlap (found : option OverlapRegion.t) : Q :=
  match found with
  | Some o => (inject_Z (OverlapRegion.width o) * (1 # 2))%Q
  | None => 0%Q
  end.

Definition sumHalfOverlaps (pairs : list (option OverlapRegion.t)) : Q :=
  fold_right (fun p acc => (halfOverlap p + acc)%Q) 0%Q pairs.

Definition spec_compositeWidth (fs : list StitchFrame.t) : Q :=
  (inject_Z (sumWidths fs) - sumHalfOverlaps (pairOverlaps fs)
   + inject_Z 20 + inject_Z 20)%Q.

Definition spec_compositeHeight (first : StitchFrame.t) (rest : list StitchFrame.t) : Z :=
  fold_right Z.max (frameHeight first) (map frameHeight rest) + 20 + 20.

(** * Example inputs *)

Module Examples.

(** A canvas of one colour, every byte of every pixel equal to [v]. *)
Definition solidCanvas (w h v : Z) : Canvas.t :=
  Canvas.mk w h true (repeat v (Z.to_nat (4 * (w * h)))).

Definition frameOf (id : string) (index : Z) (c : Canvas.t) (quality : float)
  : StitchFrame.t :=
  StitchFrame.mk id index c
    (ImageData.mk (Canvas.width c) (Canvas.height c) (Canvas.pixels c))
    0%float quality.

(** A browser that hands out white canvases of the integer size asked for
    and paints nothing. *)
Definition blankBrowser : Browser :=
  {| createCanvas := fun w h =>
       Canvas.mk (Qfloor w) (Qfloor h) true
                 (repeat 255 (Z.to_nat (4 * (Qfloor w * Qfloor h))));
     rasterize := fun c _ => Canvas.pixels c |}.

(** A browser that cannot give a drawing context. *)
Definition exhaustedBrowser : Browser :=
  {| createCanvas := fun w h => Canvas.mk (Qfloor w) (Qfloor h) false [];
     rasterize := fun c _ => Canvas.pixels c |}.

(** Scenario D of the specification: qualities 0.2 and 0.8. *)
Definition blurred : StitchFrame.t := frameOf "blurred" 0 (solidCanvas 64 2 128) 0.2.

Definition sharp : StitchFrame.t := frameOf "sharp" 1 (solidCanvas 64 2 128) 0.8.

Definition sharp' : StitchFrame.t := frameOf "sharp-2" 2 (solidCanvas 64 2 128) 0.9.

(** A 100-pixel frame followed by two 5-pixel slivers, all black. *)
Definition wide : StitchFrame.t := frameOf "wide" 0 (solidCanvas 100 1 0) 0.9.

Definition sliver : StitchFrame.t := frameOf "sliver-1" 1 (solidCanvas 5 1 0) 0.9.

Definition sliver' : StitchFrame.t := frameOf "sliver-2" 2 (solidCanvas 5 1 0) 0.9.

End Examples.

(** Further inputs: a white frame, a frame whose measured quality is NaN,
    a transparent near-white canvas 21 pixels wide, the overlap that
    detection finds between [Examples.wide] and [Examples.sliver], a
    browser that sizes its canvases as assigned, and frames that are very
    small, partly white, narrow, nearly black, or without a context. *)
Module Samples.

Definition pale : StitchFrame.t :=
  Examples.frameOf "pale" 0 (Examples.solidCanvas 64 1 255) 0.9.

Definition unmeasured : StitchFrame.t :=
  Examples.frameOf "unmeasured" 3 (Examples.solidCanvas 64 2 128) nan.

Definition ghost : Canvas.t :=
  Canvas.mk 21 1 true (concat (repeat [255; 255; 255; 0] 21)).

Definition joint : OverlapRegion.t :=
  OverlapRegion.mk "wide" "sliver-1" 40 0 60 1 1.

Definition easel : BoardStitcher.DrawState :=
  {| BoardStitcher.currentX := Number.ofZ BoardStitcher.padding;
     BoardStitcher.placed := [];
     BoardStitcher.commands := [];
     BoardStitcher.status := Return tt |}.

(** A browser whose canvases take the sizes assigned to them, start out
    transparent black, and on which nothing is painted. *)
Definition sizingBrowser : Browser :=
  {| createCanvas := fun w h =>
       Canvas.mk (reflectedSize 300 w) (reflectedSize 150 h) true
                 (repeat 0 (Z.to_nat (4 * (reflectedSize 300 w * reflectedSize 150 h))));
     rasterize := fun c _ => Canvas.pixels c |}.

(** Three black frames of a single pixel. *)
Definition speck : StitchFrame.t :=
  Examples.frameOf "speck-1" 0 (Examples.solidCanvas 1 1 0) 0.9.

Definition speck' : StitchFrame.t :=
  Examples.frameOf "speck-2" 1 (Examples.solidCanvas 1 1 0) 0.9.

Definition speck'' : StitchFrame.t :=
  Examples.frameOf "speck-3" 2 (Examples.solidCanvas 1 1 0) 0.9.

(** A black frame of one row of 60 pixels, and a frame of two such rows
    whose first 70 pixels are white and whose last 50 are black. *)
Definition night : StitchFrame.t :=
  Examples.frameOf "night" 0 (Examples.solidCanvas 60 1 0) 0.9.

Definition dawn : StitchFrame.t :=
  Examples.frameOf "dawn" 1
    (Canvas.mk 60 2 true
       (concat (repeat [255; 255; 255; 255] 70) ++ concat (repeat [0; 0; 0; 255] 50)))
    0.9.

(** A white frame 3 pixels wide. *)
Definition chalk : StitchFrame.t :=
  Examples.frameOf "chalk" 0 (Examples.solidCanvas 3 1 255) 0.9.

(** A frame of one row of 60 pixels, each with red 1, green 0, blue 0. *)
Definition ember : StitchFrame.t :=
  Examples.frameOf "ember" 0
    (Canvas.mk 60 1 true (concat (repeat [1; 0; 0; 255] 60))) 0.9.

(** A white frame whose canvas gives no 2D context. *)
Definition veiled : StitchFrame.t :=
  Examples.frameOf "veiled" 0
    (Canvas.mk 64 1 false (repeat 255 256)) 0.9.

End Samples.

(** * Properties *)

(** ** Binary64 comparison and sign *)

Module Binary64.
Import Number.
Open Scope Z_scope.

Definition cmpKey (x : spec_float) : Z * Z * Z :=
  match x with
  | S754_infinity true => (-2, 0, 0)
  | S754_finite true m e => (-1, - e, - Z.pos m)
  | S754_zero _ => (0, 0, 0)
  | S754_nan => (0, 0, 0)
  | S754_finite false m e => (1, e, Z.pos m)
  | S754_infinity false => (2, 0, 0)
  end.

Definition lexCompare (a b : Z * Z * Z) : comparison :=
  let '(a1, a2, a3) := a in
  let '(b1, b2, b3) := b in
  match a1 ?= b1 with
  | Eq => match a2 ?= b2 with
          | Eq => a3 ?= b3
          | c => c
          end
  | c => c
  end.

Definition isNaN (x : spec_float) : bool :=
  match x with S754_nan => true | _ => false end.

Lemma SFcompare_nan_l x y : isNaN x = true -> SFcompare x y = None.
Proof. destruct x; simpl; try discriminate; reflexivity. Qed.

Lemma SFcompare_nan_r x y : isNaN y = true -> SFcompare x y = None.
Proof. destruct y; simpl; try discriminate; destruct x; reflexivity. Qed.

Lemma SFcompare_key x y :
  isNaN x = false -> isNaN y = false ->
  SFcompare x y = Some (lexCompare (cmpKey x) (cmpKey y)).
Proof.
  destruct x as [sx|sx| |sx mx ex], y as [sy|sy| |sy my ey]; simpl;
    try discriminate; intros _ _;
    try (destruct sx); try (destruct sy); try reflexivity.
  unfold lexCompare; simpl. rewrite Z.compare_opp.
  rewrite (Z.compare_antisym ey ex).
  destruct (ey ?= ex); simpl; reflexivity.
Qed.


Definition lexLt (a b : Z * Z * Z) : Prop :=
  let '(a1, a2, a3) := a in
  let '(b1, b2, b3) := b in
  a1 < b1 \/ (a1 = b1 /\ (a2 < b2 \/ (a2 = b2 /\ a3 < b3))).

Lemma lexCompare_spec a b :
  CompareSpec (a = b) (lexLt a b) (lexLt b a) (lexCompare a b).
Proof.
  destruct a as [[a1 a2] a3], b as [[b1 b2] b3]; unfold lexCompare, lexLt.
  destruct (Z.compare_spec a1 b1); [|constructor; lia|constructor; lia].
  destruct (Z.compare_spec a2 b2); [|constructor; lia|constructor; lia].
  destruct (Z.compare_spec a3 b3); constructor; subst; auto; lia.
Qed.

Lemma lexLt_irrefl a : ~ lexLt a a.
Proof. destruct a as [[a1 a2] a3]; unfold lexLt; lia. Qed.

Lemma lexLt_trans a b c : lexLt a b -> lexLt b c -> lexLt a c.
Proof.
  destruct a as [[a1 a2] a3], b as [[b1 b2] b3], c as [[c1 c2] c3];
    unfold lexLt; lia.
Qed.

Definition notNaN (a : float) : Prop := isNaN (Prim2SF a) = false.

Lemma ltb_iff a b :
  (a <? b)%float = true <->
  notNaN a /\ notNaN b /\ lexLt (cmpKey (Prim2SF a)) (cmpKey (Prim2SF b)).
Proof.
  rewrite FloatAxioms.ltb_spec. unfold SFltb, notNaN.
  destruct (isNaN (Prim2SF a)) eqn:Ha.
  { rewrite SFcompare_nan_l by assumption. split; [discriminate|intros [? _]; discriminate]. }
  destruct (isNaN (Prim2SF b)) eqn:Hb.
  { rewrite SFcompare_nan_r by assumption. split; [discriminate|intros [_ [? _]]; discriminate]. }
  rewrite SFcompare_key by assumption.
  destruct (lexCompare_spec (cmpKey (Prim2SF a)) (cmpKey (Prim2SF b))) as [E|L|G].
  - split; [discriminate|]. intros (_ & _ & L). rewrite E in L. now apply lexLt_irrefl in L.
  - tauto.
  - split; [discriminate|]. intros (_ & _ & L). exfalso. eapply lexLt_irrefl, lexLt_trans; eassumption.
Qed.

Lemma leb_iff a b :
  (a <=? b)%float = true <->
  notNaN a /\ notNaN b /\ ~ lexLt (cmpKey (Prim2SF b)) (cmpKey (Prim2SF a)).
Proof.
  rewrite FloatAxioms.leb_spec. unfold SFleb, notNaN.
  destruct (isNaN (Prim2SF a)) eqn:Ha.
  { rewrite SFcompare_nan_l by assumption. split; [discriminate|intros [? _]; discriminate]. }
  destruct (isNaN (Prim2SF b)) eqn:Hb.
  { rewrite SFcompare_nan_r by assumption. split; [discriminate|intros [_ [? _]]; discriminate]. }
  rewrite SFcompare_key by assumption.
  destruct (lexCompare_spec (cmpKey (Prim2SF a)) (cmpKey (Prim2SF b))) as [E|L|G].
  - split; [|reflexivity]. intros _. rewrite E. repeat split. apply lexLt_irrefl.
  - split; [|reflexivity]. intros _. repeat split. intro G.
    eapply lexLt_irrefl, lexLt_trans; eassumption.
  - split; [discriminate|]. intros (_ & _ & L). now elim L.
Qed.

Lemma ltb_leb_false a b : (a <=? b)%float = true -> (b <? a)%float = false.
Proof.
  intros H. apply leb_iff in H. destruct H as (_ & _ & H).
  destruct (b <? a)%float eqn:E; [|reflexivity].
  apply ltb_iff in E. tauto.
Qed.

Lemma leb_of_ltb_false a b :
  notNaN a -> notNaN b -> (a <? b)%float = false -> (b <=? a)%float = true.
Proof.
  intros Ha Hb H. apply leb_iff. repeat split; trivial.
  intro L. assert ((a <? b)%float = true) by (apply ltb_iff; auto). congruence.
Qed.

Lemma ltb_notNaN a b : (a <? b)%float = true -> notNaN a /\ notNaN b.
Proof. intros H. apply ltb_iff in H. tauto. Qed.

Lemma leb_notNaN a b : (a <=? b)%float = true -> notNaN a /\ notNaN b.
Proof. intros H. apply leb_iff in H. tauto. Qed.

Lemma leb_refl a : notNaN a -> (a <=? a)%float = true.
Proof. intros H. apply leb_iff. repeat split; trivial. apply lexLt_irrefl. Qed.

Lemma ltb_leb a b : (a <? b)%float = true -> (a <=? b)%float = true.
Proof.
  intros H. apply ltb_iff in H. destruct H as (Ha & Hb & L).
  apply leb_iff. repeat split; trivial. intro G.
  eapply lexLt_irrefl, lexLt_trans; eassumption.
Qed.

Lemma lexLt_total a b : ~ lexLt a b -> ~ lexLt b a -> a = b.
Proof. destruct (lexCompare_spec a b); tauto. Qed.

Lemma leb_trans a b c :
  (a <=? b)%float = true -> (b <=? c)%float = true -> (a <=? c)%float = true.
Proof.
  intros H1 H2. apply leb_iff in H1, H2. destruct H1 as (Ha & Hb & H1), H2 as (_ & Hc & H2).
  apply leb_iff. repeat split; trivial. intro L.
  destruct (lexCompare_spec (cmpKey (Prim2SF a)) (cmpKey (Prim2SF b))) as [E|L'|G]; [| |tauto].
  - rewrite E in L. tauto.
  - apply H2. eapply lexLt_trans; eassumption.
Qed.


Lemma leb_ltb_trans a b c :
  (a <=? b)%float = true -> (b <? c)%float = true -> (a <? c)%float = true.
Proof.
  intros H1 H2. apply leb_iff in H1. apply ltb_iff in H2.
  destruct H1 as (Ha & Hb & H1), H2 as (_ & Hc & H2).
  apply ltb_iff. repeat split; trivial.
  destruct (lexCompare_spec (cmpKey (Prim2SF a)) (cmpKey (Prim2SF b))) as [E|L|G]; [| |tauto].
  - now rewrite E.
  - eapply lexLt_trans; eassumption.
Qed.

(** ** Sign tracking through the rounding pipeline *)

Definition SFnonneg (x : spec_float) : bool :=
  match x with
  | S754_zero false | S754_infinity false | S754_finite false _ _ => true
  | _ => false
  end.

Definition SFposfin (x : spec_float) : bool :=
  match x with
  | S754_finite false _ _ => true
  | _ => false
  end.

Lemma shr_1_nonneg mrs : 0 <= shr_m mrs -> 0 <= shr_m (shr_1 mrs).
Proof.
  destruct mrs as [m r s]; simpl.
  destruct m as [|p|p]; simpl; try lia; destruct p; simpl; lia.
Qed.

Lemma iter_shr_1_nonneg p : forall mrs,
  0 <= shr_m mrs -> 0 <= shr_m (SpecFloat.iter_pos shr_1 p mrs).
Proof.
  induction p; simpl; intros mrs H; auto using shr_1_nonneg.
Qed.

Lemma shr_fexp_nonneg m e l :
  0 <= m -> 0 <= shr_m (fst (shr_fexp prec emax m e l)).
Proof.
  intros H. unfold shr_fexp, shr.
  assert (H0 : 0 <= shr_m (shr_record_of_loc m l)).
  { destruct l as [|[]]; simpl; assumption. }
  destruct (_ - _); simpl; auto using iter_shr_1_nonneg.
Qed.

Lemma round_nearest_even_nonneg m l : 0 <= m -> 0 <= round_nearest_even m l.
Proof.
  intros H. destruct l as [|[]]; simpl; try lia. destruct (Z.even m); lia.
Qed.

Lemma binary_round_aux_nonneg m e l :
  0 <= m -> SFnonneg (binary_round_aux prec emax false m e l) = true.
Proof.
  intros H. unfold binary_round_aux.
  pose proof (shr_fexp_nonneg m e l H) as H1.
  destruct (shr_fexp prec emax m e l) as [mrs' e']; simpl in H1.
  pose proof (shr_fexp_nonneg _ e' loc_Exact
                (round_nearest_even_nonneg _ (loc_of_shr_record mrs') H1)) as H2.
  destruct (shr_fexp prec emax _ e' loc_Exact) as [mrs'' e'']; simpl in H2.
  destruct (shr_m mrs''); try reflexivity; try lia.
  destruct (e'' <=? emax - prec); reflexivity.
Qed.

Lemma binary_round_nonneg m e :
  SFnonneg (binary_round prec emax false m e) = true.
Proof.
  unfold binary_round. destruct (shl_align _ _ _) as [mz ez].
  apply binary_round_aux_nonneg. lia.
Qed.

Lemma SFadd_nonneg x y :
  SFnonneg x = true -> SFnonneg y = true -> SFnonneg (SF64add x y) = true.
Proof.
  destruct x as [[]|[]| |[] mx ex], y as [[]|[]| |[] my ey];
    simpl; try discriminate; try reflexivity.
  intros _ _. apply binary_round_nonneg.
Qed.

Lemma SFmul_nonneg x y :
  SFnonneg x = true -> SFposfin y = true -> SFnonneg (SF64mul x y) = true.
Proof.
  destruct x as [[]|[]| |[] mx ex], y as [[]|[]| |[] my ey];
    simpl; try discriminate; try reflexivity.
  intros _ _. apply binary_round_aux_nonneg. lia.
Qed.

Lemma SFdiv_nonneg x y :
  SFnonneg x = true -> SFposfin y = true -> SFnonneg (SF64div x y) = true.
Proof.
  destruct x as [[]|[]| |[] mx ex], y as [[]|[]| |[] my ey];
    simpl; try discriminate; try reflexivity.
  intros _ _. unfold SF64div, SFdiv, SFdiv_core_binary.
  match goal with |- context [Z.div_eucl ?a ?b] =>
    assert (Ha : 0 <= a);
    [| pose proof (Z.div_pos a b Ha ltac:(lia)) as Hq;
       unfold Z.div in Hq; destruct (Z.div_eucl a b) as [q r] ]
  end.
  { destruct (_ - _ - _); try lia. apply Z.shiftl_nonneg. lia. }
  simpl in Hq. apply binary_round_aux_nonneg. exact Hq.
Qed.


(** ** Integers as numbers *)

Lemma digits2_pos_lower p : 2 ^ (Z.pos (digits2_pos p) - 1) <= Z.pos p.
Proof.
  induction p; simpl digits2_pos; rewrite ?Pos2Z.inj_succ.
  - replace (Z.succ (Z.pos (digits2_pos p)) - 1) with (Z.succ (Z.pos (digits2_pos p) - 1)) by lia.
    rewrite Z.pow_succ_r by lia. lia.
  - replace (Z.succ (Z.pos (digits2_pos p)) - 1) with (Z.succ (Z.pos (digits2_pos p) - 1)) by lia.
    rewrite Z.pow_succ_r by lia. lia.
  - simpl. lia.
Qed.

Lemma digits2_pos_small p : Z.pos p < 2 ^ 53 -> Z.pos (digits2_pos p) <= 53.
Proof.
  intros H. pose proof (digits2_pos_lower p) as L.
  destruct (Z_le_gt_dec (Z.pos (digits2_pos p)) 53) as [|G]; trivial.
  exfalso. assert (2 ^ 53 <= 2 ^ (Z.pos (digits2_pos p) - 1)) by (apply Z.pow_le_mono_r; lia).
  lia.
Qed.

Lemma digits2_pos_iter_xO k : forall p,
  digits2_pos (Pos.iter xO p k) = (digits2_pos p + k)%positive.
Proof.
  induction k using Pos.peano_ind; intros p.
  - simpl. lia.
  - rewrite Pos.iter_succ. simpl. rewrite IHk. lia.
Qed.

Lemma shr_fexp_exact m e :
  Z.pos (digits2_pos m) = 53 -> -1074 <= e <= 971 ->
  shr_fexp prec emax (Z.pos m) e loc_Exact =
  ({| shr_m := Z.pos m; shr_r := false; shr_s := false |}, e).
Proof.
  intros Hd He. unfold shr_fexp, fexp, emin, Zdigits2.
  rewrite Hd. unfold prec, emax.
  replace (Z.max (53 + e - 53) (3 - 1024 - 53) - e) with 0 by lia.
  reflexivity.
Qed.

Lemma binary_round_aux_exact m e :
  Z.pos (digits2_pos m) = 53 -> -1074 <= e <= 971 ->
  binary_round_aux prec emax false (Z.pos m) e loc_Exact = S754_finite false m e.
Proof.
  intros Hd He. unfold binary_round_aux.
  rewrite shr_fexp_exact by assumption.
  cbn [shr_m loc_of_shr_record round_nearest_even].
  rewrite shr_fexp_exact by assumption.
  cbn [shr_m]. unfold prec, emax.
  replace (e <=? 1024 - 53) with true by (symmetry; apply Z.leb_le; lia).
  reflexivity.
Qed.

Lemma binary_round_small p :
  Z.pos p < 2 ^ 53 ->
  SFposfin (binary_round prec emax false p 0) = true.
Proof.
  intros H. pose proof (digits2_pos_small p H) as Hd.
  unfold binary_round, shl_align, fexp, emin, prec, emax.
  rewrite Z.add_0_r.
  assert (Hpos : 0 < Z.pos (digits2_pos p)) by lia.
  replace (Z.max (Z.pos (digits2_pos p) - 53) (3 - 1024 - 53))
    with (Z.pos (digits2_pos p) - 53) by lia.
  rewrite Z.sub_0_r.
  destruct (Z.pos (digits2_pos p) - 53) as [|q|q] eqn:E; try lia.
  - rewrite binary_round_aux_exact by lia. reflexivity.
  - rewrite binary_round_aux_exact; [reflexivity| |lia].
    rewrite digits2_pos_iter_xO. lia.
Qed.

Lemma ofZ_nonneg z : 0 <= z -> SFnonneg (Prim2SF (ofZ z)) = true.
Proof.
  intros H. unfold ofZ. replace (z <? 0) with false by (symmetry; apply Z.ltb_ge; lia).
  rewrite of_uint63_spec.
  pose proof (Uint63.to_Z_bounded (Uint63.of_Z z)) as B.
  destruct (Uint63.to_Z (Uint63.of_Z z)); simpl; try reflexivity; try lia.
  apply binary_round_nonneg.
Qed.

Lemma ofZ_posfin z : 0 < z < 2 ^ 53 -> SFposfin (Prim2SF (ofZ z)) = true.
Proof.
  intros H. unfold ofZ. replace (z <? 0) with false by (symmetry; apply Z.ltb_ge; lia).
  rewrite of_uint63_spec, Uint63.of_Z_spec.
  rewrite Z.mod_small. 2:{ split; [lia|]. apply Z.lt_trans with (2 ^ 53); [lia|reflexivity]. }
  destruct z; simpl; try lia. apply binary_round_small. lia.
Qed.


Lemma toUint8Clamp_range x : 0 <= toUint8Clamp x <= 255.
Proof.
  unfold toUint8Clamp.
  destruct (Prim2SF x) as [s|s| |s m e]; try destruct s; lia.
Qed.

End Binary64.

Section Loops.

Context {S : Type}.

Lemma forFrom_invariant (P : Z -> S -> Prop) (body : Z -> S -> S) :
  forall n i s,
    P i s ->
    (forall j t, i <= j < i + Z.of_nat n -> P j t -> P (j + 1) (body j t)) ->
    P (i + Z.of_nat n) (forFrom i n body s).
Proof.
  induction n as [|n IH]; intros i s H0 Hstep.
  - simpl. now rewrite Z.add_0_r.
  - cbn [forFrom]. replace (i + Z.of_nat (Datatypes.S n)) with (i + 1 + Z.of_nat n) by lia.
    apply IH.
    + apply Hstep; [lia|assumption].
    + intros j t Hj. apply Hstep. lia.
Qed.

Lemma forRange_invariant (P : Z -> S -> Prop) (body : Z -> S -> S) a b s :
  a <= b ->
  P a s ->
  (forall j t, a <= j < b -> P j t -> P (j + 1) (body j t)) ->
  P b (forRange a b body s).
Proof.
  intros Hab H0 Hstep. unfold forRange.
  replace b with (a + Z.of_nat (Z.to_nat (b - a))) at 1 by lia.
  apply forFrom_invariant; trivial.
  intros j t Hj. apply Hstep. lia.
Qed.

Lemma forRange_preserves (P : S -> Prop) (body : Z -> S -> S) a b s :
  P s ->
  (forall j t, a <= j < b -> P t -> P (body j t)) ->
  P (forRange a b body s).
Proof.
  intros H0 Hstep. destruct (Z_le_gt_dec a b) as [L|G].
  - apply (forRange_invariant (fun _ => P)); assumption.
  - unfold forRange. replace (Z.to_nat (b - a)) with O by lia. assumption.
Qed.

Lemma forRange_empty (body : Z -> S -> S) a b s :
  b <= a -> forRange a b body s = s.
Proof.
  intros H. unfold forRange. replace (Z.to_nat (b - a)) with O by lia. reflexivity.
Qed.

End Loops.

Module Ingestion.

Import BoardStitcher.

(** C1. A frame whose quality is below 0.3 is dropped: [addFrame] returns
    with the stitcher unchanged, so [getFrameCount] is unchanged; a frame
    whose quality is at least 0.3 is appended at the end of the stored
    frames. *)
Theorem addFrame_quality_gate (s : t) (frame : StitchFrame.t) :
  ((StitchFrame.quality frame <? 0.3)%float = true ->
   snd (addFrame s frame) = s /\
   getFrameCount (snd (addFrame s frame)) = getFrameCount s) /\
  ((0.3 <=? StitchFrame.quality frame)%float = true ->
   frames (snd (addFrame s frame)) = frames s ++ [frame] /\
   getFrameCount (snd (addFrame s frame)) = getFrameCount s + 1).
Proof.
  unfold addFrame, getFrameCount. split; intros H.
  - rewrite H. simpl. split; reflexivity.
  - apply Binary64.ltb_leb_false in H. rewrite H. simpl. split; [reflexivity|].
    unfold len. rewrite length_app. simpl. lia.
Qed.

Lemma addFrame_quality_gate_witness :
  (snd (addFrame new Examples.blurred) = new /\
   getFrameCount (snd (addFrame new Examples.blurred)) = getFrameCount new) /\
  (frames (snd (addFrame new Examples.sharp)) = frames new ++ [Examples.sharp] /\
   getFrameCount (snd (addFrame new Examples.sharp)) = getFrameCount new + 1).
Proof.
  split.
  - apply (proj1 (addFrame_quality_gate new Examples.blurred)). reflexivity.
  - apply (proj2 (addFrame_quality_gate new Examples.sharp)). reflexivity.
Defined.

End Ingestion.

Module Detection.

Import BoardStitcher.

(** ** The offset search *)

Lemma notNaN_zero : Binary64.notNaN 0.
Proof. reflexivity. Qed.

Lemma notNaN_half : Binary64.notNaN 0.5.
Proof. reflexivity. Qed.

(** The best score is a number: it starts at 0 and is only ever replaced
    by a score that compared greater. *)
Lemma bestCorrelation_notNaN rightEdge leftEdge :
  Binary64.notNaN (snd (bestCorrelation rightEdge leftEdge)).
Proof.
  unfold bestCorrelation.
  apply (forRange_preserves (fun best => Binary64.notNaN (snd best))).
  - exact notNaN_zero.
  - intros j [bo bs] _ H. unfold searchStep.
    destruct (bs <? _)%float eqn:E; simpl; [|exact H].
    now apply Binary64.ltb_notNaN in E.
Qed.

Definition accepted (o : OverlapRegion.t) : Prop :=
  (0.5 <=? OverlapRegion.confidence o)%float = true.

Lemma detectOverlap_inv f1 f2 r :
  detectOverlap f1 f2 = Return (Some r) ->
  exists rightEdge leftEdge,
    extractVerticalEdge (StitchFrame.canvas f1) Right 60 = Return (Some rightEdge) /\
    extractVerticalEdge (StitchFrame.canvas f2) Left 60 = Return (Some leftEdge) /\
    (snd (bestCorrelation rightEdge leftEdge) <? 0.5)%float = false /\
    r = OverlapRegion.mk (StitchFrame.id f1) (StitchFrame.id f2)
          (Canvas.width (StitchFrame.canvas f1) - 60)
          (fst (bestCorrelation rightEdge leftEdge))
          60
          (Canvas.height (StitchFrame.canvas f1)
           - Z.abs (fst (bestCorrelation rightEdge leftEdge)))
          (snd (bestCorrelation rightEdge leftEdge)).
Proof.
  unfold detectOverlap.
  destruct (extractVerticalEdge _ Right 60) as [[re|]|e1]; simpl; try discriminate.
  - destruct (extractVerticalEdge _ Left 60) as [[le|]|e2]; simpl; try discriminate.
    destruct (bestCorrelation re le) as [bo bs] eqn:B.
    destruct (bs <? 0.5)%float eqn:E; [discriminate|].
    intros H; inversion H; subst. exists re, le. rewrite B. simpl. auto.
  - destruct (extractVerticalEdge _ Left 60) as [[le|]|e2]; simpl; discriminate.
Qed.

Lemma detectOverlap_accepted f1 f2 r :
  detectOverlap f1 f2 = Return (Some r) -> accepted r.
Proof.
  intros H. apply detectOverlap_inv in H. destruct H as (re & le & _ & _ & E & ->).
  unfold accepted. simpl. apply Binary64.leb_of_ltb_false; trivial.
  - apply bestCorrelation_notNaN.
  - exact notNaN_half.
Qed.

Lemma detectOverlap_width f1 f2 r :
  detectOverlap f1 f2 = Return (Some r) -> OverlapRegion.width r = 60.
Proof.
  intros H. apply detectOverlap_inv in H. destruct H as (re & le & _ & _ & _ & ->).
  reflexivity.
Qed.

Lemma detectOverlap_rejects f1 f2 rightEdge leftEdge :
  extractVerticalEdge (StitchFrame.canvas f1) Right 60 = Return (Some rightEdge) ->
  extractVerticalEdge (StitchFrame.canvas f2) Left 60 = Return (Some leftEdge) ->
  (snd (bestCorrelation rightEdge leftEdge) <? 0.5)%float = true ->
  detectOverlap f1 f2 = Return None.
Proof.
  intros H1 H2 H. unfold detectOverlap. rewrite H1, H2. simpl.
  destruct (bestCorrelation rightEdge leftEdge) as [bo bs]. simpl in H. now rewrite H.
Qed.

(** ** The detection loop *)

Lemma detectLoop_Forall (P : OverlapRegion.t -> Prop) fs :
  (forall f1 f2 r, detectOverlap f1 f2 = Return (Some r) -> P r) ->
  forall arr i acc,
    Forall P (fst acc) ->
    Forall P (fst (forEachFrom i arr (detectStep fs) acc)).
Proof.
  intros HP. induction arr as [|a arr IH]; intros i [ovs st] H; cbn [forEachFrom]; trivial.
  apply IH. unfold detectStep. destruct st as [[]|e]; trivial.
  destruct (js_get fs (i + 1)) as [next|]; trivial.
  destruct (detectOverlap a next) as [[o|]|e] eqn:E; trivial.
  simpl in *. apply Forall_app. split; trivial. constructor; eauto.
Qed.

Lemma detectOverlaps_Forall (P : OverlapRegion.t -> Prop) fs :
  (forall f1 f2 r, detectOverlap f1 f2 = Return (Some r) -> P r) ->
  Forall P (fst (detectOverlaps fs)).
Proof.
  intros HP. apply detectLoop_Forall; trivial.
Qed.

End Detection.

Module Composition.

Import BoardStitcher.

(** ** What the parts of [stitch] may throw *)

Lemma getImageData_throws c e :
  Canvas.getImageData c = Throw e -> e = DOMException "IndexSizeError".
Proof.
  unfold Canvas.getImageData. destruct (_ || _); congruence.
Qed.

Lemma extractVerticalEdge_throws c side w e :
  extractVerticalEdge c side w = Throw e -> e = DOMException "IndexSizeError".
Proof.
  unfold extractVerticalEdge. destruct (negb _); [discriminate|].
  destruct (Canvas.getImageData c) eqn:E; simpl; [discriminate|].
  intros H. inversion H; subst. eapply getImageData_throws; eassumption.
Qed.

Lemma detectOverlap_throws f1 f2 e :
  detectOverlap f1 f2 = Throw e -> e = DOMException "IndexSizeError".
Proof.
  unfold detectOverlap.
  destruct (extractVerticalEdge _ Right 60) as [re|e1] eqn:E1; simpl.
  2:{ intros H; inversion H; subst. eapply extractVerticalEdge_throws; eassumption. }
  destruct (extractVerticalEdge _ Left 60) as [le|e2] eqn:E2; simpl.
  2:{ intros H; inversion H; subst. eapply extractVerticalEdge_throws; eassumption. }
  destruct re as [re|], le as [le|]; try discriminate.
  destruct (bestCorrelation re le) as [bo bs]. destruct (bs <? 0.5)%float; discriminate.
Qed.

Lemma detectStep_throws fs i frame ovs st ovs' e :
  (forall e0, st = Throw e0 -> e0 <> emptyInput) ->
  detectStep fs i frame (ovs, st) = (ovs', Throw e) -> e <> emptyInput.
Proof.
  intros Hst. unfold detectStep. destruct st as [[]|e0].
  - destruct (js_get fs (i + 1)) as [next|].
    + destruct (detectOverlap frame next) as [[o|]|e1] eqn:E; try discriminate.
      intros H; inversion H; subst. apply detectOverlap_throws in E. subst. discriminate.
    + intros H; inversion H; subst. discriminate.
  - intros H; inversion H; subst. now apply Hst.
Qed.

Lemma detectLoop_throws fs : forall arr i acc ovs' e,
  (forall e0, snd acc = Throw e0 -> e0 <> emptyInput) ->
  forEachFrom i arr (detectStep fs) acc = (ovs', Throw e) -> e <> emptyInput.
Proof.
  induction arr as [|a arr IH]; intros i [ovs st] ovs' e Hacc; cbn [forEachFrom].
  - intros H; inversion H; subst. now apply Hacc.
  - apply IH. destruct (detectStep fs i a (ovs, st)) as [o1 s1] eqn:E. simpl.
    intros e0 ->. eapply detectStep_throws; eauto.
Qed.

Lemma detectOverlaps_throws fs ovs e :
  detectOverlaps fs = (ovs, Throw e) -> e <> emptyInput.
Proof.
  apply detectLoop_throws. simpl. discriminate.
Qed.

Lemma cropToContent_throws b c e :
  cropToContent b c = Throw e -> e = DOMException "IndexSizeError".
Proof.
  unfold cropToContent. destruct (negb _); [discriminate|].
  destruct (Canvas.getImageData c) eqn:E; simpl.
  - destruct (Canvas.has2d _); discriminate.
  - intros H; inversion H; subst. eapply getImageData_throws; eassumption.
Qed.


Lemma drawImage_throws image dx dy e :
  drawImage image dx dy = Throw e -> e = DOMException "InvalidStateError".
Proof.
  unfold drawImage. destruct (_ || _); [|discriminate].
  intros H; inversion H. reflexivity.
Qed.

Lemma blendFrames_throws frame1 frame2 overlap xOffset yOffset e :
  snd (blendFrames frame1 frame2 overlap xOffset yOffset) = Throw e ->
  e = DOMException "InvalidStateError".
Proof.
  unfold blendFrames. cbv zeta.
  destruct (drawImage frame1 _ _) as [c1|e1] eqn:E1.
  - destruct (drawImage frame2 _ _) as [c2|e2] eqn:E2; [discriminate|].
    cbn [snd]. intros H; inversion H; subst. eapply drawImage_throws; eassumption.
  - cbn [snd]. intros H; inversion H; subst. eapply drawImage_throws; eassumption.
Qed.

(** What one round of the drawing loop can newly throw. *)
Lemma drawStep_thrown fs ovs i frame st e :
  status st = Return tt ->
  status (drawStep fs ovs i frame st) = Throw e ->
  e = TypeError \/ e = DOMException "InvalidStateError".
Proof.
  intros Hst. unfold drawStep. rewrite Hst.
  assert (A : forall image dx dy (ok : DrawCmd -> DrawState) (ko : JsError -> DrawState),
             (forall c, status (ok c) = Return tt) ->
             (forall e0, status (ko e0) = Throw e0) ->
             status (match drawImage image dx dy with
                     | Return c => ok c
                     | Throw e0 => ko e0
                     end) = Throw e ->
             e = TypeError \/ e = DOMException "InvalidStateError").
  { intros image dx dy ok ko Hok Hko.
    destruct (drawImage image dx dy) as [c|e0] eqn:D.
    - rewrite Hok. discriminate.
    - rewrite Hko. intros H; inversion H; subst. right.
      eapply drawImage_throws; eassumption. }
  destruct (i =? 0); [apply A; reflexivity|].
  destruct (js_get ovs (i - 1)); [|apply A; reflexivity].
  destruct (js_get fs (i - 1)).
  - destruct (blendFrames _ _ _ _ _) as [blend [[]|e0]] eqn:B; cbn [status]; [discriminate|].
    intros H; inversion H; subst. right.
    apply (blendFrames_throws (StitchFrame.canvas t1) (StitchFrame.canvas frame) t0
             (currentX st - Number.ofZ (Canvas.width (StitchFrame.canvas t1)))%float
             (Number.ofZ padding)).
    rewrite B. reflexivity.
  - cbn [status]. intros H; inversion H; subst. now left.
Qed.

Lemma drawStep_throws fs ovs i frame st e :
  (forall e0, status st = Throw e0 -> e0 <> emptyInput) ->
  status (drawStep fs ovs i frame st) = Throw e -> e <> emptyInput.
Proof.
  intros Hst. destruct (status st) as [[]|e0] eqn:E.
  - intros H. apply drawStep_thrown in H; trivial.
    destruct H as [-> | ->]; discriminate.
  - unfold drawStep. rewrite E. rewrite E. intros H; inversion H; subst. now apply Hst.
Qed.

Lemma drawLoop_throws fs ovs : forall arr i st e,
  (forall e0, status st = Throw e0 -> e0 <> emptyInput) ->
  status (forEachFrom i arr (drawStep fs ovs) st) = Throw e -> e <> emptyInput.
Proof.
  induction arr as [|a arr IH]; intros i st e Hst; cbn [forEachFrom].
  - apply Hst.
  - apply IH. intros e0. now apply drawStep_throws.
Qed.

(** The drawing does not read the transforms it records. *)
Definition sameDrawing (st1 st2 : DrawState) : Prop :=
  currentX st1 = currentX st2 /\ commands st1 = commands st2 /\
  status st1 = status st2.

Lemma drawStep_sameDrawing fs ovs i frame st1 st2 :
  sameDrawing st1 st2 ->
  sameDrawing (drawStep fs ovs i frame st1) (drawStep fs ovs i frame st2).
Proof.
  intros (Hx & Hc & Hs). unfold drawStep. rewrite Hs, Hx, Hc.
  destruct (status st2) as [[]|e0] eqn:E.
  - assert (A : sameDrawing
                  match drawImage (StitchFrame.canvas frame) (currentX st2)
                                  (Number.ofZ padding) with
                  | Return image =>
                      {| currentX :=
                           (currentX st2
                            + Number.ofZ (Canvas.width (StitchFrame.canvas frame)))%float;
                         placed := map_set (placed st1) (StitchFrame.id frame)
                                     (Transform.mk (currentX st2) (Number.ofZ padding) 1);
                         commands := commands st2 ++ [image];
                         status := Return tt |}
                  | Throw e =>
                      {| currentX := currentX st2;
                         placed := map_set (placed st1) (StitchFrame.id frame)
                                     (Transform.mk (currentX st2) (Number.ofZ padding) 1);
                         commands := commands st2; status := Throw e |}
                  end
                  match drawImage (StitchFrame.canvas frame) (currentX st2)
                                  (Number.ofZ padding) with
                  | Return image =>
                      {| currentX :=
                           (currentX st2
                            + Number.ofZ (Canvas.width (StitchFrame.canvas frame)))%float;
                         placed := map_set (placed st2) (StitchFrame.id frame)
                                     (Transform.mk (currentX st2) (Number.ofZ padding) 1);
                         commands := commands st2 ++ [image];
                         status := Return tt |}
                  | Throw e =>
                      {| currentX := currentX st2;
                         placed := map_set (placed st2) (StitchFrame.id frame)
                                     (Transform.mk (currentX st2) (Number.ofZ padding) 1);
                         commands := commands st2; status := Throw e |}
                  end).
    { destruct (drawImage _ _ _); repeat split. }
    destruct (i =? 0); [exact A|].
    destruct (js_get ovs (i - 1)); [|exact A].
    destruct (js_get fs (i - 1)); [|repeat split].
    destruct (blendFrames _ _ _ _ _) as [blend [[]|e0]]; repeat split.
  - repeat split; congruence.
Qed.

Lemma drawLoop_sameDrawing fs ovs : forall arr i st1 st2,
  sameDrawing st1 st2 ->
  sameDrawing (forEachFrom i arr (drawStep fs ovs) st1)
              (forEachFrom i arr (drawStep fs ovs) st2).
Proof.
  induction arr as [|a arr IH]; intros i st1 st2 H; cbn [forEachFrom]; trivial.
  apply IH. now apply drawStep_sameDrawing.
Qed.

(** What [stitch] returns or throws depends on the stored frames only. *)
Lemma stitch_result_frames b s1 s2 :
  frames s1 = frames s2 -> fst (stitch b s1) = fst (stitch b s2).
Proof.
  intros H. unfold stitch. rewrite <- H.
  destruct (frames s1) as [|first [|second rest]]; try reflexivity.
  destruct (detectOverlaps _) as [ovs [[]|e]]; [|reflexivity].
  destruct (compositionSize _ _ _) as [w h].
  destruct (negb _); [reflexivity|].
  match goal with
  | |- fst (match status ?d1 with _ => _ end) =
       fst (match status ?d2 with _ => _ end) =>
      assert (D : sameDrawing d1 d2)
        by (apply drawLoop_sameDrawing; repeat split);
      set (D1 := d1) in *; set (D2 := d2) in *; clearbody D1 D2
  end.
  destruct D as (_ & Hc & Hs). rewrite Hs, Hc.
  destruct (status D2); [|reflexivity].
  destruct (cropToContent _ _); reflexivity.
Qed.

Lemma stitch_frames b s : frames (snd (stitch b s)) = frames s.
Proof.
  unfold stitch.
  destruct (frames s) as [|first [|second rest]] eqn:F; try (simpl; congruence).
  destruct (detectOverlaps _) as [ovs [[]|e]]; [|reflexivity].
  destruct (compositionSize _ _ _) as [w h].
  destruct (negb _); [reflexivity|].
  destruct (status _); [|reflexivity].
  destruct (cropToContent _ _); reflexivity.
Qed.

(** C2. With no stored frame, [stitch] throws the empty-input error
    ("No frames to stitch"), returns no composite and leaves the stitcher as
    it was; with at least one stored frame, whatever [stitch] does, it does
    not throw that error. *)
Theorem stitch_empty_input (b : Browser) (s : t) :
  (frames s = [] -> stitch b s = (Throw emptyInput, s)) /\
  (frames s <> [] -> fst (stitch b s) <> Throw emptyInput).
Proof.
  split.
  - intros H. unfold stitch. rewrite H. reflexivity.
  - intros H. unfold stitch.
    destruct (frames s) as [|first [|second rest]]; [congruence|discriminate|].
    destruct (detectOverlaps _) as [ovs [[]|e]] eqn:D.
    2:{ simpl. intros E; inversion E; subst. now apply detectOverlaps_throws in D. }
    destruct (compositionSize _ _ _) as [w h].
    destruct (negb _); [discriminate|].
    destruct (status _) as [[]|e] eqn:E.
    2:{ unfold drawFrames in E. apply drawLoop_throws in E; [|simpl; discriminate].
        simpl. congruence. }
    destruct (cropToContent _ _) as [c|e] eqn:C; [discriminate|].
    simpl. intros E'; inversion E'; subst. apply cropToContent_throws in C. discriminate.
Qed.

(** C3. With exactly one stored frame, [stitch] succeeds: it returns that
    frame's canvas itself, so the same size and the same pixel bytes, and
    the stitcher is unchanged. *)
Theorem stitch_single_frame (b : Browser) (s : t) (only : StitchFrame.t) :
  frames s = [only] ->
  stitch b s = (Return (StitchFrame.canvas only), s) /\
  forall c, fst (stitch b s) = Return c ->
    Canvas.pixels c = Canvas.pixels (StitchFrame.canvas only) /\
    Canvas.width c = Canvas.width (StitchFrame.canvas only) /\
    Canvas.height c = Canvas.height (StitchFrame.canvas only).
Proof.
  intros H. unfold stitch. rewrite H. split; [reflexivity|].
  simpl. intros c E. inversion E. auto.
Qed.

(** C9. A call of [stitch] that throws, whether for want of frames, for
    want of a drawing context or otherwise, leaves the stored frames as they
    were, in order; a later call therefore works on the same frames and
    yields what it would have yielded on the stitcher before the failure. *)
Theorem stitch_failure_keeps_frames (b : Browser) (s s' : t) (e : JsError) :
  stitch b s = (Throw e, s') ->
  frames s' = frames s /\
  getFrameCount s' = getFrameCount s /\
  forall b', fst (stitch b' s') = fst (stitch b' s).
Proof.
  intros H. assert (F : frames s' = frames s).
  { replace s' with (snd (stitch b s)) by now rewrite H. apply stitch_frames. }
  split; [exact F|]. split.
  - unfold getFrameCount. now rewrite F.
  - intros b'. now apply stitch_result_frames.
Qed.


(** ** The stored overlap list *)

Lemma stitch_overlaps b s :
  overlaps (snd (stitch b s)) =
  if 2 <=? len (frames s) then fst (detectOverlaps (frames s)) else overlaps s.
Proof.
  unfold stitch.
  destruct (frames s) as [|first [|second rest]] eqn:F; try reflexivity.
  replace (2 <=? len (first :: second :: rest)) with true
    by (symmetry; apply Z.leb_le; unfold len; simpl length; lia).
  destruct (detectOverlaps _) as [ovs [[]|e]]; [|reflexivity].
  destruct (compositionSize _ _ _) as [w h].
  destruct (negb _); [reflexivity|].
  destruct (status _); [|reflexivity].
  destruct (cropToContent _ _); reflexivity.
Qed.

Lemma addFrame_overlaps s frame : overlaps (snd (addFrame s frame)) = overlaps s.
Proof. unfold addFrame. destruct (_ <? _)%float; reflexivity. Qed.

Lemma addFrame_frames s frame :
  frames (snd (addFrame s frame)) =
  if (StitchFrame.quality frame <? 0.3)%float then frames s else frames s ++ [frame].
Proof. unfold addFrame. destruct (_ <? _)%float; reflexivity. Qed.

Lemma session_snoc calls c : session (calls ++ [c]) = call (session calls) c.
Proof. unfold session. now rewrite fold_left_app. Qed.

Lemma session_frames calls : frames (session calls) = storedFrames (rev calls).
Proof.
  induction calls as [|c calls IH] using rev_ind; [reflexivity|].
  rewrite session_snoc, rev_app_distr. simpl rev. simpl app.
  destruct c; cbn [call storedFrames].
  - now rewrite addFrame_frames, IH.
  - now rewrite stitch_frames.
  - assumption.
  - assumption.
  - reflexivity.
Qed.

Lemma session_overlaps calls :
  overlaps (session calls) = mostRecentDetection (rev calls).
Proof.
  induction calls as [|c calls IH] using rev_ind; [reflexivity|].
  rewrite session_snoc, rev_app_distr. simpl rev. simpl app.
  destruct c; cbn [call mostRecentDetection].
  - now rewrite addFrame_overlaps.
  - now rewrite stitch_overlaps, session_frames, IH.
  - assumption.
  - assumption.
  - reflexivity.
Qed.


Lemma stitch_empty_input_witness :
  stitch Examples.blankBrowser new = (Throw emptyInput, new) /\
  fst (stitch Examples.blankBrowser (session [CallAddFrame Examples.sharp]))
  <> Throw emptyInput.
Proof.
  split.
  - apply (proj1 (stitch_empty_input Examples.blankBrowser new)). reflexivity.
  - apply (proj2 (stitch_empty_input Examples.blankBrowser
                    (session [CallAddFrame Examples.sharp]))).
    vm_compute. discriminate.
Defined.

Lemma stitch_single_frame_witness :
  stitch Examples.blankBrowser (session [CallAddFrame Examples.sharp])
  = (Return (StitchFrame.canvas Examples.sharp),
     session [CallAddFrame Examples.sharp]).
Proof.
  apply (stitch_single_frame Examples.blankBrowser
           (session [CallAddFrame Examples.sharp]) Examples.sharp).
  reflexivity.
Defined.

Lemma stitch_failure_keeps_frames_witness :
  frames (snd (stitch Examples.exhaustedBrowser
                 (session [CallAddFrame Examples.sharp; CallAddFrame Examples.sharp'])))
  = [Examples.sharp; Examples.sharp'].
Proof.
  apply (stitch_failure_keeps_frames Examples.exhaustedBrowser
           (session [CallAddFrame Examples.sharp; CallAddFrame Examples.sharp'])
           _ renderSurface).
  vm_compute. reflexivity.
Defined.


End Composition.

Module Sizing.

Import BoardStitcher.

(** ** The detection loop against the pairwise outcomes *)

Definition somes (pairs : list (option OverlapRegion.t)) : list OverlapRegion.t :=
  flat_map (fun p => match p with Some o => [o] | None => [] end) pairs.

Lemma js_get_app_head {A} (pre : list A) (a : A) (rest : list A) :
  js_get (pre ++ a :: rest) (len pre) = Some a.
Proof.
  unfold js_get, len.
  replace (Z.of_nat (length pre) <? 0) with false by (symmetry; apply Z.ltb_ge; lia).
  rewrite Nat2Z.id, nth_error_app2 by lia. now rewrite Nat.sub_diag.
Qed.

Lemma len_snoc {A} (pre : list A) (a : A) : len (pre ++ [a]) = len pre + 1.
Proof. unfold len. rewrite length_app. simpl. lia. Qed.

Lemma detectLoop_pairs fs : forall rest pre f ovs,
  fs = pre ++ f :: rest ->
  forall ovs',
    forEachFrom (len pre) (removelast (f :: rest)) (detectStep fs) (ovs, Return tt)
      = (ovs', Return tt) ->
    ovs' = ovs ++ somes (pairOverlaps (f :: rest)) /\
    (length ovs' <= length ovs + length rest)%nat.
Proof.
  induction rest as [|g rest IH]; intros pre f ovs Hfs ovs' H.
  - simpl in H. inversion H; subst. simpl. rewrite app_nil_r. split; [reflexivity|lia].
  - change (removelast (f :: g :: rest)) with (f :: removelast (g :: rest)) in H.
    cbn [forEachFrom] in H.
    assert (Hnext : js_get fs (len pre + 1) = Some g).
    { rewrite Hfs. replace (pre ++ f :: g :: rest) with ((pre ++ [f]) ++ g :: rest)
        by (rewrite <- app_assoc; reflexivity).
      rewrite <- (len_snoc pre f). apply js_get_app_head. }
    unfold detectStep at 2 in H. rewrite Hnext in H.
    rewrite <- (len_snoc pre f) in H.
    assert (Hfs' : fs = (pre ++ [f]) ++ g :: rest)
      by (rewrite <- app_assoc; exact Hfs).
    cbn [pairOverlaps].
    destruct (detectOverlap f g) as [[o|]|e] eqn:E.
    + apply (IH _ _ _ Hfs') in H. destruct H as [-> L]. split.
      * simpl. now rewrite <- app_assoc.
      * rewrite (length_app ovs [o]) in L. cbn [length] in *. lia.
    + apply (IH _ _ _ Hfs') in H. destruct H as [-> L]. split.
      * reflexivity.
      * cbn [length] in *. lia.
    + exfalso. clear - H.
      assert (T : forall arr i o1 e1, forEachFrom i arr (detectStep fs) (o1, Throw e1)
                                      = (o1, Throw e1)).
      { induction arr; intros; simpl; auto. }
      rewrite T in H. discriminate.
Qed.

Lemma detectOverlaps_pairs fs ovs :
  detectOverlaps fs = (ovs, Return tt) ->
  ovs = somes (pairOverlaps fs) /\ (length ovs <= length fs - 1)%nat.
Proof.
  unfold detectOverlaps. destruct fs as [|f rest].
  - simpl. intros H; inversion H. split; [reflexivity|simpl; lia].
  - intros H. apply (detectLoop_pairs (f :: rest) rest [] f [] eq_refl) in H.
    simpl in *. destruct H. split; [assumption|lia].
Qed.


(** ** The sizing loop *)

Definition sumOverlapWidths (ovs : list OverlapRegion.t) : Z :=
  fold_right (fun o acc => OverlapRegion.width o + acc) 0 ovs.

Lemma skipn_step {A} (l : list A) : forall n,
  nth_error l n = hd_error (skipn n l) /\ skipn (Datatypes.S n) l = tl (skipn n l).
Proof.
  induction l as [|a l IH]; intros [|n]; simpl; auto.
Qed.

Lemma extentLoop ovs : forall arr i rest tw mh,
  1 <= i ->
  skipn (Z.to_nat (i - 1)) ovs = rest ->
  (fst (forEachFrom i arr (extentStep ovs) (tw, mh))
   == tw + inject_Z (sumWidths arr)
      - inject_Z (sumOverlapWidths (firstn (length arr) rest)) * (1 # 2))%Q /\
  snd (forEachFrom i arr (extentStep ovs) (tw, mh))
  = fold_left Z.max (map frameHeight arr) mh.
Proof.
  induction arr as [|f arr IH]; intros i rest tw mh Hi Hrest.
  - simpl. split; [ring|reflexivity].
  - cbn [forEachFrom]. unfold extentStep at 2 4.
    destruct (skipn_step ovs (Z.to_nat (i - 1))) as [Hhd Htl].
    assert (Hget : js_get ovs (i - 1) = hd_error rest).
    { unfold js_get. replace (i - 1 <? 0) with false by (symmetry; apply Z.ltb_ge; lia).
      now rewrite Hhd, Hrest. }
    rewrite Hget.
    assert (Hrest' : skipn (Z.to_nat (i + 1 - 1)) ovs = tl rest).
    { replace (Z.to_nat (i + 1 - 1)) with (Datatypes.S (Z.to_nat (i - 1))) by lia.
      now rewrite Htl, Hrest. }
    destruct (IH (i + 1) (tl rest)
                (tw + (inject_Z (Canvas.width (StitchFrame.canvas f))
                       - inject_Z match hd_error rest with
                                  | Some o => OverlapRegion.width o
                                  | None => 0
                                  end * (1 # 2)))%Q
                (Z.max mh (Canvas.height (StitchFrame.canvas f)))
                ltac:(lia) Hrest') as [IHw IHh].
    split.
    + rewrite IHw. cbn [length firstn sumWidths fold_right]. fold (sumWidths arr).
      unfold frameWidth.
      destruct rest as [|o rest]; cbn [hd_error tl firstn sumOverlapWidths fold_right].
      * rewrite firstn_nil. cbn [sumOverlapWidths fold_right].
        rewrite inject_Z_plus. ring.
      * fold (sumOverlapWidths (firstn (length arr) rest)).
        rewrite !inject_Z_plus. ring.
    + rewrite IHh. reflexivity.
Qed.

Lemma sumHalfOverlaps_somes pairs :
  (inject_Z (sumOverlapWidths (somes pairs)) * (1 # 2) == sumHalfOverlaps pairs)%Q.
Proof.
  induction pairs as [|[o|] pairs IH]; simpl.
  - reflexivity.
  - fold (somes pairs). fold (sumOverlapWidths (somes pairs)). fold (sumHalfOverlaps pairs).
    rewrite <- IH, inject_Z_plus. ring.
  - fold (somes pairs). fold (sumHalfOverlaps pairs). rewrite <- IH. ring.
Qed.

Lemma compositionExtent_spec first rest ovs :
  (length ovs <= length rest)%nat ->
  (fst (compositionExtent first (first :: rest) ovs)
   == inject_Z (sumWidths (first :: rest))
      - inject_Z (sumOverlapWidths ovs) * (1 # 2))%Q /\
  snd (compositionExtent first (first :: rest) ovs)
  = fold_right Z.max (frameHeight first) (map frameHeight rest).
Proof.
  intros L. unfold compositionExtent. cbn [tl].
  destruct (extentLoop ovs rest 1 ovs
              (inject_Z (Canvas.width (StitchFrame.canvas first)))
              (Canvas.height (StitchFrame.canvas first))
              ltac:(lia) eq_refl) as [Hw Hh].
  split.
  - rewrite Hw, firstn_all2 by assumption.
    cbn [sumWidths fold_right]. fold (sumWidths rest). unfold frameWidth.
    rewrite inject_Z_plus. ring.
  - rewrite Hh. apply fold_symmetric; intros; lia.
Qed.


Lemma compositionSize_spec first rest ovs :
  (length ovs <= length rest)%nat ->
  (fst (compositionSize first (first :: rest) ovs)
   == inject_Z (sumWidths (first :: rest))
      - inject_Z (sumOverlapWidths ovs) * (1 # 2)
      + inject_Z 20 + inject_Z 20)%Q /\
  snd (compositionSize first (first :: rest) ovs)
  = inject_Z (fold_right Z.max (frameHeight first) (map frameHeight rest) + 20 + 20).
Proof.
  intros L. destruct (compositionExtent_spec first rest ovs L) as [Hw Hh].
  unfold compositionSize.
  destruct (compositionExtent first (first :: rest) ovs) as [tw mh].
  cbn [fst snd] in *. split.
  - rewrite Hw. unfold padding. change (inject_Z (20 * 2)) with (inject_Z 40).
    unfold Qeq. simpl. lia.
  - rewrite Hh. unfold padding. f_equal. lia.
Qed.

(** When detection completes on at least two frames, the width and
    height the code computes are those of the specification's words. *)
Lemma compositionSize_pairs
    (first second : StitchFrame.t) (rest : list StitchFrame.t)
    (ovs : list OverlapRegion.t) :
  detectOverlaps (first :: second :: rest) = (ovs, Return tt) ->
  (fst (compositionSize first (first :: second :: rest) ovs)
   == spec_compositeWidth (first :: second :: rest))%Q /\
  snd (compositionSize first (first :: second :: rest) ovs)
  = inject_Z (spec_compositeHeight first (second :: rest)).
Proof.
  intros D. apply detectOverlaps_pairs in D. destruct D as [E L].
  destruct (compositionSize_spec first (second :: rest) ovs) as [Hw Hh].
  { simpl in *. lia. }
  split.
  - rewrite Hw. unfold spec_compositeWidth.
    rewrite <- sumHalfOverlaps_somes, <- E. reflexivity.
  - rewrite Hh. reflexivity.
Qed.

Lemma sumOverlapWidths_sixty ovs :
  Forall (fun o => OverlapRegion.width o = 60) ovs ->
  sumOverlapWidths ovs = 60 * Z.of_nat (length ovs).
Proof.
  induction 1 as [|o ovs Ho _ IH]; [reflexivity|].
  cbn [sumOverlapWidths fold_right length]. fold (sumOverlapWidths ovs). lia.
Qed.

Lemma sumWidths_lower fs f :
  (forall g, In g fs -> 30 <= frameWidth g) ->
  In f fs ->
  frameWidth f + 30 * (Z.of_nat (length fs) - 1) <= sumWidths fs.
Proof.
  intros Hall. assert (B : 30 * Z.of_nat (length fs) <= sumWidths fs).
  { clear f. induction fs as [|g fs IH]; [simpl; lia|].
    cbn [sumWidths fold_right length]. fold (sumWidths fs).
    pose proof (Hall g (or_introl eq_refl)).
    specialize (IH (fun h Hh => Hall h (or_intror Hh))). lia. }
  clear B. induction fs as [|g fs IH]; [contradiction|].
  intros [->|Hin]; cbn [sumWidths fold_right length]; fold (sumWidths fs).
  - assert (B : 30 * Z.of_nat (length fs) <= sumWidths fs).
    { clear IH. induction fs as [|h fs IH]; [simpl; lia|].
      cbn [sumWidths fold_right length]. fold (sumWidths fs).
      pose proof (Hall h (or_intror (or_introl eq_refl))).
      assert (IH' : 30 * Z.of_nat (length fs) <= sumWidths fs).
      { apply IH. intros k [->|Hk]; apply Hall; simpl; auto. }
      lia. }
    lia.
  - pose proof (Hall g (or_introl eq_refl)).
    specialize (IH (fun h Hh => Hall h (or_intror Hh)) Hin). lia.
Qed.

(** Every overlap detection finds is 60 wide, so the computed width is
    an integer. *)
Lemma compositionSize_integer first rest ovs :
  Forall (fun o => OverlapRegion.width o = 60) ovs ->
  (length ovs <= length rest)%nat ->
  (fst (compositionSize first (first :: rest) ovs)
   == inject_Z (sumWidths (first :: rest) - 30 * Z.of_nat (length ovs) + 40))%Q.
Proof.
  intros W L. destruct (compositionSize_spec first rest ovs L) as [Hw _].
  rewrite Hw, (sumOverlapWidths_sixty ovs W).
  rewrite inject_Z_plus, <- Z.add_opp_r, inject_Z_plus, inject_Z_opp, !inject_Z_mult.
  change (inject_Z 60) with 60%Q. change (inject_Z 30) with 30%Q.
  change (inject_Z 40) with 40%Q. change (inject_Z 20) with 20%Q.
  field.
Qed.

Lemma removelast_length {A} (l : list A) : length (removelast l) = (length l - 1)%nat.
Proof.
  induction l as [|a [|b l] IH]; trivial. cbn [removelast length] in *. lia.
Qed.

Lemma detectLoop_length fs : forall arr i acc,
  (length (fst (forEachFrom i arr (detectStep fs) acc))
   <= length (fst acc) + length arr)%nat.
Proof.
  induction arr as [|a arr IH]; intros i [ovs st]; cbn [forEachFrom].
  - simpl. lia.
  - etransitivity; [apply IH|]. cbn [length]. unfold detectStep.
    destruct st as [[]|e]; [|simpl; lia].
    destruct (js_get fs (i + 1)) as [next|]; [|simpl; lia].
    destruct (detectOverlap a next) as [[o|]|e]; simpl; rewrite ?length_app; simpl; lia.
Qed.

Lemma detectOverlaps_length fs :
  (length (fst (detectOverlaps fs)) <= length fs - 1)%nat.
Proof.
  unfold detectOverlaps.
  pose proof (detectLoop_length fs (removelast fs) 0 ([], Return tt)) as H.
  rewrite removelast_length in H. exact H.
Qed.

(** The computed width for the overlaps [stitch] has found, whether or not
    detection ran to its end. *)
Lemma stitch_width_integer first rest :
  (fst (compositionSize first (first :: rest) (fst (detectOverlaps (first :: rest))))
   == inject_Z (sumWidths (first :: rest)
                - 30 * Z.of_nat (length (fst (detectOverlaps (first :: rest)))) + 40))%Q.
Proof.
  apply compositionSize_integer.
  - apply Detection.detectOverlaps_Forall. apply Detection.detectOverlap_width.
  - pose proof (detectOverlaps_length (first :: rest)). simpl in *. lia.
Qed.

Lemma stitch_width_widest first rest f :
  (forall g, In g (first :: rest) -> 30 <= frameWidth g) ->
  In f (first :: rest) ->
  frameWidth f
  <= sumWidths (first :: rest)
     - 30 * Z.of_nat (length (fst (detectOverlaps (first :: rest)))) + 40.
Proof.
  intros Hall Hin. pose proof (sumWidths_lower _ f Hall Hin) as S.
  pose proof (detectOverlaps_length (first :: rest)) as L.
  cbn [length] in *. lia.
Qed.

(** The width in the specification's words is an integer as well. *)
Lemma sumHalfOverlaps_integer fs :
  exists k, (sumHalfOverlaps (pairOverlaps fs) == inject_Z k)%Q.
Proof.
  induction fs as [|f1 rest IH]; [exists 0; reflexivity|].
  destruct rest as [|f2 rest]; [exists 0; reflexivity|].
  destruct IH as [k IH].
  change (pairOverlaps (f1 :: f2 :: rest))
    with (match detectOverlap f1 f2 with
          | Return found => found
          | Throw _ => None
          end :: pairOverlaps (f2 :: rest)).
  cbn [sumHalfOverlaps fold_right]. fold (sumHalfOverlaps (pairOverlaps (f2 :: rest))).
  destruct (detectOverlap f1 f2) as [[o|]|e] eqn:D.
  - exists (30 + k). rewrite IH. cbn [halfOverlap].
    rewrite (Detection.detectOverlap_width f1 f2 o D), inject_Z_plus.
    change (inject_Z 60) with 60%Q. change (inject_Z 30) with 30%Q. field.
  - exists k. rewrite IH. cbn [halfOverlap]. ring.
  - exists k. rewrite IH. cbn [halfOverlap]. ring.
Qed.

Lemma spec_compositeWidth_integer fs :
  exists n, (spec_compositeWidth fs == inject_Z n)%Q.
Proof.
  destruct (sumHalfOverlaps_integer fs) as [k Hk].
  exists (sumWidths fs - k + 20 + 20). unfold spec_compositeWidth.
  rewrite Hk, !inject_Z_plus, <- Z.add_opp_r, inject_Z_plus, inject_Z_opp. ring.
Qed.

(** An integer that is a valid canvas size is the size the canvas takes. *)
Lemma reflectedSize_integer default q n :
  (q == inject_Z n)%Q -> 0 <= n <= 2147483647 -> reflectedSize default q = n.
Proof.
  intros E B. unfold Qeq in E. cbn [inject_Z Qnum Qden] in E.
  rewrite Z.mul_1_r in E. unfold reflectedSize. rewrite E.
  rewrite Z.quot_mul by discriminate.
  rewrite Z.mod_small by (split; [lia|]; apply Z.le_lt_trans with 2147483647; [lia|reflexivity]).
  replace (n <=? 2147483647) with true by (symmetry; apply Z.leb_le; lia).
  reflexivity.
Qed.

End Sizing.

Module Throws.

Import BoardStitcher.

(** ** The defensive [TypeError] branches are dead *)

Lemma detectLoop_thrown fs : forall arr i ovs e,
  forEachFrom i arr (detectStep fs) (ovs, Throw e) = (ovs, Throw e).
Proof.
  induction arr as [|a arr IH]; intros i ovs e; cbn [forEachFrom]; [reflexivity|].
  cbn [detectStep]. apply IH.
Qed.

Lemma detectLoop_throw_kind fs : forall rest pre f ovs ovs' e,
  fs = pre ++ f :: rest ->
  forEachFrom (len pre) (removelast (f :: rest)) (detectStep fs) (ovs, Return tt)
    = (ovs', Throw e) ->
  e = DOMException "IndexSizeError".
Proof.
  induction rest as [|g rest IH]; intros pre f ovs ovs' e Hfs H.
  - simpl in H. discriminate.
  - change (removelast (f :: g :: rest)) with (f :: removelast (g :: rest)) in H.
    cbn [forEachFrom] in H.
    assert (Hnext : js_get fs (len pre + 1) = Some g).
    { rewrite Hfs. replace (pre ++ f :: g :: rest) with ((pre ++ [f]) ++ g :: rest)
        by (rewrite <- app_assoc; reflexivity).
      rewrite <- (Sizing.len_snoc pre f). apply Sizing.js_get_app_head. }
    unfold detectStep at 2 in H. rewrite Hnext in H.
    rewrite <- (Sizing.len_snoc pre f) in H.
    assert (Hfs' : fs = (pre ++ [f]) ++ g :: rest)
      by (rewrite <- app_assoc; exact Hfs).
    destruct (detectOverlap f g) as [[o|]|e1] eqn:E.
    + eapply IH; eassumption.
    + eapply IH; eassumption.
    + rewrite detectLoop_thrown in H. inversion H; subst.
      eapply Composition.detectOverlap_throws; eassumption.
Qed.

Lemma detectOverlaps_throw_kind fs ovs e :
  detectOverlaps fs = (ovs, Throw e) -> e = DOMException "IndexSizeError".
Proof.
  unfold detectOverlaps. destruct fs as [|f rest]; [discriminate|].
  apply (detectLoop_throw_kind (f :: rest) rest [] f). reflexivity.
Qed.

(** ** The drawing loop *)

(** A canvas [drawImage] accepts as its image: no empty side. *)
Definition usable (c : Canvas.t) : bool :=
  negb ((Canvas.width c =? 0) || (Canvas.height c =? 0)).

Lemma drawImage_usable c dx dy :
  usable c = true -> drawImage c dx dy = Return (DrawImage c dx dy).
Proof.
  unfold usable, drawImage. destruct (_ || _); [discriminate|reflexivity].
Qed.

Lemma drawImage_unusable c dx dy :
  usable c = false -> drawImage c dx dy = Throw (DOMException "InvalidStateError").
Proof.
  unfold usable, drawImage. destruct (_ || _); [reflexivity|discriminate].
Qed.

(** The commands of a blend that runs to its end. *)
Definition blendCommands (frame1 frame2 : Canvas.t) (overlap : OverlapRegion.t)
    (xOffset yOffset : float) : list DrawCmd :=
  let overlapX := (xOffset + Number.ofZ (OverlapRegion.x overlap))%float in
  let overlapY := (yOffset + Number.ofZ (OverlapRegion.y overlap))%float in
  let blendWidth := Number.ofZ (OverlapRegion.width overlap) in
  [ SetGlobalAlpha 1;
    DrawImage frame1 xOffset yOffset;
    Save;
    SetGlobalAlpha 0.5;
    SetFillStyle (LinearGradient overlapX 0 (overlapX + blendWidth) 0
                    [(0%float, "rgba(0,0,0,0.3)"%string);
                     (1%float, "rgba(0,0,0,0)"%string)]);
    FillRect overlapX overlapY blendWidth
             (Number.ofZ (OverlapRegion.height overlap));
    SetGlobalAlpha 0.7;
    DrawImage frame2
      (xOffset + Number.ofZ (Canvas.width frame1)
       - Number.ofZ (OverlapRegion.width overlap))
      (yOffset + Number.ofZ (OverlapRegion.y overlap));
    Restore ]%float.

Lemma blendFrames_usable frame1 frame2 overlap xOffset yOffset :
  usable frame1 = true -> usable frame2 = true ->
  blendFrames frame1 frame2 overlap xOffset yOffset
  = (blendCommands frame1 frame2 overlap xOffset yOffset, Return tt).
Proof.
  intros U1 U2. unfold blendFrames. cbv zeta.
  rewrite !drawImage_usable by assumption. reflexivity.
Qed.

Lemma blendFrames_outcome frame1 frame2 overlap xOffset yOffset :
  snd (blendFrames frame1 frame2 overlap xOffset yOffset)
  = if usable frame1 && usable frame2 then Return tt
    else Throw (DOMException "InvalidStateError").
Proof.
  unfold blendFrames. cbv zeta.
  destruct (usable frame1) eqn:U1.
  - rewrite (drawImage_usable frame1) by assumption.
    destruct (usable frame2) eqn:U2.
    + rewrite (drawImage_usable frame2) by assumption. reflexivity.
    + rewrite (drawImage_unusable frame2) by assumption. reflexivity.
  - rewrite (drawImage_unusable frame1) by assumption. reflexivity.
Qed.

Lemma drawLoop_thrown fs ovs : forall arr i st e,
  status st = Throw e -> forEachFrom i arr (drawStep fs ovs) st = st.
Proof.
  induction arr as [|a arr IH]; intros i st e H; cbn [forEachFrom]; [reflexivity|].
  assert (E : drawStep fs ovs i a st = st) by (unfold drawStep; now rewrite H).
  rewrite E. now apply (IH _ _ e).
Qed.

Lemma js_get_last {A} (pre : list A) (x : A) (rest : list A) :
  pre <> [] -> exists p, js_get (pre ++ x :: rest) (len pre - 1) = Some p /\ In p pre.
Proof.
  intros N. destruct pre as [|p pre] using rev_ind; [now elim N|].
  exists p. split.
  - rewrite Sizing.len_snoc, Z.add_simpl_r, <- app_assoc.
    cbn [app]. apply Sizing.js_get_app_head.
  - apply in_or_app. right. now left.
Qed.

(** One round either completes, or stops at an image with an empty side:
    the frame of the round, or the one before it in a blend. *)
Lemma drawStep_outcome fs ovs pre g rest st :
  fs = pre ++ g :: rest -> status st = Return tt ->
  status (drawStep fs ovs (len pre) g st) = Return tt \/
  (status (drawStep fs ovs (len pre) g st) = Throw (DOMException "InvalidStateError") /\
   exists f, In f fs /\ usable (StitchFrame.canvas f) = false).
Proof.
  intros Hfs Hst.
  assert (Hg : In g fs) by (rewrite Hfs; apply in_or_app; right; now left).
  unfold drawStep. rewrite Hst.
  assert (A : forall ok ko,
             (forall c, status (ok c) = Return tt) ->
             (forall e0, status (ko e0) = Throw e0) ->
             status (match drawImage (StitchFrame.canvas g) (currentX st)
                                     (Number.ofZ padding) with
                     | Return c => ok c
                     | Throw e0 => ko e0
                     end) = Return tt \/
             (status (match drawImage (StitchFrame.canvas g) (currentX st)
                                      (Number.ofZ padding) with
                      | Return c => ok c
                      | Throw e0 => ko e0
                      end) = Throw (DOMException "InvalidStateError") /\
              exists f, In f fs /\ usable (StitchFrame.canvas f) = false)).
  { intros ok ko Hok Hko. destruct (usable (StitchFrame.canvas g)) eqn:U.
    - rewrite drawImage_usable by assumption. left. apply Hok.
    - rewrite drawImage_unusable by assumption. right. split; [apply Hko|].
      exists g. now split. }
  destruct (len pre =? 0) eqn:Z0; [apply A; reflexivity|].
  destruct (js_get ovs (len pre - 1)) as [overlap|]; [|apply A; reflexivity].
  apply Z.eqb_neq in Z0.
  destruct (js_get_last pre g rest) as (p & Hp & Hin).
  { intros ->. now apply Z0. }
  rewrite Hfs, Hp.
  pose proof (blendFrames_outcome (StitchFrame.canvas p) (StitchFrame.canvas g) overlap
                (currentX st - Number.ofZ (Canvas.width (StitchFrame.canvas p)))%float
                (Number.ofZ padding)) as B.
  destruct (blendFrames _ _ _ _ _) as [blend outcome]. cbn [snd] in B. subst outcome.
  destruct (usable (StitchFrame.canvas p)) eqn:Up; cbn [andb].
  - destruct (usable (StitchFrame.canvas g)) eqn:Ug; [now left|].
    right. split; [reflexivity|]. exists g. rewrite <- Hfs. now split.
  - right. split; [reflexivity|]. exists p. split; [|assumption].
    apply in_or_app. now left.
Qed.

Lemma drawLoop_outcome fs ovs : forall rest pre st,
  fs = pre ++ rest -> status st = Return tt ->
  status (forEachFrom (len pre) rest (drawStep fs ovs) st) = Return tt \/
  (status (forEachFrom (len pre) rest (drawStep fs ovs) st)
   = Throw (DOMException "InvalidStateError") /\
   exists f, In f fs /\ usable (StitchFrame.canvas f) = false).
Proof.
  induction rest as [|g rest IH]; intros pre st Hfs Hst; cbn [forEachFrom]; [now left|].
  destruct (drawStep_outcome fs ovs pre g rest st Hfs Hst) as [R|[T U]].
  - rewrite <- (Sizing.len_snoc pre g). apply IH; trivial.
    rewrite <- app_assoc. exact Hfs.
  - right. rewrite (drawLoop_thrown fs ovs rest _ _ _ T). now split.
Qed.

Lemma drawFrames_outcome fs ovs st :
  status st = Return tt ->
  status (drawFrames fs ovs st) = Return tt \/
  (status (drawFrames fs ovs st) = Throw (DOMException "InvalidStateError") /\
   exists f, In f fs /\ usable (StitchFrame.canvas f) = false).
Proof.
  intros H. now apply (drawLoop_outcome fs ovs fs []).
Qed.

Lemma drawFrames_returns fs ovs st :
  Forall (fun f => usable (StitchFrame.canvas f) = true) fs ->
  status st = Return tt -> status (drawFrames fs ovs st) = Return tt.
Proof.
  intros All H. destruct (drawFrames_outcome fs ovs st H) as [R|[_ (f & Hin & U)]]; trivial.
  rewrite Forall_forall in All. rewrite (All f Hin) in U. discriminate.
Qed.

(** ** Detection that runs to its end *)

(** A canvas whose pixels can be asked for without an exception: it has
    no context (nothing is asked), or no empty side. *)
Definition scannable (c : Canvas.t) : Prop :=
  Canvas.has2d c = false \/ (Canvas.width c <> 0 /\ Canvas.height c <> 0).

Lemma extractVerticalEdge_returns c side w :
  scannable c -> exists r, extractVerticalEdge c side w = Return r.
Proof.
  intros [H|[Hw Hh]]; unfold extractVerticalEdge.
  - rewrite H. eexists. reflexivity.
  - destruct (negb _); [eexists; reflexivity|].
    unfold Canvas.getImageData.
    replace (Canvas.width c =? 0) with false by (symmetry; now apply Z.eqb_neq).
    replace (Canvas.height c =? 0) with false by (symmetry; now apply Z.eqb_neq).
    eexists. reflexivity.
Qed.

Lemma detectOverlap_returns f1 f2 :
  scannable (StitchFrame.canvas f1) -> scannable (StitchFrame.canvas f2) ->
  exists r, detectOverlap f1 f2 = Return r.
Proof.
  intros H1 H2. unfold detectOverlap. cbv zeta.
  destruct (extractVerticalEdge_returns _ Right 60 H1) as [r1 ->].
  destruct (extractVerticalEdge_returns _ Left 60 H2) as [r2 ->].
  cbn [bind]. destruct r1 as [re|], r2 as [le|]; try (eexists; reflexivity).
  destruct (bestCorrelation re le) as [bo bs].
  destruct (bs <? 0.5)%float; eexists; reflexivity.
Qed.

Lemma detectLoop_returns fs : forall rest pre f ovs,
  fs = pre ++ f :: rest ->
  Forall (fun g => scannable (StitchFrame.canvas g)) (f :: rest) ->
  snd (forEachFrom (len pre) (removelast (f :: rest)) (detectStep fs) (ovs, Return tt))
  = Return tt.
Proof.
  induction rest as [|g rest IH]; intros pre f ovs Hfs Hall.
  - reflexivity.
  - change (removelast (f :: g :: rest)) with (f :: removelast (g :: rest)).
    cbn [forEachFrom].
    assert (Hnext : js_get fs (len pre + 1) = Some g).
    { rewrite Hfs. replace (pre ++ f :: g :: rest) with ((pre ++ [f]) ++ g :: rest)
        by (rewrite <- app_assoc; reflexivity).
      rewrite <- (Sizing.len_snoc pre f). apply Sizing.js_get_app_head. }
    unfold detectStep at 2. rewrite Hnext.
    rewrite <- (Sizing.len_snoc pre f).
    assert (Hfs' : fs = (pre ++ [f]) ++ g :: rest)
      by (rewrite <- app_assoc; exact Hfs).
    inversion Hall as [|? ? Hf Hrest]; subst.
    inversion Hrest as [|? ? Hg _]; subst.
    destruct (detectOverlap_returns f g Hf Hg) as [[o|] ->]; now apply IH.
Qed.

Lemma detectOverlaps_returns fs :
  Forall (fun g => scannable (StitchFrame.canvas g)) fs ->
  snd (detectOverlaps fs) = Return tt.
Proof.
  intros H. unfold detectOverlaps. destruct fs as [|f rest]; [reflexivity|].
  now apply (detectLoop_returns (f :: rest) rest [] f).
Qed.

Lemma usable_sides c :
  Canvas.width c <> 0 -> Canvas.height c <> 0 -> usable c = true.
Proof.
  intros W H. unfold usable.
  replace (Canvas.width c =? 0) with false by (symmetry; now apply Z.eqb_neq).
  replace (Canvas.height c =? 0) with false by (symmetry; now apply Z.eqb_neq).
  reflexivity.
Qed.

(** What [stitch] can throw: its own two errors, the browser's refusal to
    read a canvas with an empty side, and its refusal to draw one. *)
Lemma stitch_throws b s e :
  fst (stitch b s) = Throw e ->
  e = emptyInput \/ e = renderSurface \/ e = DOMException "IndexSizeError" \/
  e = DOMException "InvalidStateError".
Proof.
  unfold stitch.
  destruct (frames s) as [|first [|second rest]].
  - simpl. intros H; inversion H. auto.
  - discriminate.
  - destruct (detectOverlaps _) as [ovs [[]|e1]] eqn:D.
    2:{ simpl. intros H; inversion H; subst. apply detectOverlaps_throw_kind in D. auto. }
    destruct (compositionSize _ _ _) as [w h].
    destruct (negb _).
    { simpl. intros H; inversion H. auto. }
    match goal with
    | |- context [drawFrames ?fs ?o ?st] =>
        destruct (drawFrames_outcome fs o st eq_refl) as [R|[T _]]
    end.
    + rewrite R. destruct (cropToContent _ _) as [c|e1] eqn:C; [discriminate|].
      simpl. intros H; inversion H; subst. apply Composition.cropToContent_throws in C. auto.
    + rewrite T. simpl. intros H; inversion H. auto.
Qed.

End Throws.

(** ** The composition canvas *)

Module Composite.

Import BoardStitcher.

(** A frame whose canvas has no empty side. *)
Definition sound (g : StitchFrame.t) : Prop :=
  Canvas.width (StitchFrame.canvas g) <> 0 /\ Canvas.height (StitchFrame.canvas g) <> 0.

Lemma sound_detected fs : Forall sound fs -> snd (detectOverlaps fs) = Return tt.
Proof.
  intros All. apply Throws.detectOverlaps_returns. revert All.
  apply Forall_impl. intros g Hg. now right.
Qed.

Lemma sound_usable fs :
  Forall sound fs -> Forall (fun f => Throws.usable (StitchFrame.canvas f) = true) fs.
Proof.
  apply Forall_impl. intros g [W H]. now apply Throws.usable_sides.
Qed.

(** On two frames or more, a [stitch] that returns has cropped the canvas
    it created with the computed size, and one that fails for want of a
    context failed on that canvas. *)
Lemma stitch_composite b s first second rest :
  frames s = first :: second :: rest ->
  (forall c, fst (stitch b s) = Return c ->
     snd (detectOverlaps (frames s)) = Return tt /\
     exists cmds,
       cropToContent b
         (paint b
            (createCanvas b
               (fst (compositionSize first (frames s) (fst (detectOverlaps (frames s)))))
               (snd (compositionSize first (frames s) (fst (detectOverlaps (frames s))))))
            cmds)
       = Return c) /\
  (fst (stitch b s) = Throw renderSurface ->
     snd (detectOverlaps (frames s)) = Return tt /\
     Canvas.has2d
       (createCanvas b
          (fst (compositionSize first (frames s) (fst (detectOverlaps (frames s)))))
          (snd (compositionSize first (frames s) (fst (detectOverlaps (frames s))))))
     = false).
Proof.
  intros F. unfold stitch. rewrite F.
  destruct (detectOverlaps (first :: second :: rest)) as [ovs [[]|e1]] eqn:D; cbn [fst snd].
  2:{ apply Throws.detectOverlaps_throw_kind in D. subst e1.
      split; [discriminate|]. intros H; inversion H. }
  destruct (compositionSize first (first :: second :: rest) ovs) as [w h]. cbn [fst snd].
  destruct (Canvas.has2d (createCanvas b w h)) eqn:C; cbn [negb].
  - match goal with
    | |- context [drawFrames ?fs ?o ?st] =>
        destruct (Throws.drawFrames_outcome fs o st eq_refl) as [R|[T _]];
        [rewrite R|rewrite T]
    end.
    + destruct (cropToContent _ _) as [c0|e1] eqn:K; cbn [fst].
      * split; [|discriminate]. intros c H; inversion H; subst.
        split; [reflexivity|]. eexists. exact K.
      * apply Composition.cropToContent_throws in K. subst e1.
        split; [discriminate|]. intros H; inversion H.
    + cbn [fst]. split; [discriminate|]. intros H; inversion H.
  - cbn [fst]. split; [discriminate|]. intros _. split; reflexivity.
Qed.

(** When no frame canvas has an empty side, [stitch] fails for want of a
    context on the canvas it created, or hands back the crop of that
    canvas. *)
Lemma stitch_crops b s first second rest :
  frames s = first :: second :: rest ->
  Forall sound (frames s) ->
  if Canvas.has2d
       (createCanvas b
          (fst (compositionSize first (frames s) (fst (detectOverlaps (frames s)))))
          (snd (compositionSize first (frames s) (fst (detectOverlaps (frames s))))))
  then
    exists cmds,
      fst (stitch b s)
      = cropToContent b
          (paint b
             (createCanvas b
                (fst (compositionSize first (frames s) (fst (detectOverlaps (frames s)))))
                (snd (compositionSize first (frames s) (fst (detectOverlaps (frames s))))))
             cmds)
  else fst (stitch b s) = Throw renderSurface.
Proof.
  intros F All. pose proof (sound_detected _ All) as D.
  pose proof (sound_usable _ All) as U.
  unfold stitch. rewrite F in *.
  destruct (detectOverlaps (first :: second :: rest)) as [ovs st]. cbn [fst snd] in *.
  subst st.
  destruct (compositionSize first (first :: second :: rest) ovs) as [w h]. cbn [fst snd].
  destruct (Canvas.has2d (createCanvas b w h)); cbn [negb]; [|reflexivity].
  rewrite Throws.drawFrames_returns by trivial.
  match goal with
  | |- context [cropToContent b (paint b _ ?cmds)] => exists cmds
  end.
  destruct (cropToContent _ _); reflexivity.
Qed.

(** C4, as the code has it. When [stitch] runs on at least two frames,
    the canvas it creates for the composition, draws on and crops is given
    as its width the sum of the frames' widths, less half the overlap
    width for exactly the consecutive pairs in which detection found an
    overlap, plus 20 on each side, and as its height the largest frame
    height plus 20 on each side: a [stitch] that returns hands back the
    crop of that canvas, one that fails for want of a context failed on
    that canvas, and when no frame canvas has an empty side nothing else
    can happen.  In a browser that sizes canvases as assigned, the canvas
    has that width and height whenever they are valid canvas sizes (from 0
    to 2^31 - 1). *)
Theorem composite_size_before_cropping
    (b : Browser) (s : t) (first second : StitchFrame.t) (rest : list StitchFrame.t) :
  frames s = first :: second :: rest ->
  exists w h : Q,
    (w == spec_compositeWidth (frames s))%Q /\
    h = inject_Z (spec_compositeHeight first (second :: rest)) /\
    (forall c, fst (stitch b s) = Return c ->
       exists cmds, cropToContent b (paint b (createCanvas b w h) cmds) = Return c) /\
    (fst (stitch b s) = Throw renderSurface ->
       Canvas.has2d (createCanvas b w h) = false) /\
    (Forall sound (frames s) ->
       if Canvas.has2d (createCanvas b w h)
       then exists cmds,
              fst (stitch b s) = cropToContent b (paint b (createCanvas b w h) cmds)
       else fst (stitch b s) = Throw renderSurface) /\
    (reflectsSizes b ->
     (0 <= spec_compositeWidth (frames s) <= 2147483647)%Q ->
     0 <= spec_compositeHeight first (second :: rest) <= 2147483647 ->
     (inject_Z (Canvas.width (createCanvas b w h)) == spec_compositeWidth (frames s))%Q /\
     Canvas.height (createCanvas b w h) = spec_compositeHeight first (second :: rest)).
Proof.
  intros F.
  assert (Sizes : forall w h : Q,
             (w == spec_compositeWidth (frames s))%Q ->
             h = inject_Z (spec_compositeHeight first (second :: rest)) ->
             reflectsSizes b ->
             (0 <= spec_compositeWidth (frames s) <= 2147483647)%Q ->
             0 <= spec_compositeHeight first (second :: rest) <= 2147483647 ->
             (inject_Z (Canvas.width (createCanvas b w h))
              == spec_compositeWidth (frames s))%Q /\
             Canvas.height (createCanvas b w h)
             = spec_compositeHeight first (second :: rest)).
  { intros w h Hw Hh Hb [W0 W1] H01. destruct (Hb w h) as [Bw Bh].
    destruct (Sizing.spec_compositeWidth_integer (frames s)) as [n Hn].
    rewrite Hn in W0, W1. change 0%Q with (inject_Z 0) in W0.
    change 2147483647%Q with (inject_Z 2147483647) in W1.
    rewrite <- Zle_Qle in W0, W1.
    rewrite Bw, Bh. split.
    - rewrite (Sizing.reflectedSize_integer 300 w n); [now rewrite Hn|now rewrite Hw|lia].
    - subst h. apply Sizing.reflectedSize_integer; [reflexivity|lia]. }
  destruct (stitch_composite b s first second rest F) as [Ret Ctx].
  destruct (snd (detectOverlaps (frames s))) as [[]|e] eqn:D.
  - destruct (Sizing.compositionSize_pairs first second rest
                (fst (detectOverlaps (frames s)))) as [Hw Hh].
    { rewrite <- F, <- D. apply surjective_pairing. }
    rewrite <- F in Hw, Hh.
    exists (fst (compositionSize first (frames s) (fst (detectOverlaps (frames s))))),
           (snd (compositionSize first (frames s) (fst (detectOverlaps (frames s))))).
    split; [exact Hw|]. split; [exact Hh|].
    split; [intros c H; now apply Ret|].
    split; [intros H; now apply Ctx|].
    split; [exact (stitch_crops b s first second rest F)|].
    now apply Sizes.
  - exists (spec_compositeWidth (frames s)),
           (inject_Z (spec_compositeHeight first (second :: rest))).
    split; [reflexivity|]. split; [reflexivity|].
    split; [intros c H; apply Ret in H; destruct H; discriminate|].
    split; [intros H; apply Ctx in H; destruct H; discriminate|].
    split; [intros All; apply sound_detected in All; congruence|].
    now apply Sizes.
Qed.

Lemma sizingBrowser_reflectsSizes : reflectsSizes Samples.sizingBrowser.
Proof. intros w h. split; reflexivity. Qed.

Lemma composite_size_before_cropping_witness :
  exists w h : Q,
    (w == spec_compositeWidth [Examples.sharp; Examples.sharp'])%Q /\
    h = inject_Z (spec_compositeHeight Examples.sharp [Examples.sharp']) /\
    (exists cmds,
       fst (stitch Samples.sizingBrowser (mk [Examples.sharp; Examples.sharp'] None [] []))
       = cropToContent Samples.sizingBrowser
           (paint Samples.sizingBrowser (createCanvas Samples.sizingBrowser w h) cmds)) /\
    (inject_Z (Canvas.width (createCanvas Samples.sizingBrowser w h))
     == spec_compositeWidth [Examples.sharp; Examples.sharp'])%Q /\
    Canvas.height (createCanvas Samples.sizingBrowser w h)
    = spec_compositeHeight Examples.sharp [Examples.sharp'].
Proof.
  destruct (composite_size_before_cropping Samples.sizingBrowser
              (mk [Examples.sharp; Examples.sharp'] None [] [])
              Examples.sharp Examples.sharp' [] eq_refl)
    as (w & h & Hw & Hh & _ & _ & Crops & Sizes).
  exists w, h. split; [exact Hw|]. split; [exact Hh|]. split.
  - assert (All : Forall sound [Examples.sharp; Examples.sharp']).
    { repeat (apply Forall_cons; [split; discriminate|]). apply Forall_nil. }
    specialize (Crops All).
    replace (Canvas.has2d (createCanvas Samples.sizingBrowser w h)) with true in Crops
      by reflexivity.
    exact Crops.
  - apply Sizes.
    + exact sizingBrowser_reflectsSizes.
    + split; vm_compute; discriminate.
    + split; vm_compute; discriminate.
Defined.

(** C4 fails as stated: three black frames of one pixel overlap pairwise,
    the width computed for the composition is 1 + (1 - 30) + (1 - 30) + 40
    = -17, and the canvas [stitch] creates with it, draws on and crops is
    300 pixels wide. *)
Lemma composite_width_not_the_sum :
  exists (w h : Q) (cmds : list DrawCmd),
    frames (session (map CallAddFrame [Samples.speck; Samples.speck'; Samples.speck'']))
    = [Samples.speck; Samples.speck'; Samples.speck''] /\
    fst (stitch Samples.sizingBrowser
           (session (map CallAddFrame [Samples.speck; Samples.speck'; Samples.speck''])))
    = cropToContent Samples.sizingBrowser
        (paint Samples.sizingBrowser (createCanvas Samples.sizingBrowser w h) cmds) /\
    (w == spec_compositeWidth [Samples.speck; Samples.speck'; Samples.speck''])%Q /\
    (spec_compositeWidth [Samples.speck; Samples.speck'; Samples.speck'']
     == inject_Z (-17))%Q /\
    Canvas.width (createCanvas Samples.sizingBrowser w h) = 300.
Proof.
  assert (F : frames (session (map CallAddFrame
                                 [Samples.speck; Samples.speck'; Samples.speck'']))
              = [Samples.speck; Samples.speck'; Samples.speck''])
    by (vm_compute; reflexivity).
  assert (All : Forall sound
                  (frames (session (map CallAddFrame
                                      [Samples.speck; Samples.speck'; Samples.speck''])))).
  { rewrite F. repeat (apply Forall_cons; [split; discriminate|]). apply Forall_nil. }
  pose proof (stitch_crops Samples.sizingBrowser _ _ _ _ F All) as C.
  replace (Canvas.has2d (createCanvas Samples.sizingBrowser _ _)) with true in C
    by reflexivity.
  destruct C as [cmds E]. rewrite F in E.
  eexists _, _, cmds. split; [exact F|]. split; [exact E|].
  split; [vm_compute; reflexivity|]. split; vm_compute; reflexivity.
Qed.

(** C7, as the code has it. When [stitch] runs on at least two frames,
    each at least 30 pixels wide (half the fixed overlap width), the
    canvas it creates for the composition, draws on and crops is given a
    width that is at least the width of every stored frame, the widest
    included: a [stitch] that returns hands back the crop of that canvas,
    one that fails for want of a context failed on that canvas, and when
    no frame canvas has an empty side nothing else can happen.  In a
    browser that sizes canvases as assigned, the canvas is at least that
    wide whenever the width given is a valid canvas size (at most
    2^31 - 1). *)
Theorem composite_width_at_least_widest
    (b : Browser) (s : t) (first second : StitchFrame.t) (rest : list StitchFrame.t) :
  frames s = first :: second :: rest ->
  (forall g, In g (frames s) -> 30 <= frameWidth g) ->
  exists w h : Q,
    (forall c, fst (stitch b s) = Return c ->
       exists cmds, cropToContent b (paint b (createCanvas b w h) cmds) = Return c) /\
    (fst (stitch b s) = Throw renderSurface ->
       Canvas.has2d (createCanvas b w h) = false) /\
    (Forall sound (frames s) ->
       if Canvas.has2d (createCanvas b w h)
       then exists cmds,
              fst (stitch b s) = cropToContent b (paint b (createCanvas b w h) cmds)
       else fst (stitch b s) = Throw renderSurface) /\
    (forall f, In f (frames s) -> (inject_Z (frameWidth f) <= w)%Q) /\
    (reflectsSizes b -> (w <= 2147483647)%Q ->
     forall f, In f (frames s) -> frameWidth f <= Canvas.width (createCanvas b w h)).
Proof.
  intros F Hall.
  destruct (stitch_composite b s first second rest F) as [Ret Ctx].
  pose proof (Sizing.stitch_width_integer first (second :: rest)) as I.
  rewrite <- F in I.
  exists (fst (compositionSize first (frames s) (fst (detectOverlaps (frames s))))),
         (snd (compositionSize first (frames s) (fst (detectOverlaps (frames s))))).
  split; [intros c H; now apply Ret|]. split; [intros H; now apply Ctx|].
  split; [exact (stitch_crops b s first second rest F)|].
  assert (Wide : forall f, In f (frames s) ->
            frameWidth f
            <= sumWidths (frames s)
               - 30 * Z.of_nat (length (fst (detectOverlaps (frames s)))) + 40).
  { intros f Hin. rewrite F in *. now apply Sizing.stitch_width_widest. }
  split.
  - intros f Hin. rewrite I, <- Zle_Qle. now apply Wide.
  - intros Hb Hmax f Hin. destruct (Hb
      (fst (compositionSize first (frames s) (fst (detectOverlaps (frames s)))))
      (snd (compositionSize first (frames s) (fst (detectOverlaps (frames s)))))) as [Bw _].
    rewrite Bw. rewrite I in Hmax.
    change 2147483647%Q with (inject_Z 2147483647) in Hmax. rewrite <- Zle_Qle in Hmax.
    pose proof (Wide f Hin). pose proof (Hall f Hin).
    rewrite (Sizing.reflectedSize_integer 300 _ _ I); lia.
Qed.

Lemma composite_width_at_least_widest_witness :
  exists w h : Q,
    (exists cmds,
       fst (stitch Samples.sizingBrowser (mk [Examples.sharp; Examples.sharp'] None [] []))
       = cropToContent Samples.sizingBrowser
           (paint Samples.sizingBrowser (createCanvas Samples.sizingBrowser w h) cmds)) /\
    (forall f, In f [Examples.sharp; Examples.sharp'] ->
       (inject_Z (frameWidth f) <= w)%Q) /\
    ((w <= 2147483647)%Q ->
     forall f, In f [Examples.sharp; Examples.sharp'] ->
       frameWidth f <= Canvas.width (createCanvas Samples.sizingBrowser w h)).
Proof.
  destruct (composite_width_at_least_widest Samples.sizingBrowser
              (mk [Examples.sharp; Examples.sharp'] None [] [])
              Examples.sharp Examples.sharp' [] eq_refl)
    as (w & h & _ & _ & Crops & Assigned & Sized).
  - intros g [<-|[<-|[]]]; vm_compute; discriminate.
  - exists w, h. split; [|split; [exact Assigned|exact (Sized sizingBrowser_reflectsSizes)]].
    assert (All : Forall sound [Examples.sharp; Examples.sharp']).
    { repeat (apply Forall_cons; [split; discriminate|]). apply Forall_nil. }
    specialize (Crops All).
    replace (Canvas.has2d (createCanvas Samples.sizingBrowser w h)) with true in Crops
      by reflexivity.
    exact Crops.
Defined.

(** C7 fails as stated: a 100-pixel frame followed by two 5-pixel frames,
    all black, overlap pairwise with full confidence, and the canvas
    [stitch] creates for the composition, draws on and crops has width
    100 + (5 - 30) + (5 - 30) + 40 = 90. *)
Lemma composite_narrower_than_widest_frame :
  exists (w h : Q) (cmds : list DrawCmd),
    frames (session (map CallAddFrame [Examples.wide; Examples.sliver; Examples.sliver']))
    = [Examples.wide; Examples.sliver; Examples.sliver'] /\
    fst (stitch Samples.sizingBrowser
           (session (map CallAddFrame [Examples.wide; Examples.sliver; Examples.sliver'])))
    = cropToContent Samples.sizingBrowser
        (paint Samples.sizingBrowser (createCanvas Samples.sizingBrowser w h) cmds) /\
    (w == 90)%Q /\
    Canvas.width (createCanvas Samples.sizingBrowser w h) = 90 /\
    frameWidth Examples.wide = 100.
Proof.
  assert (F : frames (session (map CallAddFrame
                                 [Examples.wide; Examples.sliver; Examples.sliver']))
              = [Examples.wide; Examples.sliver; Examples.sliver'])
    by (vm_compute; reflexivity).
  assert (All : Forall sound
                  (frames (session (map CallAddFrame
                                      [Examples.wide; Examples.sliver; Examples.sliver'])))).
  { rewrite F. repeat (apply Forall_cons; [split; discriminate|]). apply Forall_nil. }
  pose proof (stitch_crops Samples.sizingBrowser _ _ _ _ F All) as C.
  replace (Canvas.has2d (createCanvas Samples.sizingBrowser _ _)) with true in C
    by reflexivity.
  destruct C as [cmds E]. rewrite F in E.
  eexists _, _, cmds. split; [exact F|]. split; [exact E|].
  split; [vm_compute; reflexivity|]. split; vm_compute; reflexivity.
Qed.

End Composite.

Module Confidence.

Import BoardStitcher.

(** C5. Whatever region overlap detection returns has confidence at least
    0.5; when the best correlation score is below 0.5 detection returns no
    region; hence in every session every overlap the stitcher has stored
    has confidence at least 0.5. *)
Theorem overlap_confidence_floor :
  (forall f1 f2 r,
     detectOverlap f1 f2 = Return (Some r) ->
     (0.5 <=? OverlapRegion.confidence r)%float = true) /\
  (forall f1 f2 rightEdge leftEdge,
     extractVerticalEdge (StitchFrame.canvas f1) Right 60 = Return (Some rightEdge) ->
     extractVerticalEdge (StitchFrame.canvas f2) Left 60 = Return (Some leftEdge) ->
     (snd (bestCorrelation rightEdge leftEdge) <? 0.5)%float = true ->
     detectOverlap f1 f2 = Return None) /\
  (forall calls,
     Forall (fun o => (0.5 <=? OverlapRegion.confidence o)%float = true)
            (overlaps (session calls))).
Proof.
  split; [|split].
  - exact Detection.detectOverlap_accepted.
  - exact Detection.detectOverlap_rejects.
  - intros calls. rewrite Composition.session_overlaps.
    induction (rev calls) as [|c earlier IH]; [constructor|].
    destruct c; cbn [mostRecentDetection]; trivial.
    destruct (2 <=? _); trivial.
    apply Detection.detectOverlaps_Forall. exact Detection.detectOverlap_accepted.
Qed.

Lemma overlap_confidence_floor_witness :
  (0.5 <=? OverlapRegion.confidence
             (OverlapRegion.mk "sharp" "sharp-2" 4 0 60 2 1))%float = true.
Proof.
  apply (proj1 overlap_confidence_floor Examples.sharp Examples.sharp').
  vm_compute. reflexivity.
Defined.

End Confidence.

Module Strips.

Import BoardStitcher.

(** ** Typed-array stores *)

Lemma store_nat_length {A} (a : list A) : forall i v,
  length (store_nat a i v) = length a.
Proof.
  induction a as [|x a IH]; intros [|i] v; simpl; auto.
Qed.

Lemma nth_error_store_nat {A} (a : list A) : forall i v k,
  (i < length a)%nat ->
  nth_error (store_nat a i v) k = if Nat.eqb k i then Some v else nth_error a k.
Proof.
  induction a as [|x a IH]; intros [|i] v [|k] H; simpl in *; try lia; auto.
  apply IH. lia.
Qed.

Lemma js_set_length {A} (a : list A) i v : length (js_set a i v) = length a.
Proof.
  unfold js_set. destruct (i <? 0); [reflexivity|apply store_nat_length].
Qed.

Lemma nth_error_js_set {A} (a : list A) i v k :
  0 <= i < len a ->
  nth_error (js_set a i v) k
  = if Nat.eqb k (Z.to_nat i) then Some v else nth_error a k.
Proof.
  intros H. unfold js_set.
  replace (i <? 0) with false by (symmetry; apply Z.ltb_ge; lia).
  apply nth_error_store_nat. unfold len in H. lia.
Qed.

Lemma js_get_in_range (a : list Z) i :
  0 <= i < len a -> js_get a i = Some (nth (Z.to_nat i) a 0).
Proof.
  intros H. unfold js_get.
  replace (i <? 0) with false by (symmetry; apply Z.ltb_ge; lia).
  apply nth_error_nth'. unfold len in H. lia.
Qed.

Lemma In_upto n k : 0 <= k < n -> In k (upto n).
Proof.
  intros H. unfold upto. apply in_map_iff. exists (Z.to_nat k). split; [lia|].
  apply in_seq. lia.
Qed.

(** ** Grayscale *)

Lemma gray_table :
  forallb (fun s => Number.toUint8Clamp (Number.ofZ s / 3) =? (2 * s + 3) / 6)
          (upto 766) = true.
Proof. vm_compute. reflexivity. Qed.

(** Stored in a byte array, the mean of three bytes is the mean rounded to
    the nearest integer. *)
Lemma gray_mean s :
  0 <= s <= 765 -> Number.toUint8Clamp (Number.ofZ s / 3) = (2 * s + 3) / 6.
Proof.
  intros H. pose proof gray_table as T. rewrite forallb_forall in T.
  apply Z.eqb_eq. apply T. apply In_upto. lia.
Qed.

Lemma pixel_in_range c x y :
  Canvas.wf c -> 0 <= x < Canvas.width c -> 0 <= y < Canvas.height c ->
  0 <= 4 * (y * Canvas.width c + x) /\
  4 * (y * Canvas.width c + x) + 3 < len (Canvas.pixels c).
Proof.
  intros (Hw & Hh & Hlen & _) Hx Hy. rewrite Hlen.
  assert (y * Canvas.width c <= (Canvas.height c - 1) * Canvas.width c)
    by (apply Z.mul_le_mono_nonneg_r; lia).
  assert (0 <= y * Canvas.width c) by (apply Z.mul_nonneg_nonneg; lia).
  lia.
Qed.

Lemma channel_byte c x y k :
  Canvas.wf c -> 0 <= x < Canvas.width c -> 0 <= y < Canvas.height c ->
  0 <= k <= 3 -> 0 <= channel c x y k <= 255.
Proof.
  intros Hwf Hx Hy Hk. destruct (pixel_in_range c x y Hwf Hx Hy) as [L U].
  destruct Hwf as (_ & _ & _ & B). rewrite Forall_forall in B.
  apply B. unfold channel. apply nth_In. unfold len in U. lia.
Qed.

Lemma grayAt_pixel c x y :
  Canvas.wf c -> 0 <= x < Canvas.width c -> 0 <= y < Canvas.height c ->
  Number.toUint8Clamp (grayAt (Canvas.pixels c) ((y * Canvas.width c + x) * 4))
  = spec_gray c x y.
Proof.
  intros Hwf Hx Hy. destruct (pixel_in_range c x y Hwf Hx Hy) as [L U].
  unfold grayAt. rewrite !js_get_in_range by lia.
  unfold spec_gray.
  pose proof (channel_byte c x y 0 Hwf Hx Hy ltac:(lia)) as B0.
  pose proof (channel_byte c x y 1 Hwf Hx Hy ltac:(lia)) as B1.
  pose proof (channel_byte c x y 2 Hwf Hx Hy ltac:(lia)) as B2.
  unfold channel in *.
  replace (4 * (y * Canvas.width c + x) + 0) with ((y * Canvas.width c + x) * 4) in * by lia.
  replace (4 * (y * Canvas.width c + x) + 1) with ((y * Canvas.width c + x) * 4 + 1) in * by lia.
  replace (4 * (y * Canvas.width c + x) + 2) with ((y * Canvas.width c + x) * 4 + 2) in * by lia.
  apply gray_mean. lia.
Qed.


(** ** The extraction loops *)

Definition stripCell (c : Canvas.t) (side : Side) (k : Z) : Z :=
  spec_gray c (stripOrigin c side + k mod 60) (k / 60).

Definition filled (c : Canvas.t) (side : Side) (m : Z) (edge : list Z) : Prop :=
  len edge = Canvas.height c * 60 /\
  forall k, 0 <= k < m -> nth_error edge (Z.to_nat k) = Some (stripCell c side k).

Lemma extractVerticalEdge_strip c side :
  Canvas.wf c -> 60 <= Canvas.width c -> Canvas.has2d c = true ->
  extractVerticalEdge c side 60 = Return (Some (spec_strip c side)).
Proof.
  intros Hwf Hwide Hctx. pose proof Hwf as (Hw & Hh & Hlen & Hbytes).
  unfold extractVerticalEdge. rewrite Hctx. cbn [negb].
  unfold Canvas.getImageData.
  replace (Canvas.width c =? 0) with false by (symmetry; apply Z.eqb_neq; lia).
  replace (Canvas.height c =? 0) with false by (symmetry; apply Z.eqb_neq; lia).
  cbn [orb bind]. do 2 f_equal.
  fold (stripOrigin c side).
  match goal with |- ?loop = _ => assert (F : filled c side (Canvas.height c * 60) loop) end.
  { apply (forRange_invariant (fun y edge => filled c side (y * 60) edge)); [lia| |].
    - split.
      + unfold len. rewrite repeat_length. lia.
      + intros k Hk. lia.
    - intros y edge Hy Hfilled.
      replace ((y + 1) * 60) with (y * 60 + 60) by lia.
      apply (forRange_invariant (fun px edge => filled c side (y * 60 + px) edge)); [lia| |].
      + now rewrite Z.add_0_r.
      + intros px e Hpx [Hl Hk]. split.
        * unfold len in *. now rewrite js_set_length.
        * intros k Hk'. rewrite nth_error_js_set by lia.
          destruct (Nat.eqb_spec (Z.to_nat k) (Z.to_nat (y * 60 + px))) as [E|E].
          -- assert (k = y * 60 + px) by lia. subst k. f_equal.
             replace (y * Canvas.width c + stripOrigin c side + px)
               with (y * Canvas.width c + (stripOrigin c side + px)) by lia.
             assert (0 <= stripOrigin c side + px < Canvas.width c)
               by (destruct side; simpl; lia).
             rewrite grayAt_pixel by (trivial; lia).
             unfold stripCell.
             assert (M : (y * 60 + px) mod 60 = px).
             { rewrite Z.add_comm, Z_mod_plus_full. apply Z.mod_small. lia. }
             assert (D : (y * 60 + px) / 60 = y).
             { rewrite Z.add_comm, Z_div_plus by lia. rewrite Z.div_small by lia. lia. }
             now rewrite M, D.
          -- apply Hk. lia. }
  destruct F as [Hl Hk]. apply nth_error_ext. intros n.
  unfold spec_strip, upto. rewrite !nth_error_map, nth_error_seq.
  replace (Z.to_nat (60 * Canvas.height c)) with (Z.to_nat (Canvas.height c * 60)) by lia.
  destruct (Nat.ltb_spec n (Z.to_nat (Canvas.height c * 60))) as [L|G].
  - specialize (Hk (Z.of_nat n) ltac:(lia)). rewrite Nat2Z.id in Hk. rewrite Hk.
    reflexivity.
  - apply nth_error_None. unfold len in Hl. lia.
Qed.

Lemma Forall_store_nat {A} (P : A -> Prop) (a : list A) : forall i v,
  P v -> Forall P a -> Forall P (store_nat a i v).
Proof.
  induction a as [|x a IH]; intros [|i] v Hv Ha; simpl; trivial;
    inversion Ha; subst; constructor; auto.
Qed.

Lemma Forall_js_set {A} (P : A -> Prop) (a : list A) i v :
  P v -> Forall P a -> Forall P (js_set a i v).
Proof.
  intros Hv Ha. unfold js_set. destruct (i <? 0); trivial. now apply Forall_store_nat.
Qed.

(** Whatever the canvas holds, a strip has 60 cells per row, all bytes. *)
Lemma extractVerticalEdge_shape c side :
  Canvas.readable c ->
  exists strip,
    extractVerticalEdge c side 60 = Return (Some strip) /\
    len strip = 60 * Canvas.height c /\
    Forall (fun v => 0 <= v <= 255) strip.
Proof.
  intros (Hctx & Hw & Hh). unfold extractVerticalEdge. rewrite Hctx. cbn [negb].
  unfold Canvas.getImageData.
  replace (Canvas.width c =? 0) with false by (symmetry; apply Z.eqb_neq; lia).
  replace (Canvas.height c =? 0) with false by (symmetry; apply Z.eqb_neq; lia).
  cbn [orb bind]. eexists. split; [reflexivity|].
  apply (forRange_preserves
           (fun edge => len edge = 60 * Canvas.height c /\
                        Forall (fun v => 0 <= v <= 255) edge)).
  - split.
    + unfold len. rewrite repeat_length. lia.
    + apply Forall_forall. intros v Hv. apply repeat_spec in Hv. subst. lia.
  - intros y edge _ Hedge. apply forRange_preserves; trivial.
    intros px e _ [Hl Hb]. split.
    + unfold len in *. now rewrite js_set_length.
    + apply Forall_js_set; trivial. apply Binary64.toUint8Clamp_range.
Qed.

Lemma spec_strip_length c side :
  0 <= Canvas.height c -> len (spec_strip c side) = 60 * Canvas.height c.
Proof.
  intros H. unfold len, spec_strip, upto. rewrite !length_map, length_seq. lia.
Qed.

Lemma gray_byte s : 0 <= s <= 765 -> 0 <= (2 * s + 3) / 6 <= 255.
Proof.
  intros H. split; [apply Z.div_pos; lia|].
  assert ((2 * s + 3) / 6 < 256) by (apply Z.div_lt_upper_bound; lia). lia.
Qed.

Lemma spec_strip_bytes c side :
  Canvas.wf c -> 60 <= Canvas.width c ->
  Forall (fun v => 0 <= v <= 255) (spec_strip c side).
Proof.
  intros Hwf Hwide. pose proof Hwf as (Hw & Hh & _).
  unfold spec_strip, upto. rewrite Forall_map, Forall_map. apply Forall_forall.
  intros n Hn. apply in_seq in Hn.
  assert (Hx : 0 <= stripOrigin c side + Z.of_nat n mod 60 < Canvas.width c).
  { pose proof (Z.mod_pos_bound (Z.of_nat n) 60 ltac:(lia)). destruct side; simpl; lia. }
  assert (Hy : 0 <= Z.of_nat n / 60 < Canvas.height c).
  { split; [apply Z.div_pos; lia|]. apply Z.div_lt_upper_bound; lia. }
  pose proof (channel_byte c _ _ 0 Hwf Hx Hy ltac:(lia)).
  pose proof (channel_byte c _ _ 1 Hwf Hx Hy ltac:(lia)).
  pose proof (channel_byte c _ _ 2 Hwf Hx Hy ltac:(lia)).
  unfold spec_gray. apply gray_byte. lia.
Qed.

End Strips.

Module Correlation.

Import BoardStitcher.

Definition nonneg (x : float) : Prop := Binary64.SFnonneg (Prim2SF x) = true.

Lemma nonneg_notNaN x : nonneg x -> Binary64.notNaN x.
Proof.
  unfold nonneg, Binary64.notNaN. destruct (Prim2SF x) as [[]|[]| |[] m e]; simpl; congruence.
Qed.

Lemma nonneg_zero : nonneg 0.
Proof. reflexivity. Qed.

Lemma nonneg_add x y : nonneg x -> nonneg y -> nonneg (x + y).
Proof.
  unfold nonneg. intros Hx Hy. rewrite add_spec. now apply Binary64.SFadd_nonneg.
Qed.

Lemma nonneg_div x n : nonneg x -> 0 < n < 2 ^ 53 -> nonneg (x / Number.ofZ n).
Proof.
  unfold nonneg. intros Hx Hn. rewrite div_spec. apply Binary64.SFdiv_nonneg; trivial.
  now apply Binary64.ofZ_posfin.
Qed.

(** A number that is neither negative nor above zero is +0. *)
Lemma nonneg_le_zero x : nonneg x -> (x <=? 0)%float = true -> x = 0%float.
Proof.
  unfold nonneg. intros Hx Hle. apply Binary64.leb_iff in Hle.
  destruct Hle as (_ & _ & Hle). apply Prim2SF_inj.
  change (Prim2SF 0) with (S754_zero false) in *.
  destruct (Prim2SF x) as [[]|[]| |[] m e]; simpl in *; try discriminate; trivial.
  - exfalso. apply Hle. lia.
  - exfalso. apply Hle. lia.
Qed.

(** ** One compared row *)

Lemma term_table :
  forallb (fun d => Binary64.SFnonneg (Prim2SF (1 - Number.ofZ d / 255)))
          (upto 256) = true.
Proof. vm_compute. reflexivity. Qed.

Lemma term_nonneg d : 0 <= d <= 255 -> nonneg (1 - Number.ofZ d / 255).
Proof.
  intros H. pose proof term_table as T. rewrite forallb_forall in T.
  apply T. apply Strips.In_upto. lia.
Qed.

Definition bytes (strip : list Z) : Prop := Forall (fun v => 0 <= v <= 255) strip.

Lemma nth_byte strip n : bytes strip -> 0 <= nth n strip 0 <= 255.
Proof.
  intros H. destruct (Nat.lt_ge_cases n (length strip)) as [L|G].
  - unfold bytes in H. rewrite Forall_forall in H. apply H. now apply nth_In.
  - rewrite nth_overflow by assumption. lia.
Qed.

Lemma spec_term_nonneg l r o i : bytes l -> bytes r -> nonneg (spec_term l r o i).
Proof.
  intros Hl Hr. unfold spec_term. apply term_nonneg.
  pose proof (nth_byte l (Z.to_nat i) Hl). pose proof (nth_byte r (Z.to_nat (i + o)) Hr).
  lia.
Qed.

Lemma fsum_nonneg terms : forall acc,
  nonneg acc -> Forall nonneg terms -> nonneg (fold_left PrimFloat.add terms acc).
Proof.
  induction terms as [|t terms IH]; intros acc Ha Ht; simpl; trivial.
  inversion Ht; subst. apply IH; trivial. now apply nonneg_add.
Qed.

Lemma spec_score_nonneg l r o :
  bytes l -> bytes r -> len l < 2 ^ 53 -> nonneg (spec_score l r o).
Proof.
  intros Hl Hr Hlen. unfold spec_score.
  destruct (Z.min (len l) (len r - o) >? 0) eqn:E; [|exact nonneg_zero].
  apply Z.gtb_lt in E. apply nonneg_div; [|lia].
  apply fsum_nonneg; [exact nonneg_zero|].
  rewrite Forall_map. apply Forall_forall. intros i _. now apply spec_term_nonneg.
Qed.

(** ** The correlation loop *)

Lemma upto_succ n : 0 <= n -> upto (n + 1) = upto n ++ [n].
Proof.
  intros H. unfold upto. replace (Z.to_nat (n + 1)) with (Datatypes.S (Z.to_nat n)) by lia.
  rewrite seq_S, map_app. simpl. now rewrite Z2Nat.id by lia.
Qed.

Lemma correlateEdges_spec l r o :
  0 <= o -> correlateEdges l r o = spec_score l r o.
Proof.
  intros Ho. unfold correlateEdges, spec_score.
  set (n := Z.min (len l) (len r - o)).
  match goal with |- context [forRange 0 n ?body ?init] =>
    assert (I : forRange 0 n body init
                = (fold_left PrimFloat.add (map (spec_term l r o) (upto (Z.max 0 n))) 0%float,
                   Z.max 0 n))
  end.
  { destruct (Z_le_gt_dec 0 n) as [L|G].
    - rewrite Z.max_r by lia.
      apply (forRange_invariant
               (fun j st => st = (fold_left PrimFloat.add
                                    (map (spec_term l r o) (upto j)) 0%float, j)));
        [lia|reflexivity|].
      intros j st Hj ->. rewrite upto_succ, map_app, fold_left_app by lia.
      cbn [map fold_left]. unfold spec_term.
      rewrite !Strips.js_get_in_range by lia. reflexivity.
    - rewrite forRange_empty by lia. rewrite Z.max_l by lia. reflexivity. }
  rewrite I. destruct (Z_le_gt_dec 0 n) as [L|G].
  - rewrite Z.max_r by lia. reflexivity.
  - rewrite Z.max_l by lia.
    replace (n >? 0) with false by (symmetry; rewrite Z.gtb_ltb; apply Z.ltb_ge; lia).
    reflexivity.
Qed.


(** ** The offset search *)

Record searched (l r : list Z) (j : Z) (best : Z * float) : Prop := {
  searched_nonneg : nonneg (snd best);
  searched_max : forall o, 0 <= o < j ->
                   (spec_score l r o <=? snd best)%float = true;
  searched_first : forall o, 0 <= o < fst best ->
                     (spec_score l r o <? snd best)%float = true;
  searched_at : (fst best = 0 /\ snd best = 0%float) \/
                (0 <= fst best < j /\ snd best = spec_score l r (fst best))
}.

Lemma bestCorrelation_searched l r :
  bytes l -> bytes r -> len l < 2 ^ 53 ->
  0 <= Z.min (len l) (len r) - 20 ->
  searched l r (Z.min (len l) (len r) - 20) (bestCorrelation l r).
Proof.
  intros Hl Hr Hlen Hb. unfold bestCorrelation.
  apply (forRange_invariant (searched l r)); [assumption| |].
  - constructor; simpl; [exact nonneg_zero|intros; lia|intros; lia|now left].
  - intros j [bo bs] Hj [Hn Hmax Hfirst Hat]. cbn [fst snd] in *.
    unfold searchStep. rewrite correlateEdges_spec by lia.
    pose proof (spec_score_nonneg l r j Hl Hr Hlen) as Hs.
    destruct (bs <? spec_score l r j)%float eqn:E.
    + constructor; cbn [fst snd]; trivial.
      * intros o Ho. destruct (Z.eq_dec o j) as [->|Ne].
        -- apply Binary64.leb_refl. now apply nonneg_notNaN.
        -- eapply Binary64.leb_trans; [apply Hmax; lia|]. now apply Binary64.ltb_leb.
      * intros o Ho. eapply Binary64.leb_ltb_trans; [apply Hmax; lia|exact E].
      * right. split; [lia|reflexivity].
    + constructor; cbn [fst snd]; trivial.
      * intros o Ho. destruct (Z.eq_dec o j) as [->|Ne]; [|apply Hmax; lia].
        apply Binary64.leb_of_ltb_false; trivial; now apply nonneg_notNaN.
      * destruct Hat as [Hat|[Hat1 Hat2]]; [now left|right]. split; [lia|assumption].
Qed.

Lemma bestCorrelation_max l r :
  bytes l -> bytes r -> len l < 2 ^ 53 ->
  0 < Z.min (len l) (len r) - 20 ->
  exists best,
    0 <= best < Z.min (len l) (len r) - 20 /\
    bestCorrelation l r = (best, spec_score l r best) /\
    (forall o, 0 <= o < Z.min (len l) (len r) - 20 ->
       (spec_score l r o <=? spec_score l r best)%float = true) /\
    (forall o, 0 <= o < best ->
       (spec_score l r o <? spec_score l r best)%float = true).
Proof.
  intros Hl Hr Hlen Hb.
  destruct (bestCorrelation_searched l r Hl Hr Hlen ltac:(lia)) as [Hn Hmax Hfirst Hat].
  destruct (bestCorrelation l r) as [bo bs]. cbn [fst snd] in *.
  assert (E : 0 <= bo < Z.min (len l) (len r) - 20 /\ bs = spec_score l r bo).
  { destruct Hat as [[-> ->]|Hat]; [|exact Hat]. split; [lia|].
    symmetry. apply nonneg_le_zero.
    - now apply spec_score_nonneg.
    - apply Hmax. lia. }
  destruct E as [Hbo ->]. exists bo. auto.
Qed.

End Correlation.

Module EdgeCorrelation.

Import BoardStitcher.

(** C6. For two adjacent frames whose canvases can be read, detection
    extracts, from the right edge of the left frame and the left edge of
    the right frame, strips of 60 cells per row (on a canvas at least 60
    pixels wide, the grayscale of its 60 edge columns, each cell the mean of
    the three colour channels as a byte); for an offset [o] it scores the
    average over the compared rows [i] of
    [1 - |leftStrip[i] - rightStrip[i + o]| / 255]; over the offsets from 0
    to below [min (len leftStrip) (len rightStrip) - 20] it keeps the first
    one of greatest score; and it reports no overlap exactly when that
    score is below 0.5, the region at that offset with that score as
    confidence otherwise. *)
Theorem detection_by_edge_correlation (f1 f2 : StitchFrame.t) :
  Canvas.readable (StitchFrame.canvas f1) ->
  Canvas.readable (StitchFrame.canvas f2) ->
  exists leftStrip rightStrip,
    extractVerticalEdge (StitchFrame.canvas f1) Right 60 = Return (Some leftStrip) /\
    extractVerticalEdge (StitchFrame.canvas f2) Left 60 = Return (Some rightStrip) /\
    len leftStrip = 60 * Canvas.height (StitchFrame.canvas f1) /\
    len rightStrip = 60 * Canvas.height (StitchFrame.canvas f2) /\
    (Canvas.wf (StitchFrame.canvas f1) ->
     60 <= Canvas.width (StitchFrame.canvas f1) ->
     leftStrip = spec_strip (StitchFrame.canvas f1) Right) /\
    (Canvas.wf (StitchFrame.canvas f2) ->
     60 <= Canvas.width (StitchFrame.canvas f2) ->
     rightStrip = spec_strip (StitchFrame.canvas f2) Left) /\
    (forall o, 0 <= o ->
       correlateEdges leftStrip rightStrip o = spec_score leftStrip rightStrip o) /\
    exists best,
      0 <= best < Z.min (len leftStrip) (len rightStrip) - 20 /\
      bestCorrelation leftStrip rightStrip
      = (best, spec_score leftStrip rightStrip best) /\
      (forall o, 0 <= o < Z.min (len leftStrip) (len rightStrip) - 20 ->
         (spec_score leftStrip rightStrip o
          <=? spec_score leftStrip rightStrip best)%float = true) /\
      (forall o, 0 <= o < best ->
         (spec_score leftStrip rightStrip o
          <? spec_score leftStrip rightStrip best)%float = true) /\
      (detectOverlap f1 f2 = Return None <->
       (spec_score leftStrip rightStrip best <? 0.5)%float = true) /\
      ((spec_score leftStrip rightStrip best <? 0.5)%float = false ->
       detectOverlap f1 f2
       = Return (Some (OverlapRegion.mk
                         (StitchFrame.id f1) (StitchFrame.id f2)
                         (Canvas.width (StitchFrame.canvas f1) - 60)
                         best 60
                         (Canvas.height (StitchFrame.canvas f1) - Z.abs best)
                         (spec_score leftStrip rightStrip best)))).
Proof.
  intros R1 R2.
  destruct (Strips.extractVerticalEdge_shape _ Right R1) as (leftStrip & E1 & L1 & B1).
  destruct (Strips.extractVerticalEdge_shape _ Left R2) as (rightStrip & E2 & L2 & B2).
  pose proof R1 as (Hc1 & _ & Hh1). pose proof R2 as (Hc2 & _ & Hh2).
  exists leftStrip, rightStrip.
  split; [exact E1|]. split; [exact E2|]. split; [exact L1|]. split; [exact L2|].
  split.
  { intros Hwf Hw. pose proof (Strips.extractVerticalEdge_strip _ Right Hwf Hw Hc1) as E.
    rewrite E1 in E. now inversion E. }
  split.
  { intros Hwf Hw. pose proof (Strips.extractVerticalEdge_strip _ Left Hwf Hw Hc2) as E.
    rewrite E2 in E. now inversion E. }
  split; [intros o Ho; now apply Correlation.correlateEdges_spec|].
  destruct (Correlation.bestCorrelation_max leftStrip rightStrip B1 B2)
    as (best & Hb & HB & Hmax & Hfirst).
  { rewrite L1. assert (2 ^ 31 * 60 < 2 ^ 53) by reflexivity. lia. }
  { lia. }
  exists best.
  assert (D : detectOverlap f1 f2
              = if (spec_score leftStrip rightStrip best <? 0.5)%float
                then Return None
                else Return (Some (OverlapRegion.mk
                       (StitchFrame.id f1) (StitchFrame.id f2)
                       (Canvas.width (StitchFrame.canvas f1) - 60)
                       best 60
                       (Canvas.height (StitchFrame.canvas f1) - Z.abs best)
                       (spec_score leftStrip rightStrip best)))).
  { unfold detectOverlap. cbv zeta. rewrite E1, E2. cbn [bind]. now rewrite HB. }
  repeat split; trivial; try lia.
  - rewrite D. destruct (_ <? 0.5)%float; [reflexivity|discriminate].
  - intros H. rewrite D. now rewrite H.
  - intros H. rewrite D. now rewrite H.
Qed.

Lemma solidCanvas_wf w h v :
  0 < w < 2 ^ 31 -> 0 < h < 2 ^ 31 -> 0 <= v <= 255 ->
  Canvas.wf (Examples.solidCanvas w h v).
Proof.
  intros Hw Hh Hv. unfold Canvas.wf, Examples.solidCanvas. cbn [Canvas.width Canvas.height Canvas.pixels].
  repeat split; try lia.
  - unfold len. rewrite repeat_length. rewrite Z2Nat.id; [reflexivity|].
    assert (0 < w * h) by (apply Z.mul_pos_pos; lia). lia.
  - apply Forall_forall. intros u Hu. apply repeat_spec in Hu. subst. lia.
Qed.

Lemma detection_by_edge_correlation_witness :
  exists leftStrip rightStrip,
    extractVerticalEdge (StitchFrame.canvas Examples.sharp) Right 60
    = Return (Some leftStrip) /\
    extractVerticalEdge (StitchFrame.canvas Examples.sharp') Left 60
    = Return (Some rightStrip) /\
    leftStrip = spec_strip (StitchFrame.canvas Examples.sharp) Right /\
    rightStrip = spec_strip (StitchFrame.canvas Examples.sharp') Left.
Proof.
  destruct (detection_by_edge_correlation Examples.sharp Examples.sharp')
    as (l & r & E1 & E2 & _ & _ & S1 & S2 & _).
  - repeat split; try reflexivity; vm_compute; discriminate.
  - repeat split; try reflexivity; vm_compute; discriminate.
  - exists l, r. repeat split; trivial.
    + apply S1; [apply solidCanvas_wf; lia|vm_compute; discriminate].
    + apply S2; [apply solidCanvas_wf; lia|vm_compute; discriminate].
Defined.

(** C6 fails as stated, in four ways.  The offset
    [min (len leftStrip) (len rightStrip) - 20] itself is not tried: for a
    black row of 60 pixels against a frame whose first 70 pixels are white
    it is 40 and scores 0.5, which is not below 0.5, yet no overlap is
    reported.  The strip of a frame narrower than 60 pixels is not the
    grayscale of its pixels: of a white frame 3 pixels wide it holds 57
    cells of 0, and no overlap is found with a white frame beside it.  For
    a frame whose canvas gives no context no strip is extracted and no
    score computed.  And a cell holds the mean of the three channels only
    as a byte: for channels 1, 0 and 0 it is 0. *)
Lemma detection_not_for_every_pair :
  (exists leftStrip rightStrip,
     extractVerticalEdge (StitchFrame.canvas Samples.night) Right 60
     = Return (Some leftStrip) /\
     extractVerticalEdge (StitchFrame.canvas Samples.dawn) Left 60
     = Return (Some rightStrip) /\
     Z.min (len leftStrip) (len rightStrip) - 20 = 40 /\
     spec_score leftStrip rightStrip 40 = 0.5%float /\
     (spec_score leftStrip rightStrip 40 <? 0.5)%float = false /\
     detectOverlap Samples.night Samples.dawn = Return None) /\
  (Canvas.width (StitchFrame.canvas Samples.chalk) = 3 /\
   spec_gray (StitchFrame.canvas Samples.chalk) 0 0 = 255 /\
   spec_gray (StitchFrame.canvas Samples.chalk) 1 0 = 255 /\
   spec_gray (StitchFrame.canvas Samples.chalk) 2 0 = 255 /\
   extractVerticalEdge (StitchFrame.canvas Samples.chalk) Right 60
   = Return (Some (repeat 0 57 ++ repeat 255 3)) /\
   detectOverlap Samples.chalk Samples.pale = Return None) /\
  (extractVerticalEdge (StitchFrame.canvas Samples.veiled) Right 60 = Return None /\
   detectOverlap Samples.veiled Samples.pale = Return None) /\
  (channel (StitchFrame.canvas Samples.ember) 0 0 0
   + channel (StitchFrame.canvas Samples.ember) 0 0 1
   + channel (StitchFrame.canvas Samples.ember) 0 0 2 = 1 /\
   extractVerticalEdge (StitchFrame.canvas Samples.ember) Left 60
   = Return (Some (repeat 0 60))).
Proof.
  split; [|split; [|split]].
  - eexists _, _. split; [vm_compute; reflexivity|].
    split; [vm_compute; reflexivity|]. vm_compute. repeat split; reflexivity.
  - vm_compute. repeat split; reflexivity.
  - vm_compute. repeat split; reflexivity.
  - vm_compute. repeat split; reflexivity.
Qed.

End EdgeCorrelation.

Module Progress.

Import BoardStitcher.

Lemma is_nan_false x : Binary64.notNaN x -> is_nan x = false.
Proof.
  unfold Binary64.notNaN, is_nan. intros H. rewrite FloatAxioms.eqb_spec. unfold SFeqb.
  rewrite Binary64.SFcompare_key by assumption.
  destruct (Binary64.lexCompare_spec (Binary64.cmpKey (Prim2SF x)) (Binary64.cmpKey (Prim2SF x)))
    as [_|L|L]; trivial; now apply Binary64.lexLt_irrefl in L.
Qed.

Lemma nonneg_zero_le x : Correlation.nonneg x -> (0 <=? x)%float = true.
Proof.
  intros H. apply Binary64.leb_iff. repeat split.
  - now apply Correlation.nonneg_notNaN.
  - unfold Correlation.nonneg in H. change (Prim2SF 0) with (S754_zero false).
    destruct (Prim2SF x) as [[]|[]| |[] m e]; simpl in *; try discriminate; lia.
Qed.

Lemma nonneg_mul x y :
  Correlation.nonneg x -> Binary64.SFposfin (Prim2SF y) = true -> Correlation.nonneg (x * y).
Proof.
  unfold Correlation.nonneg. intros Hx Hy. rewrite mul_spec. now apply Binary64.SFmul_nonneg.
Qed.

Lemma nonneg_div_const x y :
  Correlation.nonneg x -> Binary64.SFposfin (Prim2SF y) = true -> Correlation.nonneg (x / y).
Proof.
  unfold Correlation.nonneg. intros Hx Hy. rewrite div_spec. now apply Binary64.SFdiv_nonneg.
Qed.

Lemma Math_min_100 x :
  Correlation.nonneg x ->
  (0 <=? Number.Math_min 100 x)%float = true /\
  (Number.Math_min 100 x <=? 100)%float = true.
Proof.
  intros H. pose proof (Correlation.nonneg_notNaN x H) as N.
  unfold Number.Math_min. rewrite (is_nan_false x N).
  replace (is_nan 100) with false by reflexivity. cbn [orb].
  destruct (100 <? x)%float eqn:E1; [split; reflexivity|].
  destruct (x <? 100)%float eqn:E2.
  - split; [now apply nonneg_zero_le|now apply Binary64.ltb_leb].
  - replace (get_sign 100) with false by reflexivity.
    split; [now apply nonneg_zero_le|].
    apply Binary64.leb_of_ltb_false; trivial. reflexivity.
Qed.

(** X16. However many overlaps are stored, [getProgress] is a number
    between 0 and 100: the frame share alone passes 60 after twenty
    frames, and the sum is cut at 100. *)
Lemma getProgress_range s :
  len (frames s) < 2 ^ 53 ->
  (0 <=? getProgress s)%float = true /\ (getProgress s <=? 100)%float = true.
Proof.
  intros B. unfold getProgress.
  destruct (len (frames s) =? 0) eqn:E; [split; reflexivity|].
  apply Z.eqb_neq in E.
  assert (0 <= len (frames s)) by (unfold len; lia).
  assert (0 <= len (overlaps s)) by (unfold len; lia).
  apply Math_min_100. apply Correlation.nonneg_add.
  - unfold frameProgress. apply nonneg_mul; [|reflexivity].
    apply nonneg_div_const; [|reflexivity]. now apply Binary64.ofZ_nonneg.
  - unfold overlapProgress. apply nonneg_mul; [|reflexivity].
    apply Correlation.nonneg_div; [now apply Binary64.ofZ_nonneg|lia].
Qed.

Lemma getProgress_range_witness :
  (0 <=? getProgress (mk [Examples.sharp; Examples.sharp'] None []
                        [Samples.joint]))%float = true /\
  (getProgress (mk [Examples.sharp; Examples.sharp'] None []
                  [Samples.joint]) <=? 100)%float = true.
Proof.
  apply (getProgress_range (mk [Examples.sharp; Examples.sharp'] None []
                              [Samples.joint])).
  reflexivity.
Defined.

Lemma getProgress_empty s : frames s = [] -> getProgress s = 0%float.
Proof. intros H. unfold getProgress. now rewrite H. Qed.

(** C8, where the code departs from it. With 30 frames stored and no
    overlap recorded, the frame-count term is 30 / 20 * 60 = 90, above the
    60 points it is documented to contribute at most, and [getProgress]
    reports 90 although the overlap term is 0. *)
Theorem getProgress_frame_term_uncapped :
  getFrameCount (session (map CallAddFrame (repeat Examples.sharp 30))) = 30 /\
  overlaps (session (map CallAddFrame (repeat Examples.sharp 30))) = [] /\
  frameProgress (session (map CallAddFrame (repeat Examples.sharp 30))) = 90%float /\
  overlapProgress (session (map CallAddFrame (repeat Examples.sharp 30))) = 0%float /\
  getProgress (session (map CallAddFrame (repeat Examples.sharp 30))) = 90%float /\
  (60 <? frameProgress (session (map CallAddFrame (repeat Examples.sharp 30))))%float = true.
Proof.
  vm_compute. repeat split; reflexivity.
Qed.

End Progress.

(** * Worked sessions *)

Module Sessions.

Import BoardStitcher.

(** Scenario D of the specification: of two frames of quality 0.2 and 0.8
    only the second is stored. *)
Example scenario_D :
  getFrameCount (session [CallAddFrame Examples.blurred; CallAddFrame Examples.sharp]) = 1.
Proof. reflexivity. Qed.

(** On a canvas narrower than the strip, the cells that fall left of the
    image read past the row: before the first byte they are NaN, stored as
    0, and further down they are pixels of the row above. *)
Example narrow_canvas_strip :
  extractVerticalEdge (Examples.solidCanvas 3 2 7) Right 60
  = Return (Some (repeat 0 57 ++ repeat 7 3 ++ repeat 0 54 ++ repeat 7 6)).
Proof. vm_compute. reflexivity. Qed.

(** A frame added after a stitch leaves the overlap of that stitch in
    place: progress counts one overlap over the two pairs now stored. *)
Example progress_after_late_frame :
  getProgress (session [CallAddFrame Examples.sharp; CallAddFrame Examples.sharp';
                        CallStitch Examples.blankBrowser;
                        CallAddFrame Examples.sharp'])
  = (3 / 20 * 60 + 1 / 2 * 40)%float.
Proof. vm_compute. reflexivity. Qed.

(** P6 of the specification: [clear] on an empty stitcher is harmless,
    and after [clear] the stitcher is empty and reports no quality. *)
Example clear_resets :
  clear new = new /\
  getFrameCount (session [CallAddFrame Examples.sharp; CallAddFrame Examples.sharp';
                          CallStitch Examples.exhaustedBrowser; CallClear]) = 0 /\
  getQuality (session [CallAddFrame Examples.sharp; CallAddFrame Examples.sharp';
                       CallStitch Examples.exhaustedBrowser; CallClear]) = 0%float.
Proof. vm_compute. repeat split; reflexivity. Qed.

End Sessions.

(** * Cropping *)

Module Cropping.

Import BoardStitcher.

(** Pixel [k] of the scan counts as content: not near-white, or opaque. *)
Definition isContent (data : list Z) (k : Z) : bool :=
  negb (gt (js_get data (k * 4)) 240 && gt (js_get data (k * 4 + 1)) 240
        && gt (js_get data (k * 4 + 2)) 240)
  || gt (js_get data (k * 4 + 3)) 200.

(** The rectangle [cropToContent] copies: left, top, right and bottom,
    the last two exclusive. *)
Definition cropRectangle (canvas : Canvas.t) : Z * Z * Z * Z :=
  let bd := contentBounds canvas (Canvas.pixels canvas) in
  (Z.max 0 (minX bd - 10), Z.max 0 (minY bd - 10),
   Z.min (Canvas.width canvas) (maxX bd + 10),
   Z.min (Canvas.height canvas) (maxY bd + 10)).

(** What [cropToContent] hands back for a given rectangle. *)
Definition cropped (b : Browser) (canvas : Canvas.t) (rect : Z * Z * Z * Z)
  : Canvas.t :=
  let '(x0, y0, x1, y1) := rect in
  let target := createCanvas b (inject_Z (x1 - x0)) (inject_Z (y1 - y0)) in
  if Canvas.has2d target then
    paint b target
      [DrawImageCrop canvas (Number.ofZ x0) (Number.ofZ y0)
         (Number.ofZ (x1 - x0)) (Number.ofZ (y1 - y0)) 0 0
         (Number.ofZ (x1 - x0)) (Number.ofZ (y1 - y0))]
  else target.

Lemma cropToContent_rectangle b canvas :
  Canvas.has2d canvas = true ->
  Canvas.width canvas <> 0 -> Canvas.height canvas <> 0 ->
  cropToContent b canvas = Return (cropped b canvas (cropRectangle canvas)).
Proof.
  intros Hc Hw Hh. unfold cropToContent, Canvas.getImageData. rewrite Hc. cbn [negb].
  replace (Canvas.width canvas =? 0) with false by (symmetry; now apply Z.eqb_neq).
  replace (Canvas.height canvas =? 0) with false by (symmetry; now apply Z.eqb_neq).
  cbn [orb bind]. unfold cropped, cropRectangle. cbv zeta.
  destruct (Canvas.has2d (createCanvas _ _ _)); reflexivity.
Qed.

Definition scanned (canvas : Canvas.t) (data : list Z) (j : Z) (bd : Bounds) : Prop :=
  forall k, 0 <= k < j -> isContent data k = true ->
    minX bd <= k mod Canvas.width canvas <= maxX bd /\
    minY bd <= k / Canvas.width canvas <= maxY bd.

Lemma contentBounds_scanned canvas data :
  scanned canvas data ((len data + 3) / 4) (contentBounds canvas data).
Proof.
  unfold contentBounds.
  assert (H0 : 0 <= (len data + 3) / 4) by (apply Z.div_pos; unfold len; lia).
  replace ((len data + 3) / 4) with (0 + Z.of_nat (Z.to_nat ((len data + 3) / 4))) at 1 by lia.
  apply (forFrom_invariant (scanned canvas data)).
  - intros k Hk. lia.
  - intros j bd Hj Hbd k Hk Hcontent.
    fold (isContent data j).
    destruct (Z.eq_dec k j) as [->|Ne].
    + rewrite Hcontent. cbn [minX maxX minY maxY]. lia.
    + specialize (Hbd k ltac:(lia) Hcontent).
      destruct (isContent data j); cbn [minX maxX minY maxY]; lia.
Qed.

(** A canvas with four bytes per pixel. *)
Definition sized (canvas : Canvas.t) : Prop :=
  0 < Canvas.width canvas /\ 0 < Canvas.height canvas /\
  len (Canvas.pixels canvas) = 4 * (Canvas.width canvas * Canvas.height canvas).

Lemma cropRectangle_holds canvas x y :
  sized canvas ->
  0 <= x < Canvas.width canvas -> 0 <= y < Canvas.height canvas ->
  isContent (Canvas.pixels canvas) (y * Canvas.width canvas + x) = true ->
  let '(x0, y0, x1, y1) := cropRectangle canvas in
  0 <= x0 <= x /\ x < x1 <= Canvas.width canvas /\
  0 <= y0 <= y /\ y < y1 <= Canvas.height canvas.
Proof.
  intros (Hw & Hh & Hlen) Hx Hy Hcontent. unfold cropRectangle.
  pose proof (contentBounds_scanned canvas (Canvas.pixels canvas)) as S.
  rewrite Hlen in S.
  replace ((4 * (Canvas.width canvas * Canvas.height canvas) + 3) / 4)
    with (Canvas.width canvas * Canvas.height canvas) in S.
  2:{ apply Z.div_unique with (r := 3); lia. }
  assert (Hk : 0 <= y * Canvas.width canvas + x < Canvas.width canvas * Canvas.height canvas).
  { assert (y * Canvas.width canvas <= (Canvas.height canvas - 1) * Canvas.width canvas)
      by (apply Z.mul_le_mono_nonneg_r; lia).
    assert (0 <= y * Canvas.width canvas) by (apply Z.mul_nonneg_nonneg; lia).
    lia. }
  specialize (S _ Hk Hcontent).
  assert (M : (y * Canvas.width canvas + x) mod Canvas.width canvas = x).
  { rewrite Z.add_comm, Z_mod_plus_full. apply Z.mod_small. lia. }
  assert (D : (y * Canvas.width canvas + x) / Canvas.width canvas = y).
  { rewrite Z.add_comm, Z_div_plus by lia. rewrite Z.div_small by lia. lia. }
  rewrite M, D in S. lia.
Qed.




(** X2. A canvas whose pixels are all opaque (alpha above 200), as the
    white-filled composition is, has nothing cropped away: the rectangle
    copied is the whole canvas. *)
Theorem crop_keeps_opaque_canvas (b : Browser) (canvas : Canvas.t) :
  sized canvas -> Canvas.has2d canvas = true ->
  (forall k, 0 <= k < Canvas.width canvas * Canvas.height canvas ->
     gt (js_get (Canvas.pixels canvas) (k * 4 + 3)) 200 = true) ->
  cropRectangle canvas = (0, 0, Canvas.width canvas, Canvas.height canvas) /\
  cropToContent b canvas
  = Return (cropped b canvas (0, 0, Canvas.width canvas, Canvas.height canvas)).
Proof.
  intros Hs Hc Hopaque. pose proof Hs as (Hw & Hh & _).
  assert (Hpos : 0 < Canvas.width canvas * Canvas.height canvas)
    by (apply Z.mul_pos_pos; lia).
  assert (C0 : isContent (Canvas.pixels canvas) (0 * Canvas.width canvas + 0) = true).
  { unfold isContent. rewrite Hopaque by lia. apply orb_true_r. }
  assert (C1 : isContent (Canvas.pixels canvas)
                 ((Canvas.height canvas - 1) * Canvas.width canvas
                  + (Canvas.width canvas - 1)) = true).
  { replace ((Canvas.height canvas - 1) * Canvas.width canvas + (Canvas.width canvas - 1))
      with (Canvas.width canvas * Canvas.height canvas - 1) by ring.
    unfold isContent. rewrite Hopaque by lia. apply orb_true_r. }
  pose proof (cropRectangle_holds canvas 0 0 Hs ltac:(lia) ltac:(lia) C0) as R0.
  pose proof (cropRectangle_holds canvas (Canvas.width canvas - 1)
                (Canvas.height canvas - 1) Hs ltac:(lia) ltac:(lia) C1) as R1.
  rewrite (cropToContent_rectangle b canvas Hc) by lia.
  destruct (cropRectangle canvas) as [[[x0 y0] x1] y1].
  assert (E : (x0, y0, x1, y1) = (0, 0, Canvas.width canvas, Canvas.height canvas)).
  { repeat f_equal; lia. }
  rewrite E. split; reflexivity.
Qed.

Lemma crop_keeps_opaque_canvas_witness :
  cropRectangle (Examples.solidCanvas 2 1 255) = (0, 0, 2, 1) /\
  cropToContent Examples.blankBrowser (Examples.solidCanvas 2 1 255)
  = Return (cropped Examples.blankBrowser (Examples.solidCanvas 2 1 255) (0, 0, 2, 1)).
Proof.
  apply (crop_keeps_opaque_canvas Examples.blankBrowser (Examples.solidCanvas 2 1 255)).
  - unfold sized. repeat split; reflexivity.
  - reflexivity.
  - change (Canvas.width (Examples.solidCanvas 2 1 255)) with 2.
    change (Canvas.height (Examples.solidCanvas 2 1 255)) with 1.
    intros k Hk. assert (E : k = 0 \/ k = 1) by lia.
    destruct E as [-> | ->]; reflexivity.
Defined.

Lemma contentBounds_blank canvas data :
  (forall k, 0 <= k < (len data + 3) / 4 -> isContent data k = false) ->
  contentBounds canvas data
  = {| minX := Canvas.width canvas; maxX := 0;
       minY := Canvas.height canvas; maxY := 0 |}.
Proof.
  intros H. unfold contentBounds.
  assert (H0 : 0 <= (len data + 3) / 4) by (apply Z.div_pos; unfold len; lia).
  apply (forFrom_invariant
           (fun _ bd => bd = {| minX := Canvas.width canvas; maxX := 0;
                                minY := Canvas.height canvas; maxY := 0 |})).
  - reflexivity.
  - intros j bd Hj ->. fold (isContent data j). now rewrite H by lia.
Qed.

(** X3. On a canvas without any content pixel (all near-white with alpha
    at most 200) the scan leaves its bounds at their initial values, so the
    rectangle runs from [width - 10] to 10: wider than 20 pixels, the crop
    asks for a canvas of negative width [20 - width]. *)
Theorem crop_of_blank_canvas (b : Browser) (canvas : Canvas.t) :
  Canvas.has2d canvas = true ->
  Canvas.width canvas <> 0 -> Canvas.height canvas <> 0 ->
  (forall k, 0 <= k < (len (Canvas.pixels canvas) + 3) / 4 ->
     isContent (Canvas.pixels canvas) k = false) ->
  cropToContent b canvas
  = Return (cropped b canvas
              (Z.max 0 (Canvas.width canvas - 10), Z.max 0 (Canvas.height canvas - 10),
               Z.min (Canvas.width canvas) 10, Z.min (Canvas.height canvas) 10)) /\
  (20 < Canvas.width canvas ->
   Z.min (Canvas.width canvas) 10 - Z.max 0 (Canvas.width canvas - 10)
   = 20 - Canvas.width canvas).
Proof.
  intros Hc Hw Hh Hblank. split; [|lia].
  rewrite (cropToContent_rectangle b canvas Hc Hw Hh).
  unfold cropRectangle. rewrite (contentBounds_blank canvas _ Hblank). reflexivity.
Qed.

Lemma crop_of_blank_canvas_witness :
  cropToContent Examples.blankBrowser Samples.ghost
  = Return (cropped Examples.blankBrowser Samples.ghost (11, 0, 10, 1)) /\
  (20 < 21 -> 10 - 11 = 20 - 21).
Proof.
  apply (crop_of_blank_canvas Examples.blankBrowser Samples.ghost).
  - reflexivity.
  - discriminate.
  - discriminate.
  - intros k Hk. apply (Strips.In_upto 21) in Hk.
    revert k Hk. apply Forall_forall. vm_compute. repeat constructor.
Defined.

End Cropping.

(** * Outcomes of [stitch] *)

Module Outcomes.

Import BoardStitcher.

(** X4. [stitch] returns a canvas whenever at least two frames are
    stored, no frame canvas has an empty side, and the canvas the browser
    creates for the composition has a context and no empty side; the
    canvas returned is then the one [getComposition] yields. *)
Theorem stitch_returns (b : Browser) (s : t)
    (first second : StitchFrame.t) (rest : list StitchFrame.t) :
  frames s = first :: second :: rest ->
  Forall (fun g => Canvas.width (StitchFrame.canvas g) <> 0 /\
                   Canvas.height (StitchFrame.canvas g) <> 0) (frames s) ->
  Canvas.has2d
    (createCanvas b
       (fst (compositionSize first (frames s) (fst (detectOverlaps (frames s)))))
       (snd (compositionSize first (frames s) (fst (detectOverlaps (frames s))))))
  = true ->
  Canvas.width
    (createCanvas b
       (fst (compositionSize first (frames s) (fst (detectOverlaps (frames s)))))
       (snd (compositionSize first (frames s) (fst (detectOverlaps (frames s))))))
  <> 0 ->
  Canvas.height
    (createCanvas b
       (fst (compositionSize first (frames s) (fst (detectOverlaps (frames s)))))
       (snd (compositionSize first (frames s) (fst (detectOverlaps (frames s))))))
  <> 0 ->
  exists c,
    fst (stitch b s) = Return c /\
    getComposition (snd (stitch b s)) = Some c.
Proof.
  intros F Hall Hctx Hw Hh.
  assert (Scan : Forall (fun g => Throws.scannable (StitchFrame.canvas g)) (frames s)).
  { revert Hall. apply Forall_impl. intros g Hg. now right. }
  assert (Use : Forall (fun g => Throws.usable (StitchFrame.canvas g) = true) (frames s)).
  { revert Hall. apply Forall_impl. intros g [Wg Hg]. now apply Throws.usable_sides. }
  pose proof (Throws.detectOverlaps_returns _ Scan) as D.
  unfold stitch. rewrite F in *.
  destruct (detectOverlaps (first :: second :: rest)) as [ovs st]. cbn [fst snd] in *.
  subst st.
  destruct (compositionSize first (first :: second :: rest) ovs) as [w h].
  cbn [fst snd] in *. rewrite Hctx. cbn [negb].
  rewrite Throws.drawFrames_returns by trivial.
  rewrite Cropping.cropToContent_rectangle; trivial.
  eexists. split; reflexivity.
Qed.

Lemma stitch_returns_witness :
  exists c,
    fst (stitch Examples.blankBrowser (mk [Examples.wide; Examples.sliver] None [] []))
    = Return c /\
    getComposition
      (snd (stitch Examples.blankBrowser (mk [Examples.wide; Examples.sliver] None [] [])))
    = Some c.
Proof.
  apply (stitch_returns Examples.blankBrowser
           (mk [Examples.wide; Examples.sliver] None [] [])
           Examples.wide Examples.sliver []).
  - reflexivity.
  - apply Forall_cons; [split; discriminate|].
    apply Forall_cons; [split; discriminate|apply Forall_nil].
  - vm_compute. reflexivity.
  - vm_compute. discriminate.
  - vm_compute. discriminate.
Defined.

(** X5. [stitch] records its result as the current composition exactly
    when it runs on at least two frames and succeeds: a stitch of a single
    frame returns that frame's canvas without recording it, and a failed
    stitch leaves the recorded composition as it was. *)
Theorem stitch_composition (b : Browser) (s : t) :
  (forall c, fst (stitch b s) = Return c -> 2 <= len (frames s) ->
     getComposition (snd (stitch b s)) = Some c) /\
  (len (frames s) < 2 ->
     getComposition (snd (stitch b s)) = getComposition s) /\
  (forall e, fst (stitch b s) = Throw e ->
     getComposition (snd (stitch b s)) = getComposition s).
Proof.
  unfold stitch, getComposition.
  destruct (frames s) as [|first [|second rest]];
    [| |destruct (detectOverlaps _) as [ovs [[]|e1]];
        [destruct (compositionSize _ _ _) as [w h];
         destruct (negb _);
         [|destruct (status _); [destruct (cropToContent _ _) as [c0|e1]|]]|]];
    repeat split; intros; trivial; try discriminate;
    try (unfold len in *; simpl in *; lia);
    simpl in *; congruence.
Qed.

Lemma stitch_composition_witness :
  getComposition
    (snd (stitch Examples.exhaustedBrowser
            (mk [Examples.sharp; Examples.sharp'] (Some Samples.ghost) [] [])))
  = Some Samples.ghost.
Proof.
  apply (proj2 (proj2 (stitch_composition Examples.exhaustedBrowser
           (mk [Examples.sharp; Examples.sharp'] (Some Samples.ghost) [] [])))
           renderSurface).
  vm_compute. reflexivity.
Defined.

(** The canvases [getImageData] refuses: a context and an empty side. *)
Definition unreadable (c : Canvas.t) : bool :=
  Canvas.has2d c && ((Canvas.width c =? 0) || (Canvas.height c =? 0)).

Lemma scannable_unreadable c : unreadable c = false -> Throws.scannable c.
Proof.
  unfold unreadable, Throws.scannable. destruct (Canvas.has2d c); [|now left].
  cbn [andb]. intros H. apply orb_false_iff in H. destruct H as [W H].
  right. split; now apply Z.eqb_neq.
Qed.

Lemma detectOverlaps_thrown fs ovs e :
  detectOverlaps fs = (ovs, Throw e) ->
  Exists (fun g => unreadable (StitchFrame.canvas g) = true) fs.
Proof.
  intros D.
  destruct (Forall_Exists_dec (fun g => unreadable (StitchFrame.canvas g) = false)
              (fun g => bool_dec (unreadable (StitchFrame.canvas g)) false) fs)
    as [All|Ex].
  - assert (S : snd (detectOverlaps fs) = Return tt).
    { apply Throws.detectOverlaps_returns. revert All. apply Forall_impl.
      intros g. apply scannable_unreadable. }
    rewrite D in S. discriminate.
  - revert Ex. apply Exists_impl. intros g. apply not_false_is_true.
Qed.

Lemma cropToContent_thrown b c e :
  cropToContent b c = Throw e -> Canvas.width c = 0 \/ Canvas.height c = 0.
Proof.
  intros H. destruct (Z.eq_dec (Canvas.width c) 0) as [|W]; [now left|].
  destruct (Z.eq_dec (Canvas.height c) 0) as [|Hh]; [now right|].
  destruct (Canvas.has2d c) eqn:C.
  - rewrite Cropping.cropToContent_rectangle in H by assumption. discriminate.
  - unfold cropToContent in H. rewrite C in H. discriminate.
Qed.

(** X6. Why [stitch] fails.  It throws "No frames to stitch" only on an
    empty stitcher; otherwise an [IndexSizeError] because some stored
    frame's canvas has a context and an empty side; an
    [InvalidStateError] because some stored frame's canvas has an empty
    side and is refused by [drawImage]; or, with the overlaps detected,
    "Failed to get canvas context" because the composition canvas has no
    context, or an [IndexSizeError] because that canvas has an empty
    side.  It throws nothing else. *)
Theorem stitch_failure_causes (b : Browser) (s : t) (e : JsError) :
  fst (stitch b s) = Throw e ->
  (e = emptyInput /\ frames s = []) \/
  (e = DOMException "IndexSizeError" /\
   Exists (fun g => unreadable (StitchFrame.canvas g) = true) (frames s)) \/
  (e = DOMException "InvalidStateError" /\
   Exists (fun g => Canvas.width (StitchFrame.canvas g) = 0 \/
                    Canvas.height (StitchFrame.canvas g) = 0) (frames s)) \/
  (exists first rest blank,
     frames s = first :: rest /\
     blank = createCanvas b
       (fst (compositionSize first (frames s) (fst (detectOverlaps (frames s)))))
       (snd (compositionSize first (frames s) (fst (detectOverlaps (frames s))))) /\
     ((e = renderSurface /\ Canvas.has2d blank = false) \/
      (e = DOMException "IndexSizeError" /\
       (Canvas.width blank = 0 \/ Canvas.height blank = 0)))).
Proof.
  unfold stitch.
  destruct (frames s) as [|first [|second rest]].
  - simpl. intros H; inversion H. auto.
  - discriminate.
  - destruct (detectOverlaps _) as [ovs [[]|e1]] eqn:D.
    2:{ simpl. intros H; inversion H; subst. right; left. split.
        - now apply Throws.detectOverlaps_throw_kind in D.
        - now apply detectOverlaps_thrown in D. }
    cbn [fst].
    destruct (compositionSize _ _ _) as [w h] eqn:Z.
    intros H.
    destruct (Canvas.has2d (createCanvas b w h)) eqn:C; cbn [negb] in H.
    + match type of H with
      | context [drawFrames ?fs ?o ?st] =>
          destruct (Throws.drawFrames_outcome fs o st eq_refl) as [R|[T (f & Hin & U)]]
      end.
      * right; right; right.
        exists first, (second :: rest), (createCanvas b w h).
        split; [reflexivity|]. split; [rewrite Z; reflexivity|].
        right. rewrite R in H.
        destruct (cropToContent _ _) as [c|e1] eqn:K; [discriminate|].
        simpl in H; inversion H; subst. split.
        -- now apply Composition.cropToContent_throws in K.
        -- apply cropToContent_thrown in K. exact K.
      * right; right; left. rewrite T in H. simpl in H; inversion H; subst.
        split; [reflexivity|]. apply Exists_exists. exists f. split; [exact Hin|].
        unfold Throws.usable in U. apply negb_false_iff, orb_true_iff in U.
        destruct U as [U|U]; apply Z.eqb_eq in U; auto.
    + right; right; right.
      exists first, (second :: rest), (createCanvas b w h).
      split; [reflexivity|]. split; [rewrite Z; reflexivity|].
      left. simpl in H; inversion H. auto.
Qed.

Lemma stitch_failure_causes_witness :
  (renderSurface = emptyInput /\ [Examples.sharp; Examples.sharp'] = []) \/
  (renderSurface = DOMException "IndexSizeError" /\
   Exists (fun g => unreadable (StitchFrame.canvas g) = true)
     [Examples.sharp; Examples.sharp']) \/
  (renderSurface = DOMException "InvalidStateError" /\
   Exists (fun g => Canvas.width (StitchFrame.canvas g) = 0 \/
                    Canvas.height (StitchFrame.canvas g) = 0)
     [Examples.sharp; Examples.sharp']) \/
  (exists first rest blank,
     [Examples.sharp; Examples.sharp'] = first :: rest /\
     blank = createCanvas Examples.exhaustedBrowser
       (fst (compositionSize first [Examples.sharp; Examples.sharp']
               (fst (detectOverlaps [Examples.sharp; Examples.sharp']))))
       (snd (compositionSize first [Examples.sharp; Examples.sharp']
               (fst (detectOverlaps [Examples.sharp; Examples.sharp'])))) /\
     ((renderSurface = renderSurface /\ Canvas.has2d blank = false) \/
      (renderSurface = DOMException "IndexSizeError" /\
       (Canvas.width blank = 0 \/ Canvas.height blank = 0)))).
Proof.
  apply (stitch_failure_causes Examples.exhaustedBrowser
           (mk [Examples.sharp; Examples.sharp'] None [] []) renderSurface).
  vm_compute. reflexivity.
Defined.

End Outcomes.

(** * More on overlap detection *)

Module Regions.

Import BoardStitcher.

Lemma extractVerticalEdge_length c side w strip :
  extractVerticalEdge c side w = Return (Some strip) ->
  length strip = Z.to_nat (Canvas.height c * w).
Proof.
  unfold extractVerticalEdge. destruct (negb _); [discriminate|].
  destruct (Canvas.getImageData c) as [data|e]; cbn [bind]; [|discriminate].
  intros H. inversion H as [E]. clear H E.
  apply (forRange_preserves (fun edge => length edge = Z.to_nat (Canvas.height c * w))).
  - apply repeat_length.
  - intros y edge _ Hedge. apply forRange_preserves; trivial.
    intros px e _ He. now rewrite Strips.js_set_length.
Qed.

(** X7. What [extractVerticalEdge] does with a canvas: without a context
    it yields no strip; with a context and an empty side the read of the
    pixels throws; otherwise it yields 60 cells per row, every cell a byte,
    whatever the canvas width. *)
Theorem extractVerticalEdge_outcomes (c : Canvas.t) (side : Side) :
  (Canvas.has2d c = false -> extractVerticalEdge c side 60 = Return None) /\
  (Canvas.has2d c = true -> Canvas.width c = 0 \/ Canvas.height c = 0 ->
   extractVerticalEdge c side 60 = Throw (DOMException "IndexSizeError")) /\
  (Canvas.readable c ->
   exists strip,
     extractVerticalEdge c side 60 = Return (Some strip) /\
     len strip = 60 * Canvas.height c /\
     Forall (fun v => 0 <= v <= 255) strip).
Proof.
  split; [|split].
  - intros H. unfold extractVerticalEdge. now rewrite H.
  - intros H Hz. unfold extractVerticalEdge, Canvas.getImageData. rewrite H. cbn [negb].
    replace ((Canvas.width c =? 0) || (Canvas.height c =? 0)) with true; [reflexivity|].
    symmetry. apply orb_true_iff. destruct Hz as [-> | ->]; [left|right]; reflexivity.
  - apply Strips.extractVerticalEdge_shape.
Qed.

Lemma extractVerticalEdge_outcomes_witness :
  exists strip,
    extractVerticalEdge (StitchFrame.canvas Examples.sliver) Right 60
    = Return (Some strip) /\
    len strip = 60 * Canvas.height (StitchFrame.canvas Examples.sliver) /\
    Forall (fun v => 0 <= v <= 255) strip.
Proof.
  apply (proj2 (proj2 (extractVerticalEdge_outcomes
                         (StitchFrame.canvas Examples.sliver) Right))).
  unfold Canvas.readable. simpl. repeat split; lia.
Defined.

Lemma bestCorrelation_offset l r :
  (Z.min (len l) (len r) - 20 <= 0 -> bestCorrelation l r = (0, 0%float)) /\
  (0 < Z.min (len l) (len r) - 20 ->
   0 <= fst (bestCorrelation l r) < Z.min (len l) (len r) - 20).
Proof.
  unfold bestCorrelation. split; intros H.
  - now rewrite forRange_empty.
  - apply (forRange_preserves
             (fun best => 0 <= fst best < Z.min (len l) (len r) - 20)).
    + simpl. lia.
    + intros j [bo bs] Hj Hb. unfold searchStep.
      destruct (bs <? _)%float; simpl in *; lia.
Qed.

(** X8. A region returned by [detectOverlap] carries the ids of the two
    frames, sits on the last 60 columns of the left frame ([x + 60] is its
    width, [width] is 60), and has [y + height] equal to the left frame's
    height with [0 <= y < 60 * min height1 height2 - 20]: [y] is an index
    into the row-major strip, so it can exceed the frame height, and
    [height] is then negative. *)
Theorem detectOverlap_region (f1 f2 : StitchFrame.t) (r : OverlapRegion.t) :
  detectOverlap f1 f2 = Return (Some r) ->
  OverlapRegion.frame1Id r = StitchFrame.id f1 /\
  OverlapRegion.frame2Id r = StitchFrame.id f2 /\
  OverlapRegion.x r + 60 = Canvas.width (StitchFrame.canvas f1) /\
  OverlapRegion.width r = 60 /\
  OverlapRegion.y r + OverlapRegion.height r = Canvas.height (StitchFrame.canvas f1) /\
  0 <= OverlapRegion.y r
    < 60 * Z.min (Canvas.height (StitchFrame.canvas f1))
                 (Canvas.height (StitchFrame.canvas f2)) - 20.
Proof.
  intros H. apply Detection.detectOverlap_inv in H.
  destruct H as (l & rr & E1 & E2 & Hs & ->).
  cbn [OverlapRegion.frame1Id OverlapRegion.frame2Id OverlapRegion.x OverlapRegion.y
       OverlapRegion.width OverlapRegion.height].
  apply extractVerticalEdge_length in E1. apply extractVerticalEdge_length in E2.
  destruct (bestCorrelation_offset l rr) as [Hempty Hrange].
  destruct (Z_le_gt_dec (Z.min (len l) (len rr) - 20) 0) as [L|G].
  - rewrite (Hempty L) in Hs. discriminate.
  - specialize (Hrange ltac:(lia)). unfold len in *. repeat split; lia.
Qed.

Lemma detectOverlap_region_witness :
  OverlapRegion.frame1Id Samples.joint = StitchFrame.id Examples.wide /\
  OverlapRegion.frame2Id Samples.joint = StitchFrame.id Examples.sliver /\
  OverlapRegion.x Samples.joint + 60 = Canvas.width (StitchFrame.canvas Examples.wide) /\
  OverlapRegion.width Samples.joint = 60 /\
  OverlapRegion.y Samples.joint + OverlapRegion.height Samples.joint
  = Canvas.height (StitchFrame.canvas Examples.wide) /\
  0 <= OverlapRegion.y Samples.joint
    < 60 * Z.min (Canvas.height (StitchFrame.canvas Examples.wide))
                 (Canvas.height (StitchFrame.canvas Examples.sliver)) - 20.
Proof.
  apply (detectOverlap_region Examples.wide Examples.sliver Samples.joint).
  vm_compute. reflexivity.
Defined.

(** X9. [correlateEdges] yields 0 when no row is compared, and on strips
    of bytes, for an offset that is not negative, a number that is neither
    NaN nor negative. *)
Theorem correlateEdges_score (edge1 edge2 : list Z) (offset : Z) :
  (Z.min (len edge1) (len edge2 - offset) <= 0 ->
   correlateEdges edge1 edge2 offset = 0%float) /\
  (Forall (fun v => 0 <= v <= 255) edge1 ->
   Forall (fun v => 0 <= v <= 255) edge2 ->
   0 <= offset -> len edge1 < 2 ^ 53 ->
   (0 <=? correlateEdges edge1 edge2 offset)%float = true).
Proof.
  split.
  - intros H. unfold correlateEdges. now rewrite forRange_empty.
  - intros H1 H2 Ho Hlen. rewrite Correlation.correlateEdges_spec by assumption.
    apply Progress.nonneg_zero_le. now apply Correlation.spec_score_nonneg.
Qed.

Lemma correlateEdges_score_witness :
  (0 <=? correlateEdges [0; 128; 255]%Z [255; 128; 0; 7]%Z 1)%float = true.
Proof.
  apply (proj2 (correlateEdges_score [0; 128; 255] [255; 128; 0; 7] 1)).
  - repeat constructor; lia.
  - repeat constructor; lia.
  - lia.
  - reflexivity.
Defined.

Lemma extractVerticalEdge_sides c side w strip :
  extractVerticalEdge c side w = Return (Some strip) ->
  Canvas.width c <> 0 /\ Canvas.height c <> 0.
Proof.
  unfold extractVerticalEdge. destruct (negb _); [discriminate|].
  unfold Canvas.getImageData.
  destruct (Canvas.width c =? 0) eqn:W; [discriminate|].
  destruct (Canvas.height c =? 0) eqn:H; [discriminate|].
  intros _. split; now apply Z.eqb_neq.
Qed.

(** X10. Overlaps are handed to frames by position in the list of found
    overlaps, not by pair: when of three frames the first pair shows no
    overlap and the second pair does, and the first frame's canvas has no
    empty side, the overlap found between the second and third frame is
    used to blend the second frame onto the first, and the third frame is
    drawn unblended. *)
Theorem overlap_applied_to_earlier_pair
    (a b c : StitchFrame.t) (o : OverlapRegion.t) (st : DrawState) :
  detectOverlap a b = Return None ->
  detectOverlap b c = Return (Some o) ->
  Canvas.width (StitchFrame.canvas a) <> 0 ->
  Canvas.height (StitchFrame.canvas a) <> 0 ->
  status st = Return tt ->
  detectOverlaps [a; b; c] = ([o], Return tt) /\
  OverlapRegion.frame1Id o = StitchFrame.id b /\
  OverlapRegion.frame2Id o = StitchFrame.id c /\
  status (drawFrames [a; b; c] [o] st) = Return tt /\
  commands (drawFrames [a; b; c] [o] st)
  = commands st
    ++ [DrawImage (StitchFrame.canvas a) (currentX st) (Number.ofZ padding)]
    ++ fst (blendFrames (StitchFrame.canvas a) (StitchFrame.canvas b) o
              (currentX st + Number.ofZ (Canvas.width (StitchFrame.canvas a))
               - Number.ofZ (Canvas.width (StitchFrame.canvas a)))%float
              (Number.ofZ padding))
    ++ [DrawImage (StitchFrame.canvas c)
          (currentX st + Number.ofZ (Canvas.width (StitchFrame.canvas a))
           + (Number.ofZ (Canvas.width (StitchFrame.canvas b))
              - Number.ofZ (OverlapRegion.width o) * 0.7))%float
          (Number.ofZ padding)] /\
  In (DrawImage (StitchFrame.canvas b)
        (currentX st + Number.ofZ (Canvas.width (StitchFrame.canvas a))
         - Number.ofZ (Canvas.width (StitchFrame.canvas a))
         + Number.ofZ (Canvas.width (StitchFrame.canvas a))
         - Number.ofZ (OverlapRegion.width o))%float
        (Number.ofZ padding + Number.ofZ (OverlapRegion.y o))%float)
     (fst (blendFrames (StitchFrame.canvas a) (StitchFrame.canvas b) o
              (currentX st + Number.ofZ (Canvas.width (StitchFrame.canvas a))
               - Number.ofZ (Canvas.width (StitchFrame.canvas a)))%float
              (Number.ofZ padding))).
Proof.
  intros Hab Hbc Wa Ha Hst.
  pose proof (Detection.detectOverlap_inv _ _ _ Hbc) as (l & r & El & Er & _ & Ho).
  assert (Ua : Throws.usable (StitchFrame.canvas a) = true)
    by now apply Throws.usable_sides.
  assert (Ub : Throws.usable (StitchFrame.canvas b) = true).
  { apply extractVerticalEdge_sides in El. now apply Throws.usable_sides. }
  assert (Uc : Throws.usable (StitchFrame.canvas c) = true).
  { apply extractVerticalEdge_sides in Er. now apply Throws.usable_sides. }
  assert (D : drawFrames [a; b; c] [o] st
              = {| currentX :=
                     (currentX st + Number.ofZ (Canvas.width (StitchFrame.canvas a))
                      + (Number.ofZ (Canvas.width (StitchFrame.canvas b))
                         - Number.ofZ (OverlapRegion.width o) * 0.7)
                      + Number.ofZ (Canvas.width (StitchFrame.canvas c)))%float;
                   placed :=
                     map_set
                       (map_set
                          (map_set (placed st) (StitchFrame.id a)
                             (Transform.mk (currentX st) (Number.ofZ padding) 1))
                          (StitchFrame.id b)
                          (Transform.mk
                             (currentX st
                              + Number.ofZ (Canvas.width (StitchFrame.canvas a)))%float
                             (Number.ofZ padding) 1))
                       (StitchFrame.id c)
                       (Transform.mk
                          (currentX st + Number.ofZ (Canvas.width (StitchFrame.canvas a))
                           + (Number.ofZ (Canvas.width (StitchFrame.canvas b))
                              - Number.ofZ (OverlapRegion.width o) * 0.7))%float
                          (Number.ofZ padding) 1);
                   commands :=
                     ((commands st
                       ++ [DrawImage (StitchFrame.canvas a) (currentX st)
                             (Number.ofZ padding)])
                      ++ Throws.blendCommands (StitchFrame.canvas a)
                           (StitchFrame.canvas b) o
                           (currentX st
                            + Number.ofZ (Canvas.width (StitchFrame.canvas a))
                            - Number.ofZ (Canvas.width (StitchFrame.canvas a)))%float
                           (Number.ofZ padding))
                     ++ [DrawImage (StitchFrame.canvas c)
                           (currentX st
                            + Number.ofZ (Canvas.width (StitchFrame.canvas a))
                            + (Number.ofZ (Canvas.width (StitchFrame.canvas b))
                               - Number.ofZ (OverlapRegion.width o) * 0.7))%float
                           (Number.ofZ padding)];
                   status := Return tt |}).
  { unfold drawFrames. cbn [forEachFrom]. unfold drawStep at 3. rewrite Hst.
    change (0 =? 0) with true. cbv beta iota zeta.
    rewrite (Throws.drawImage_usable _ _ _ Ua).
    unfold drawStep at 2. cbn [status currentX commands placed].
    change (0 + 1 =? 0) with false.
    change (js_get [o] (0 + 1 - 1)) with (Some o).
    change (js_get [a; b; c] (0 + 1 - 1)) with (Some a).
    cbv beta iota zeta.
    rewrite (Throws.blendFrames_usable _ _ o _ _ Ua Ub).
    unfold drawStep. cbn [status currentX commands placed].
    change (0 + 1 + 1 =? 0) with false.
    change (js_get [o] (0 + 1 + 1 - 1)) with (@None OverlapRegion.t).
    cbv beta iota zeta.
    rewrite (Throws.drawImage_usable _ _ _ Uc). reflexivity. }
  split; [|split; [|split; [|split; [|split]]]].
  - unfold detectOverlaps. change (removelast [a; b; c]) with [a; b].
    cbn [forEachFrom]. unfold detectStep.
    change (js_get [a; b; c] (0 + 1)) with (Some b). cbv beta iota. rewrite Hab.
    change (js_get [a; b; c] (0 + 1 + 1)) with (Some c). cbv beta iota.
    rewrite Hbc. reflexivity.
  - rewrite Ho. reflexivity.
  - rewrite Ho. reflexivity.
  - rewrite D. reflexivity.
  - rewrite D, (Throws.blendFrames_usable _ _ o _ _ Ua Ub). cbn [commands fst].
    rewrite <- !app_assoc. reflexivity.
  - rewrite (Throws.blendFrames_usable _ _ o _ _ Ua Ub). cbn [fst].
    unfold Throws.blendCommands. do 7 right. left. reflexivity.
Qed.

Lemma overlap_applied_to_earlier_pair_witness :
  detectOverlaps [Samples.pale; Examples.wide; Examples.sliver]
  = ([Samples.joint], Return tt).
Proof.
  apply (overlap_applied_to_earlier_pair Samples.pale Examples.wide Examples.sliver
           Samples.joint Samples.easel).
  - vm_compute. reflexivity.
  - vm_compute. reflexivity.
  - discriminate.
  - discriminate.
  - reflexivity.
Defined.

End Regions.

(** * Quality, and the stored lists over a session *)

Module Quality.

Import BoardStitcher.

Lemma is_nan_spec x : is_nan x = true <-> Prim2SF x = S754_nan.
Proof.
  split.
  - intros H. destruct (Binary64.isNaN (Prim2SF x)) eqn:E.
    + destruct (Prim2SF x); simpl in E; try discriminate. reflexivity.
    + rewrite (Progress.is_nan_false x E) in H. discriminate.
  - intros H. unfold is_nan. rewrite FloatAxioms.eqb_spec, H. reflexivity.
Qed.

Lemma add_nan_l x y : is_nan x = true -> is_nan (x + y) = true.
Proof.
  rewrite !is_nan_spec. intros H. rewrite add_spec, H. reflexivity.
Qed.

Lemma add_nan_r x y : is_nan y = true -> is_nan (x + y) = true.
Proof.
  rewrite !is_nan_spec. intros H. rewrite add_spec, H.
  destruct (Prim2SF x); reflexivity.
Qed.

Lemma mul_nan_l x y : is_nan x = true -> is_nan (x * y) = true.
Proof.
  rewrite !is_nan_spec. intros H. rewrite mul_spec, H. reflexivity.
Qed.

Lemma div_nan_l x y : is_nan x = true -> is_nan (x / y) = true.
Proof.
  rewrite !is_nan_spec. intros H. rewrite div_spec, H. reflexivity.
Qed.

Lemma ltb_nan_l x y : is_nan x = true -> (x <? y)%float = false.
Proof.
  rewrite is_nan_spec. intros H. rewrite FloatAxioms.ltb_spec, H. reflexivity.
Qed.

Lemma sum_nan {A} (value : A -> float) (l : list A) : forall acc,
  is_nan acc = true \/ Exists (fun a => is_nan (value a) = true) l ->
  is_nan (fold_left (fun sum a => (sum + value a)%float) l acc) = true.
Proof.
  induction l as [|a l IH]; intros acc H; cbn [fold_left].
  - destruct H as [H|H]; [assumption|inversion H].
  - apply IH. destruct H as [H|H].
    + left. now apply add_nan_l.
    + inversion H; subst; [left; now apply add_nan_r|now right].
Qed.

(** X11. The quality gate lets a frame whose quality is NaN through, and
    once such a frame is stored among at least two, [getQuality] is NaN. *)
Theorem nan_quality_is_stored_and_spreads (s : t) (frame : StitchFrame.t) :
  is_nan (StitchFrame.quality frame) = true ->
  frames (snd (addFrame s frame)) = frames s ++ [frame] /\
  (In frame (frames s) -> 2 <= len (frames s) -> is_nan (getQuality s) = true).
Proof.
  intros N. split.
  - unfold addFrame. now rewrite (ltb_nan_l _ _ N).
  - intros Hin H2. unfold getQuality.
    replace (len (frames s) <? 2) with false by (symmetry; apply Z.ltb_ge; lia).
    apply add_nan_r, mul_nan_l, div_nan_l, sum_nan. right.
    apply Exists_exists. exists frame. split; assumption.
Qed.

Lemma nan_quality_is_stored_and_spreads_witness :
  frames (snd (addFrame (mk [Examples.sharp] None [] []) Samples.unmeasured))
  = [Examples.sharp; Samples.unmeasured].
Proof.
  apply (nan_quality_is_stored_and_spreads (mk [Examples.sharp] None [] [])
           Samples.unmeasured).
  reflexivity.
Defined.

(** ** Numbers that are not negative *)

Lemma leb_posfin_nonneg c x :
  Binary64.SFposfin (Prim2SF c) = true -> (c <=? x)%float = true ->
  Correlation.nonneg x.
Proof.
  intros Hc H. apply Binary64.leb_iff in H. destruct H as (_ & Hx & H).
  unfold Correlation.nonneg, Binary64.notNaN in *.
  destruct (Prim2SF c) as [[]|[]| |[] mc ec]; try discriminate.
  destruct (Prim2SF x) as [[]|[]| |[] mx ex]; simpl in *; try discriminate; trivial;
    exfalso; apply H; lia.
Qed.

Lemma Math_min_one_nonneg x : Correlation.nonneg x -> Correlation.nonneg (Number.Math_min 1 x).
Proof.
  intros H. unfold Number.Math_min.
  rewrite (Progress.is_nan_false x (Correlation.nonneg_notNaN x H)).
  replace (is_nan 1) with false by reflexivity. cbn [orb].
  destruct (1 <? x)%float; [reflexivity|].
  destruct (x <? 1)%float; [assumption|].
  replace (get_sign 1) with false by reflexivity. assumption.
Qed.

Lemma sum_nonneg {A} (value : A -> float) (l : list A) : forall acc,
  Correlation.nonneg acc -> Forall (fun a => Correlation.nonneg (value a)) l ->
  Correlation.nonneg (fold_left (fun sum a => (sum + value a)%float) l acc).
Proof.
  induction l as [|a l IH]; intros acc Ha Hl; cbn [fold_left]; trivial.
  inversion Hl; subst. apply IH; trivial. now apply Correlation.nonneg_add.
Qed.

Lemma getQuality_nonneg s :
  Forall (fun f => Correlation.nonneg (StitchFrame.quality f)) (frames s) ->
  Forall (fun o => Correlation.nonneg (OverlapRegion.confidence o)) (overlaps s) ->
  len (frames s) < 2 ^ 53 -> len (overlaps s) < 2 ^ 53 ->
  Correlation.nonneg (getQuality s).
Proof.
  intros Hf Ho Bf Bo. unfold getQuality.
  destruct (len (frames s) <? 2) eqn:E; [reflexivity|]. apply Z.ltb_ge in E.
  repeat apply Correlation.nonneg_add.
  - apply Progress.nonneg_mul; [|reflexivity]. apply Math_min_one_nonneg.
    apply Progress.nonneg_div_const; [|reflexivity]. apply Binary64.ofZ_nonneg. lia.
  - apply Progress.nonneg_mul; [|reflexivity].
    destruct (len (overlaps s) >? 0) eqn:G; [|reflexivity]. apply Z.gtb_lt in G.
    apply Correlation.nonneg_div; [|lia]. now apply sum_nonneg.
  - apply Progress.nonneg_mul; [|reflexivity].
    apply Correlation.nonneg_div; [|lia]. now apply sum_nonneg.
Qed.

(** ** The stored lists over a session *)

(** X12. In every session the stored overlaps never outnumber the pairs of
    adjacent stored frames, whatever the order of calls and whether the
    stitches succeeded. *)
Theorem overlaps_never_outnumber_pairs (calls : list Call) :
  len (overlaps (session calls)) <= Z.max 0 (len (frames (session calls)) - 1).
Proof.
  induction calls as [|c calls IH] using rev_ind.
  - reflexivity.
  - rewrite Composition.session_snoc. destruct c; cbn [call]; trivial.
    + rewrite Composition.addFrame_overlaps, Composition.addFrame_frames.
      destruct (_ <? 0.3)%float; trivial.
      unfold len in *. rewrite length_app. simpl. lia.
    + rewrite Composition.stitch_overlaps, Composition.stitch_frames.
      destruct (2 <=? len (frames (session calls))); trivial.
      pose proof (Sizing.detectOverlaps_length (frames (session calls))). unfold len. lia.
    + simpl. unfold len. simpl. lia.
Qed.

Lemma storedFrames_added latestFirst f :
  In f (storedFrames latestFirst) ->
  In (CallAddFrame f) latestFirst /\ (StitchFrame.quality f <? 0.3)%float = false.
Proof.
  induction latestFirst as [|c earlier IH]; [contradiction|].
  destruct c; cbn [storedFrames]; try (intros H; destruct (IH H); split; [now right|assumption]).
  - destruct (StitchFrame.quality frame <? 0.3)%float eqn:E.
    + intros H; destruct (IH H); split; [now right|assumption].
    + intros H. apply in_app_or in H. destruct H as [H|[<-|[]]].
      * destruct (IH H). split; [now right|assumption].
      * split; [now left|assumption].
  - contradiction.
Qed.

(** X13. In a session in which no frame handed to [addFrame] has a NaN
    quality, [getQuality] is a number that is not negative: frames that
    pass the gate have quality at least 0.3, and stored overlaps have
    confidence at least 0.5. *)
Theorem getQuality_not_negative (calls : list Call) :
  (forall f, In (CallAddFrame f) calls -> is_nan (StitchFrame.quality f) = false) ->
  len (frames (session calls)) < 2 ^ 53 ->
  (0 <=? getQuality (session calls))%float = true.
Proof.
  intros Hnum B. apply Progress.nonneg_zero_le. apply getQuality_nonneg; trivial.
  - rewrite Composition.session_frames. apply Forall_forall. intros f Hf.
    apply storedFrames_added in Hf. destruct Hf as [Hin Hgate].
    apply in_rev in Hin. specialize (Hnum f Hin).
    apply (leb_posfin_nonneg 0.3); [reflexivity|].
    apply Binary64.leb_of_ltb_false; [|reflexivity|assumption].
    unfold Binary64.notNaN. destruct (Binary64.isNaN (Prim2SF _)) eqn:E; trivial.
    assert (is_nan (StitchFrame.quality f) = true).
    { apply is_nan_spec. destruct (Prim2SF _); simpl in E; try discriminate. reflexivity. }
    congruence.
  - rewrite Composition.session_overlaps.
    induction (rev calls) as [|c earlier IH]; [constructor|].
    destruct c; cbn [mostRecentDetection]; trivial.
    destruct (2 <=? _); trivial.
    apply Detection.detectOverlaps_Forall. intros f1 f2 r H.
    apply (leb_posfin_nonneg 0.5); [reflexivity|].
    now apply Detection.detectOverlap_accepted in H.
  - pose proof (overlaps_never_outnumber_pairs calls). lia.
Qed.

Lemma getQuality_not_negative_witness :
  (0 <=? getQuality
           (session [CallAddFrame Examples.sharp; CallAddFrame Examples.blurred;
                     CallAddFrame Examples.sharp';
                     CallStitch Examples.exhaustedBrowser]))%float = true.
Proof.
  apply (getQuality_not_negative
           [CallAddFrame Examples.sharp; CallAddFrame Examples.blurred;
            CallAddFrame Examples.sharp'; CallStitch Examples.exhaustedBrowser]).
  - intros f [H|[H|[H|[H|[]]]]]; inversion H; reflexivity.
  - vm_compute. reflexivity.
Defined.

End Quality.

(** * The drawing loop *)

Module Drawing.

Import BoardStitcher.

Lemma drawImage_returned image dx dy cmd :
  drawImage image dx dy = Return cmd -> cmd = DrawImage image dx dy.
Proof.
  unfold drawImage. destruct (_ || _); [discriminate|].
  intros H; inversion H. reflexivity.
Qed.

Lemma blendFrames_returned frame1 frame2 overlap xOffset yOffset :
  snd (blendFrames frame1 frame2 overlap xOffset yOffset) = Return tt ->
  exists dx dy,
    In (DrawImage frame2 dx dy) (fst (blendFrames frame1 frame2 overlap xOffset yOffset)).
Proof.
  rewrite Throws.blendFrames_outcome.
  destruct (Throws.usable frame1) eqn:U1; [|discriminate].
  destruct (Throws.usable frame2) eqn:U2; [|discriminate].
  intros _. rewrite (Throws.blendFrames_usable _ _ _ _ _ U1 U2). cbn [fst].
  unfold Throws.blendCommands. do 2 eexists. do 7 right. left. reflexivity.
Qed.

Lemma drawStep_keeps fs ovs i frame st cmd :
  In cmd (commands st) -> In cmd (commands (drawStep fs ovs i frame st)).
Proof.
  intros H. unfold drawStep. destruct (status st); trivial.
  assert (A : In cmd
                (commands
                   match drawImage (StitchFrame.canvas frame) (currentX st)
                                   (Number.ofZ padding) with
                   | Return image =>
                       {| currentX :=
                            (currentX st
                             + Number.ofZ (Canvas.width (StitchFrame.canvas frame)))%float;
                          placed := map_set (placed st) (StitchFrame.id frame)
                                      (Transform.mk (currentX st) (Number.ofZ padding) 1);
                          commands := commands st ++ [image];
                          status := Return tt |}
                   | Throw e =>
                       {| currentX := currentX st;
                          placed := map_set (placed st) (StitchFrame.id frame)
                                      (Transform.mk (currentX st) (Number.ofZ padding) 1);
                          commands := commands st; status := Throw e |}
                   end)).
  { destruct (drawImage _ _ _); cbn [commands]; trivial. apply in_or_app; now left. }
  destruct (i =? 0); [exact A|].
  destruct (js_get ovs (i - 1)); [|exact A].
  destruct (js_get fs (i - 1)); cbn [commands]; trivial.
  destruct (blendFrames _ _ _ _ _) as [blend [[]|e]]; cbn [commands];
    apply in_or_app; now left.
Qed.

Lemma drawLoop_keeps fs ovs cmd : forall rest i st,
  In cmd (commands st) ->
  In cmd (commands (forEachFrom i rest (drawStep fs ovs) st)).
Proof.
  induction rest as [|f rest IH]; intros i st H; cbn [forEachFrom]; trivial.
  apply IH. now apply drawStep_keeps.
Qed.

(** A round that completes has drawn its frame. *)
Lemma drawStep_draws fs ovs i f st :
  status st = Return tt ->
  status (drawStep fs ovs i f st) = Return tt ->
  exists dx dy,
    In (DrawImage (StitchFrame.canvas f) dx dy) (commands (drawStep fs ovs i f st)).
Proof.
  intros Hst. unfold drawStep. rewrite Hst.
  assert (A : forall placed',
             status
               match drawImage (StitchFrame.canvas f) (currentX st)
                               (Number.ofZ padding) with
               | Return image =>
                   {| currentX :=
                        (currentX st
                         + Number.ofZ (Canvas.width (StitchFrame.canvas f)))%float;
                      placed := placed';
                      commands := commands st ++ [image];
                      status := Return tt |}
               | Throw e =>
                   {| currentX := currentX st; placed := placed';
                      commands := commands st; status := Throw e |}
               end = Return tt ->
             exists dx dy,
               In (DrawImage (StitchFrame.canvas f) dx dy)
                  (commands
                     match drawImage (StitchFrame.canvas f) (currentX st)
                                     (Number.ofZ padding) with
                     | Return image =>
                         {| currentX :=
                              (currentX st
                               + Number.ofZ (Canvas.width (StitchFrame.canvas f)))%float;
                            placed := placed';
                            commands := commands st ++ [image];
                            status := Return tt |}
                     | Throw e =>
                         {| currentX := currentX st; placed := placed';
                            commands := commands st; status := Throw e |}
                     end)).
  { intros placed'. destruct (drawImage _ _ _) as [image|e] eqn:D; [|discriminate].
    intros _. apply drawImage_returned in D. subst image.
    do 2 eexists. cbn [commands]. apply in_or_app. right. left. reflexivity. }
  destruct (i =? 0); [apply A|].
  destruct (js_get ovs (i - 1)) as [overlap|]; [|apply A].
  destruct (js_get fs (i - 1)) as [prevFrame|]; [|discriminate].
  pose proof (blendFrames_returned (StitchFrame.canvas prevFrame) (StitchFrame.canvas f)
                overlap
                (currentX st - Number.ofZ (Canvas.width (StitchFrame.canvas prevFrame)))%float
                (Number.ofZ padding)) as B.
  destruct (blendFrames _ _ _ _ _) as [blend [[]|e]]; cbn [status]; [|discriminate].
  intros _. destruct (B eq_refl) as (dx & dy & H). exists dx, dy.
  cbn [commands]. apply in_or_app. now right.
Qed.

Lemma drawLoop_draws fs ovs f : forall rest i st,
  status (forEachFrom i rest (drawStep fs ovs) st) = Return tt ->
  In f rest ->
  exists dx dy,
    In (DrawImage (StitchFrame.canvas f) dx dy)
       (commands (forEachFrom i rest (drawStep fs ovs) st)).
Proof.
  induction rest as [|g rest IH]; intros i st Hend Hin; [contradiction|].
  cbn [forEachFrom] in *.
  assert (Hstep : status (drawStep fs ovs i g st) = Return tt).
  { destruct (status (drawStep fs ovs i g st)) as [[]|e] eqn:E; [reflexivity|].
    rewrite (Throws.drawLoop_thrown fs ovs rest _ _ _ E), E in Hend. discriminate. }
  assert (Hst : status st = Return tt).
  { destruct (status st) as [[]|e] eqn:E; [reflexivity|].
    unfold drawStep in Hstep. rewrite E in Hstep. rewrite E in Hstep. discriminate. }
  destruct Hin as [->|Hin]; [|now apply IH].
  destruct (drawStep_draws fs ovs i f st Hst Hstep) as (dx & dy & D).
  exists dx, dy. now apply drawLoop_keeps.
Qed.

(** X15. When the drawing loop of [stitch] runs to its end, it has put
    every stored frame on the composition at least once, as a plain image
    or as the second image of a blend, whichever overlaps were found and
    wherever they sit in the list of overlaps; and it runs to its end
    whenever no frame canvas has an empty side. *)
Theorem every_frame_is_drawn (fs : list StitchFrame.t) (ovs : list OverlapRegion.t)
    (st : DrawState) :
  status st = Return tt ->
  (Forall (fun g => Canvas.width (StitchFrame.canvas g) <> 0 /\
                    Canvas.height (StitchFrame.canvas g) <> 0) fs ->
   status (drawFrames fs ovs st) = Return tt) /\
  (status (drawFrames fs ovs st) = Return tt ->
   forall f, In f fs ->
     exists dx dy,
       In (DrawImage (StitchFrame.canvas f) dx dy) (commands (drawFrames fs ovs st))).
Proof.
  intros Hst. split.
  - intros All. apply Throws.drawFrames_returns; trivial.
    revert All. apply Forall_impl. intros g [W H]. now apply Throws.usable_sides.
  - intros Hend f Hin. now apply (drawLoop_draws fs ovs f fs 0).
Qed.

Lemma every_frame_is_drawn_witness :
  exists dx dy,
    In (DrawImage (StitchFrame.canvas Examples.sliver) dx dy)
       (commands (drawFrames [Samples.pale; Examples.wide; Examples.sliver]
                    [Samples.joint] Samples.easel)).
Proof.
  destruct (every_frame_is_drawn [Samples.pale; Examples.wide; Examples.sliver]
              [Samples.joint] Samples.easel eq_refl) as [Runs Draws].
  apply Draws.
  - apply Runs. repeat (apply Forall_cons; [split; discriminate|]). apply Forall_nil.
  - simpl. auto.
Defined.

End Drawing.
